(** * bl4ck0PS: entity/property type system, transform contract, merge
      resolver and graph store

    A shallow embedding of the Python sources
      - [entities/base.py], [entities/event.py], [entities/email.py],
        [entities/person.py], ...
      - [transforms/base.py]
      - [ui/components/ai_dock.py] (merge resolver)
      - [ui/managers/graph_manager.py], [ui/managers/group_manager.py]
    followed by the statements proved about them.

    Conventions.  A Python class becomes a module (or a record of its
    fields), a method becomes a function of the same name taking the
    receiver explicitly, a raised exception becomes the [Raise] case of
    [result].  Python [float] is IEEE binary64, i.e. Rocq's primitive
    [float]; Python [int] is [Z]; [str] is [string], read as ASCII text. *)

From Stdlib Require Import ZArith String Ascii List Bool Floats Uint63 Lia.
From stdpp Require Import gmap strings list fin_maps.

Set Warnings "-inexact-float".
Local Open Scope string_scope.
Local Open Scope Z_scope.

(** ** Characters and text *)

Module Text.

Definition code (c : ascii) : N := N_of_ascii c.

(** [str.isspace] on one ASCII character: TAB..CR, FS..US and the blank. *)
Definition is_space (c : ascii) : bool :=
  let n := code c in
  (((9 <=? n) && (n <=? 13)) || ((28 <=? n) && (n <=? 32)))%N.

Definition is_digit (c : ascii) : bool :=
  let n := code c in ((48 <=? n) && (n <=? 57))%N.

Definition is_upper (c : ascii) : bool :=
  let n := code c in ((65 <=? n) && (n <=? 90))%N.

Definition is_lower (c : ascii) : bool :=
  let n := code c in ((97 <=? n) && (n <=? 122))%N.

(** The regular-expression class [\w], on ASCII. *)
Definition is_word (c : ascii) : bool :=
  is_digit c || is_upper c || is_lower c || (code c =? 95)%N.

Definition lower_char (c : ascii) : ascii :=
  if is_upper c then ascii_of_N (code c + 32) else c.

Definition chars (s : string) : list ascii := list_ascii_of_string s.
Definition text (l : list ascii) : string := string_of_list_ascii l.

(** [s.lower()] *)
Definition lower (s : string) : string := text (map lower_char (chars s)).

(** Value of a decimal digit character. *)
Definition digit_val (c : ascii) : option Z :=
  if is_digit c then Some (Z.of_N (code c) - 48) else None.

Definition digit (n : Z) : ascii := ascii_of_N (Z.to_N (48 + n mod 10)).

(** Decimal rendering of a natural number, most significant digit first;
    [fuel] bounds the number of digits. *)
Fixpoint digits_fuel (fuel : nat) (n : Z) (acc : list ascii) : list ascii :=
  match fuel with
  | O => acc
  | S k => if n <? 10 then digit n :: acc
           else digits_fuel k (n / 10) (digit n :: acc)
  end.

(** [str(n)] for an integer. *)
Definition of_Z (n : Z) : string :=
  let body := digits_fuel (S (Z.to_nat (Z.log2 (Z.abs n)))) (Z.abs n) [] in
  text (if n <? 0 then "-"%char :: body else body).

(** [sep.join(parts)] *)
Fixpoint join (sep : string) (parts : list string) : string :=
  match parts with
  | [] => ""
  | [p] => p
  | p :: rest => p +:+ sep +:+ join sep rest
  end.

(** [s.split()]: maximal runs of non-blank characters. *)
Fixpoint split_ws (l : list ascii) (cur : list ascii) : list string :=
  match l with
  | [] => match cur with [] => [] | _ => [text (rev cur)] end
  | c :: r =>
      if is_space c
      then match cur with
           | [] => split_ws r []
           | _ => text (rev cur) :: split_ws r []
           end
      else split_ws r (c :: cur)
  end.

Definition split (s : string) : list string := split_ws (chars s) [].

(** [s.split(':', 1)]: cut at the first colon, if there is one. *)
Fixpoint cut_colon (l : list ascii) (seen : list ascii)
  : option (string * string) :=
  match l with
  | [] => None
  | c :: r => if Ascii.eqb c ":"%char then Some (text (rev seen), text r)
              else cut_colon r (c :: seen)
  end.

End Text.

(** ** [datetime.datetime], with [strftime] and [strptime] for the two
    formats the program uses

    Only the fields that the formats ["%Y-%m-%d %H:%M"] and
    ["%Y-%m-%d %H:%M:%S"] read or write are kept.  A value of type
    [datetime.t] is always a legal date and time, as in Python, where the
    constructor refuses any other.  The text handed to [strptime] is
    ASCII text: a digit is one of [0] to [9], white space is one of the
    six ASCII blanks. *)

Module datetime.

Definition is_leap (y : Z) : bool :=
  (y mod 4 =? 0) && (negb (y mod 100 =? 0) || (y mod 400 =? 0)).

Definition days_in_month (y m : Z) : Z :=
  if m =? 2 then (if is_leap y then 29 else 28)
  else if (m =? 4) || (m =? 6) || (m =? 9) || (m =? 11) then 30
  else 31.

Definition between (lo x hi : Z) : bool := (lo <=? x) && (x <=? hi).

(** The range checks of the [datetime] constructor (MINYEAR = 1,
    MAXYEAR = 9999). *)
Definition legal (y mo d h mi s : Z) : bool :=
  between 1 y 9999 && between 1 mo 12 && between 1 d (days_in_month y mo)
  && between 0 h 23 && between 0 mi 59 && between 0 s 59.

Record t := mk {
  year : Z; month : Z; day : Z; hour : Z; minute : Z; second : Z;
  is_legal : legal year month day hour minute second = true
}.

(** A format is the list of its directives. *)
Inductive directive :=
| dY | dm | dd | dH | dM | dS            (* %Y %m %d %H %M %S *)
| lit (c : ascii)                        (* a literal character *)
| blank.                                 (* white space in the format *)

(** ["%Y-%m-%d %H:%M"] *)
Definition fmt_minutes : list directive :=
  [dY; lit "-"; dm; lit "-"; dd; blank; dH; lit ":"; dM].

(** ["%Y-%m-%d %H:%M:%S"] *)
Definition fmt_seconds : list directive :=
  fmt_minutes ++ [lit ":"; dS].

Definition pad2 (n : Z) : list ascii := [Text.digit (n / 10); Text.digit n].
Definition pad4 (n : Z) : list ascii :=
  [Text.digit (n / 1000); Text.digit (n / 100); Text.digit (n / 10);
   Text.digit n].

(** What [strftime] prints for one directive.  CPython hands the format
    to the C library, and glibc prints [%Y] as the decimal number of the
    year, without filling it with zeros: the year 987 is printed as
    [987], the year 5 as [5]. *)
Definition print_directive (d : directive) (x : t) : list ascii :=
  match d with
  | dY => Text.chars (Text.of_Z (year x))
  | dm => pad2 (month x)
  | dd => pad2 (day x)
  | dH => pad2 (hour x)
  | dM => pad2 (minute x)
  | dS => pad2 (second x)
  | lit c => [c]
  | blank => [" "%char]
  end.

(** [x.strftime(fmt)] *)
Definition strftime (x : t) (fmt : list directive) : string :=
  Text.text (flat_map (fun d => print_directive d x) fmt).

(** The fields collected while parsing; [strptime] starts from
    1900-01-01 00:00:00. *)
Record fields := mkf { fY : Z; fm : Z; fd : Z; fH : Z; fM : Z; fS : Z }.

Definition start : fields := mkf 1900 1 1 0 0 0.

Definition two (a b : Z) : Z := 10 * a + b.

(** Each directive is the alternation that [_strptime] compiles it to,
    tried from left to right on the first two characters: a value and
    whether it took two characters or one.
      %m  1[0-2]|0[1-9]|[1-9]
      %d  3[0-1]|[1-2]\d|0[1-9]|[1-9]| [1-9]
      %H  2[0-3]|[0-1]\d|\d
      %M  [0-5]\d|\d
      %S  6[0-1]|[0-5]\d|\d
    In both formats every numeric directive is followed by a literal, by
    white space or by the end of the pattern, so the first alternative
    that matches is the only one that can lead to a match of the whole
    string and no backtracking is modelled. *)
Definition alt (d : directive) (a : Z) (b : option Z) : option (Z * bool) :=
  let one (ok : bool) := if ok then Some (a, false) else None in
  let both (ok : Z -> bool) (k : bool) :=
    match b with
    | Some b' => if ok b' then Some (two a b', true) else one k
    | None => one k
    end in
  match d with
  | dm => if a =? 1 then both (fun b => b <=? 2) true
          else if a =? 0 then both (fun b => 1 <=? b) false
          else one true
  | dd => if a =? 3 then both (fun b => b <=? 1) true
          else if (a =? 1) || (a =? 2) then both (fun _ => true) true
          else if a =? 0 then both (fun b => 1 <=? b) false
          else one true
  | dH => if a =? 2 then both (fun b => b <=? 3) true
          else if a <=? 1 then both (fun _ => true) true
          else one true
  | dM => if a <=? 5 then both (fun _ => true) true else one true
  | dS => if a =? 6 then both (fun b => b <=? 1) true
          else if a <=? 5 then both (fun _ => true) true
          else one true
  | _ => None
  end.

(** The last alternative of %d, a blank and a digit from 1 to 9. *)
Definition alt_blank (d : directive) (b : option Z) : option (Z * bool) :=
  match d, b with
  | dd, Some b' => if 1 <=? b' then Some (b', true) else None
  | _, _ => None
  end.

Definition store (d : directive) (v : Z) (f : fields) : fields :=
  match d with
  | dY => mkf v (fm f) (fd f) (fH f) (fM f) (fS f)
  | dm => mkf (fY f) v (fd f) (fH f) (fM f) (fS f)
  | dd => mkf (fY f) (fm f) v (fH f) (fM f) (fS f)
  | dH => mkf (fY f) (fm f) (fd f) v (fM f) (fS f)
  | dM => mkf (fY f) (fm f) (fd f) (fH f) v (fS f)
  | dS => mkf (fY f) (fm f) (fd f) (fH f) (fM f) v
  | _ => f
  end.

Fixpoint skip_blanks (l : list ascii) : list ascii :=
  match l with
  | c :: r => if Text.is_space c then skip_blanks r else l
  | [] => []
  end.

(** One directive against the head of the input: the fields so far and
    the rest of the input, or [None] when the pattern does not match. *)
Definition step (d : directive) (f : fields) (l : list ascii)
  : option (fields * list ascii) :=
  match d with
  | lit c => match l with
             | c' :: r => if Ascii.eqb c c' then Some (f, r) else None
             | [] => None
             end
  | blank => match l with                       (* \s+ *)
             | c :: r => if Text.is_space c then Some (f, skip_blanks r)
                         else None
             | [] => None
             end
  | dY => match l with                          (* \d\d\d\d *)
          | a :: b :: c :: e :: r =>
              match Text.digit_val a, Text.digit_val b,
                    Text.digit_val c, Text.digit_val e with
              | Some a', Some b', Some c', Some e' =>
                  Some (store dY (two (two (two a' b') c') e') f, r)
              | _, _, _, _ => None
              end
          | _ => None
          end
  | _ => match l with
         | a :: r =>
             let b := match r with c :: _ => Text.digit_val c | [] => None end in
             match (match Text.digit_val a with
                    | Some a' => alt d a' b
                    | None => if Ascii.eqb a " "%char then alt_blank d b
                              else None
                    end) with
             | Some (v, took_two) =>
                 Some (store d v f, if took_two then tl r else r)
             | None => None
             end
         | [] => None
         end
  end.

Fixpoint run (fmt : list directive) (f : fields) (l : list ascii)
  : option (fields * list ascii) :=
  match fmt with
  | [] => Some (f, l)
  | d :: fmt' => match step d f l with
                 | Some (f', l') => run fmt' f' l'
                 | None => None
                 end
  end.

(** The checked constructor: [None] is Python's [ValueError]. *)
Definition make (y mo d h mi s : Z) : option t :=
  match Bool.bool_dec (legal y mo d h mi s) true with
  | left H => Some (mk y mo d h mi s H)
  | right _ => None
  end.

(** [datetime.strptime(s, fmt)]; [None] is [ValueError]: the pattern
    does not match, unconverted data remains, or the fields are not a
    legal date and time. *)
Definition strptime (s : string) (fmt : list directive) : option t :=
  match run fmt start (Text.chars s) with
  | Some (f, []) => make (fY f) (fm f) (fd f) (fH f) (fM f) (fS f)
  | _ => None
  end.

(** [str(x)], microseconds being zero: [isoformat] with a blank, which
    CPython prints itself, the year filled to four digits. *)
Definition isoformat (x : t) : string :=
  Text.text
    (pad4 (year x) ++ "-"%char :: pad2 (month x) ++ "-"%char :: pad2 (day x)
     ++ " "%char :: pad2 (hour x) ++ ":"%char :: pad2 (minute x)
     ++ ":"%char :: pad2 (second x))%list.

End datetime.

(** ** Python values, exceptions and dictionaries *)

(** The values a property can hold. *)
Inductive pyval :=
| VNone
| VBool (b : bool)
| VInt (n : Z)
| VFloat (x : float)
| VStr (s : string)
| VDatetime (d : datetime.t).

(** The classes used as property types ([str], [int], [float], [bool]). *)
Inductive pytype := TStr | TInt | TFloat | TBool.

Definition type_name (t : pytype) : string :=
  match t with
  | TStr => "str" | TInt => "int" | TFloat => "float" | TBool => "bool"
  end.

(** [type(v).__name__] *)
Definition type_name_of (v : pyval) : string :=
  match v with
  | VNone => "NoneType" | VBool _ => "bool" | VInt _ => "int"
  | VFloat _ => "float" | VStr _ => "str" | VDatetime _ => "datetime"
  end.

(** [isinstance(v, t)]; [bool] is a subclass of [int]. *)
Definition isinstance (v : pyval) (t : pytype) : bool :=
  match v, t with
  | VStr _, TStr => true
  | VInt _, TInt => true
  | VBool _, TInt => true
  | VBool _, TBool => true
  | VFloat _, TFloat => true
  | _, _ => false
  end.

(** Truth value of [v], as in [if v:] and [not v]. *)
Definition truthy (v : pyval) : bool :=
  match v with
  | VNone => false
  | VBool b => b
  | VInt n => negb (n =? 0)
  | VFloat x => negb (PrimFloat.eqb x 0%float)
  | VStr s => negb (String.eqb s "")
  | VDatetime _ => true
  end.

(** The second argument of [PropertyValidationError]: a type or a text. *)
Inductive expected :=
| ExpType (t : pytype)
| ExpText (s : string).

(** Exceptions that derive from [BaseException] but not from
    [Exception]. *)
Inductive base_only :=
| KeyboardInterrupt | SystemExit | GeneratorExit | CancelledError.

(** Exception objects.  [PropertyValidationError] keeps its three
    attributes and the message fixed by its constructor. *)
Inductive pyexc :=
| PropertyValidationError (property_name : string) (value : pyval)
    (expected_type : expected) (message : string)
| ValueError (message : string)
| TypeError (message : string)
| KeyError (key : string)
| OverflowError (message : string)
| TransformValidationError (message : string)
| TransformExecutionError (message : string) (cause : pyexc)
| OtherException (class_name : string) (message : string)
| BaseOnly (c : base_only).

(** [isinstance(e, Exception)], what [except Exception] catches. *)
Definition is_Exception (e : pyexc) : bool :=
  match e with BaseOnly _ => false | _ => true end.

(** [str(e)] *)
Definition exc_str (e : pyexc) : string :=
  match e with
  | PropertyValidationError _ _ _ m => m
  | ValueError m | TypeError m | OverflowError m => m
  | KeyError k => "'" +:+ k +:+ "'"
  | TransformValidationError m => m
  | TransformExecutionError m _ => m
  | OtherException _ m => m
  | BaseOnly _ => ""
  end.

Inductive result (A : Type) :=
| Ok (a : A)
| Raise (e : pyexc).
Arguments Ok {A} a.
Arguments Raise {A} e.

Definition bind {A B} (r : result A) (k : A -> result B) : result B :=
  match r with
  | Ok a => k a
  | Raise e => Raise e
  end.

Notation "x <- r ;; k" := (bind r (fun x => k))
  (at level 100, r at next level, right associativity).

Definition _get_type_name (e : expected) : string :=
  match e with
  | ExpType t => type_name t
  | ExpText s => s
  end.

(** [PropertyValidationError(property_name, value, expected_type)] *)
Definition new_PropertyValidationError
  (property_name : string) (value : pyval) (expected_type : expected) : pyexc :=
  PropertyValidationError property_name value expected_type
    ("Invalid value for property '" +:+ property_name +:+ "': expected "
     +:+ _get_type_name expected_type +:+ ", got " +:+ type_name_of value).

(** A Python [dict] with string keys: the entries in insertion order,
    every key at most once. *)
Module Dict.

Definition t (V : Type) := list (string * V).

Fixpoint get {V} (d : t V) (k : string) : option V :=
  match d with
  | [] => None
  | (k', v) :: r => if String.eqb k k' then Some v else get r k
  end.

(** [k in d] *)
Definition mem {V} (d : t V) (k : string) : bool :=
  match get d k with Some _ => true | None => false end.

(** [d[k] = v]: in place for a key already there, else at the end. *)
Fixpoint set {V} (d : t V) (k : string) (v : V) : t V :=
  match d with
  | [] => [(k, v)]
  | (k', v') :: r =>
      if String.eqb k k' then (k', v) :: r else (k', v') :: set r k v
  end.

(** [d.update(other)] *)
Definition update {V} (d other : t V) : t V :=
  fold_left (fun acc kv => set acc (fst kv) (snd kv)) other d.

(** [del d[k]] for a key that may be absent. *)
Fixpoint remove {V} (d : t V) (k : string) : t V :=
  match d with
  | [] => []
  | (k', v) :: r => if String.eqb k k' then r else (k', v) :: remove r k
  end.

Definition keys {V} (d : t V) : list string := map fst d.

(** The representation invariant of a dictionary. *)
Definition wf {V} (d : t V) : Prop := List.NoDup (keys d).

End Dict.

(** The conversions between text and numbers that the built-in
    constructors [int], [float] and [repr] perform.  Their results are
    fixed by CPython, not by this program; every statement below holds
    for any choice of them. *)
Class Builtins := {
  float_repr : float -> string;            (* repr(x) *)
  int_of_str : string -> option Z;         (* int(s); None: ValueError *)
  float_of_str : string -> option float;   (* float(s); None: ValueError *)
  int_of_float : float -> result Z;        (* int(x); nan, inf raise *)
  float_of_int : Z -> option float         (* float(n); None: OverflowError *)
}.

Section Conversions.
Context {B : Builtins}.

(** [str(v)] *)
Definition py_str (v : pyval) : string :=
  match v with
  | VNone => "None"
  | VBool true => "True"
  | VBool false => "False"
  | VInt n => Text.of_Z n
  | VFloat x => float_repr x
  | VStr s => s
  | VDatetime d => datetime.isoformat d
  end.

(** [int(v)] *)
Definition py_int (v : pyval) : result Z :=
  match v with
  | VInt n => Ok n
  | VBool b => Ok (if b then 1 else 0)
  | VFloat x => int_of_float x
  | VStr s =>
      match int_of_str s with
      | Some n => Ok n
      | None => Raise (ValueError
                  ("invalid literal for int() with base 10: '" +:+ s +:+ "'"))
      end
  | _ => Raise (TypeError
           ("int() argument must be a string, a bytes-like object or a real number, not '"
            +:+ type_name_of v +:+ "'"))
  end.

(** [float(v)] *)
Definition py_float (v : pyval) : result float :=
  match v with
  | VFloat x => Ok x
  | VInt n =>
      match float_of_int n with
      | Some x => Ok x
      | None => Raise (OverflowError "int too large to convert to float")
      end
  | VBool b => Ok (if b then 1%float else 0%float)
  | VStr s =>
      match float_of_str s with
      | Some x => Ok x
      | None => Raise (ValueError
                  ("could not convert string to float: '" +:+ s +:+ "'"))
      end
  | _ => Raise (TypeError
           ("float() argument must be a string or a real number, not '"
            +:+ type_name_of v +:+ "'"))
  end.

(** [t(v)], the call of a property type on a value. *)
Definition construct (t : pytype) (v : pyval) : result pyval :=
  match t with
  | TStr => Ok (VStr (py_str v))
  | TInt => n <- py_int v ;; Ok (VInt n)
  | TFloat => x <- py_float v ;; Ok (VFloat x)
  | TBool => Ok (VBool (truthy v))
  end.

(** [len(v)] *)
Definition py_len (v : pyval) : result Z :=
  match v with
  | VStr s => Ok (Z.of_nat (String.length s))
  | _ => Raise (TypeError
           ("object of type '" +:+ type_name_of v +:+ "' has no len()"))
  end.

End Conversions.

(** ** Property validators ([entities/base.py], [entities/event.py]) *)

(** A compiled regular expression: its source and its [match]. *)
Record regex := { rx_pattern : string; rx_match : string -> bool }.

(** A validator object: its class and the attributes set by [__init__].
    [EmailValidator] is a [StringValidator] built with a fixed pattern;
    [DateTimeValidator] inherits the constructor of [StringValidator]
    unchanged and overrides [validate]. *)
Inductive validator :=
| PropertyValidator (property_type : pytype)
| StringValidator (min_length : Z) (max_length : option Z)
    (pattern : option regex)
| IntegerValidator (min_value max_value : option Z)
| FloatValidator (min_value max_value : option float) (precision : option Z)
| ListValidator (choices : list string) (allow_empty : bool)
| DateTimeValidator.

(** Every validator raises with the property name ["unknown"]. *)
Definition unknown (value : pyval) (e : expected) : pyexc :=
  new_PropertyValidationError "unknown" value e.

(** [except (ValueError, TypeError)] *)
Definition is_Value_or_Type_Error (e : pyexc) : bool :=
  match e with ValueError _ | TypeError _ => true | _ => false end.

Module PropertyValidator.
Section Methods.
Context {B : Builtins}.

Definition validate (property_type : pytype) (value : pyval) : result pyval :=
  if negb (isinstance value property_type) then
    match construct property_type value with
    | Ok value' => Ok value'
    | Raise e =>
        if is_Value_or_Type_Error e
        then Raise (unknown value (ExpType property_type))
        else Raise e
    end
  else Ok value.

End Methods.
End PropertyValidator.

Module StringValidator.
Section Methods.
Context {B : Builtins}.

(** [self.max_length and len(value) > self.max_length] *)
Definition too_long (max_length : option Z) (n : Z) : option Z :=
  match max_length with
  | Some m => if negb (m =? 0) && (n >? m) then Some m else None
  | None => None
  end.

Definition validate
  (min_length : Z) (max_length : option Z) (pattern : option regex)
  (value : pyval) : result pyval :=
  value <- PropertyValidator.validate TStr value ;;
  n <- py_len value ;;
  if n <? min_length then
    Raise (unknown value
      (ExpText ("String length must be at least " +:+ Text.of_Z min_length)))
  else
    match too_long max_length n with
    | Some m =>
        Raise (unknown value
          (ExpText ("String length must be at most " +:+ Text.of_Z m)))
    | None =>
        match pattern with
        | Some p =>
            if negb (rx_match p (py_str value)) then
              Raise (unknown value
                (ExpText ("String must match pattern " +:+ rx_pattern p)))
            else Ok value
        | None => Ok value
        end
    end.

End Methods.
End StringValidator.

Module IntegerValidator.
Section Methods.
Context {B : Builtins}.

(** The integer an [int] instance stands for in a comparison. *)
Definition int_value (v : pyval) : result Z :=
  match v with
  | VInt n => Ok n
  | VBool b => Ok (if b then 1 else 0)
  | _ => Raise (TypeError "'<' not supported between these instances")
  end.

Definition validate (min_value max_value : option Z) (value : pyval)
  : result pyval :=
  value <- PropertyValidator.validate TInt value ;;
  n <- int_value value ;;
  match (match min_value with
         | Some lo => if n <? lo then Some lo else None
         | None => None
         end) with
  | Some lo =>
      Raise (unknown value
        (ExpText ("Value must be at least " +:+ Text.of_Z lo)))
  | None =>
      match (match max_value with
             | Some hi => if n >? hi then Some hi else None
             | None => None
             end) with
      | Some hi =>
          Raise (unknown value
            (ExpText ("Value must be at most " +:+ Text.of_Z hi)))
      | None => Ok value
      end
  end.

End Methods.
End IntegerValidator.

Module FloatValidator.
Section Methods.
Context {B : Builtins}.

Definition float_value (v : pyval) : result float :=
  match v with
  | VFloat x => Ok x
  | _ => Raise (TypeError "'<' not supported between these instances")
  end.

Definition validate (min_value max_value : option float) (value : pyval)
  : result pyval :=
  value <-
    (if isinstance value TStr then
       (* Handle string input with more precision *)
       match py_float value with
       | Ok x => Ok (VFloat x)
       | Raise e =>
           match e with
           | ValueError _ => Raise (unknown value (ExpType TFloat))
           | _ => Raise e
           end
       end
     else PropertyValidator.validate TFloat value) ;;
  x <- float_value value ;;
  match (match min_value with
         | Some lo => if PrimFloat.ltb x lo then Some lo else None
         | None => None
         end) with
  | Some lo =>
      Raise (unknown value
        (ExpText ("Value must be at least " +:+ float_repr lo)))
  | None =>
      match (match max_value with
             | Some hi => if PrimFloat.ltb hi x then Some hi else None
             | None => None
             end) with
      | Some hi =>
          Raise (unknown value
            (ExpText ("Value must be at most " +:+ float_repr hi)))
      | None =>
          (* Don't round during validation to preserve precision *)
          Ok value
      end
  end.

End Methods.
End FloatValidator.

Module ListValidator.
Section Methods.
Context {B : Builtins}.

Definition validate (choices : list string) (allow_empty : bool)
  (value : pyval) : result pyval :=
  if negb (truthy value) && allow_empty then Ok (VStr "")
  else
    value <- PropertyValidator.validate TStr value ;;
    if negb (existsb (String.eqb (py_str value)) choices) then
      Raise (unknown value
        (ExpText ("Value must be one of: " +:+ Text.join ", " choices)))
    else Ok value.

(** [get_choices] *)
Definition get_choices (choices : list string) : list string := choices.

End Methods.
End ListValidator.

Module DateTimeValidator.
Section Methods.
Context {B : Builtins}.

Definition validate (value : pyval) : result pyval :=
  match value with
  | VDatetime d => Ok (VStr (datetime.strftime d datetime.fmt_minutes))
  | _ =>
      (* str(value) for a value that is not a string *)
      let value := py_str value in
      match datetime.strptime value datetime.fmt_minutes with
      | Some dt => Ok (VStr (datetime.strftime dt datetime.fmt_minutes))
      | None =>
          match datetime.strptime value datetime.fmt_seconds with
          | Some dt => Ok (VStr (datetime.strftime dt datetime.fmt_minutes))
          | None =>
              Raise (ValueError
                ("Invalid datetime format. Expected YYYY-MM-DD HH:mm, got "
                 +:+ value))
          end
      end
  end.

End Methods.
End DateTimeValidator.

Section Dispatch.
Context {B : Builtins}.

(** [v.validate(value)], by the class of [v]. *)
Definition validate (v : validator) (value : pyval) : result pyval :=
  match v with
  | PropertyValidator t => PropertyValidator.validate t value
  | StringValidator lo hi p => StringValidator.validate lo hi p value
  | IntegerValidator lo hi => IntegerValidator.validate lo hi value
  | FloatValidator lo hi _ => FloatValidator.validate lo hi value
  | ListValidator cs e => ListValidator.validate cs e value
  | DateTimeValidator => DateTimeValidator.validate value
  end.

End Dispatch.

(** [StringValidator()], all arguments at their defaults. *)
Definition StringValidator_default : validator := StringValidator 0 None None.

(** [EmailValidator()], given the compiled pattern
    [^[a-zA-Z0-9._%+-]+@[a-zA-Z0-9.-]+\.[a-zA-Z]{2,}$]. *)
Definition EmailValidator (email : regex) : validator :=
  StringValidator 0 None (Some email).

(** ** Entities ([entities/base.py]) *)

(** The plain mapping an entity is serialised to.  A key that is absent
    is [None]; ["color"] is read with [get], so an absent colour and the
    colour [None] are the same. *)
Module Mapping.
Record t := mk {
  id : option string;
  type : option string;
  label : option string;
  properties : option (Dict.t pyval);
  color : option string
}.

(** [data[key]] *)
Definition item {A} (key : string) (x : option A) : result A :=
  match x with
  | Some a => Ok a
  | None => Raise (KeyError key)
  end.

Definition set_properties (d : t) (ps : Dict.t pyval) : t :=
  mk (id d) (type d) (label d) (Some ps) (color d).
End Mapping.

(** [EntityData].  Its [properties] attribute is always the very
    dictionary held by the entity ([update_data] and [from_dict] store
    the same object in both places), so the model keeps that dictionary
    once, in the entity. *)
Module EntityData.
Record t := mk {
  id : string;
  type : string;
  label : string;
  color : option string
}.

Definition to_dict (d : t) (properties : Dict.t pyval) : Mapping.t :=
  Mapping.mk (Some (id d)) (Some (type d)) (Some (label d))
    (Some properties) (color d).

Definition from_dict (data : Mapping.t) : result (t * Dict.t pyval) :=
  i <- Mapping.item "id" (Mapping.id data) ;;
  t <- Mapping.item "type" (Mapping.type data) ;;
  l <- Mapping.item "label" (Mapping.label data) ;;
  ps <- Mapping.item "properties" (Mapping.properties data) ;;
  Ok (mk i t l (Mapping.color data), ps).
End EntityData.

Module Entity.

(** The attributes of an instance other than [data]. *)
Record fields := mkfields {
  label : string;
  properties : Dict.t pyval;
  property_types : Dict.t pytype;
  property_validators : Dict.t validator
}.

Definition with_label (l : string) (s : fields) : fields :=
  mkfields l (properties s) (property_types s) (property_validators s).
Definition with_properties (ps : Dict.t pyval) (s : fields) : fields :=
  mkfields (label s) ps (property_types s) (property_validators s).
Definition with_property_types (ts : Dict.t pytype) (s : fields) : fields :=
  mkfields (label s) (properties s) ts (property_validators s).
Definition with_property_validators (vs : Dict.t validator) (s : fields)
  : fields :=
  mkfields (label s) (properties s) (property_types s) vs.

(** What a class attribute evaluates to on the class itself: the string
    it was bound to, or a property object when the class body goes on to
    define a property of the same name. *)
Inductive class_attr :=
| ClassStr (s : string)
| ClassProperty.

(** A concrete subclass: its class attributes and the methods it
    defines or overrides. *)
Record class := mkclass {
  __name__ : string;                       (* the name of the class *)
  name : class_attr;                       (* the class attribute name *)
  color : string;                          (* ClassVar color *)
  init_properties : fields -> fields;
  update_label : fields -> fields;
  to_dict : fields -> EntityData.t -> fields * Mapping.t
}.

(** An entity object, once its constructor has returned: [data] is set
    by the first [update_data]. *)
Record t := mk { cls : class; self : fields; data : EntityData.t }.

Section Methods.
Context {B : Builtins}.

(** [create_validator(prop_name, prop_type)] *)
Definition create_validator (prop_name : string) (prop_type : pytype)
  : validator :=
  match prop_type with
  | TStr => StringValidator 0 None None
  | TInt => IntegerValidator None None
  | TFloat => FloatValidator None None None
  | _ => PropertyValidator prop_type
  end.

(** [setup_properties(properties)] *)
Definition setup_properties (props : Dict.t pytype) (s : fields) : fields :=
  let s := with_property_types (Dict.update (property_types s) props) s in
  let fresh :=
    map (fun nt => (fst nt, create_validator (fst nt) (snd nt)))
      (filter (fun nt => negb (Dict.mem (property_validators s) (fst nt)))
         props) in
  with_property_validators (Dict.update (property_validators s) fresh) s.

(** [format_label(primary_props, separator)], for a class whose
    [name] is [class_var_name]. *)
Definition format_label (class_var_name : string)
  (primary_props : list string) (separator : string) (s : fields) : string :=
  let components :=
    flat_map (fun prop =>
      match Dict.get (properties s) prop with
      | Some v => if truthy v then [py_str v] else []
      | None => []
      end) primary_props in
  match components with
  | [] => class_var_name
  | _ => Text.join separator components
  end.

(** [except PropertyValidationError as e: e.property_name = name; raise] *)
Definition stamp (name : string) (e : pyexc) : pyexc :=
  match e with
  | PropertyValidationError _ v x m => PropertyValidationError name v x m
  | _ => e
  end.

(** The loop of [validate_properties] over the entries [items], with the
    dictionary as updated so far. *)
Fixpoint validate_items (class_name : string)
  (types : Dict.t pytype) (validators : Dict.t validator)
  (items : list (string * pyval)) (props : Dict.t pyval)
  : Dict.t pyval * result unit :=
  match items with
  | [] => (props, Ok tt)
  | (name, value) :: rest =>
      match Dict.get types name with
      | None =>
          (props,
           Raise (new_PropertyValidationError name value
                    (ExpText ("Unknown property '" +:+ name +:+ "' for "
                              +:+ class_name))))
      | Some ty =>
          (* Get validator for this property *)
          let v := match Dict.get validators name with
                   | Some v => v
                   | None => PropertyValidator ty
                   end in
          match validate v value with
          | Ok value' =>
              validate_items class_name types validators rest
                (Dict.set props name value')
          | Raise e => (props, Raise (stamp name e))
          end
      end
  end.

(** [validate_properties()]: the instance afterwards and the outcome. *)
Definition validate_properties (c : class) (s : fields)
  : fields * result unit :=
  let (ps, r) :=
    validate_items (__name__ c) (property_types s) (property_validators s)
      (properties s) (properties s) in
  (with_properties ps s, r).

(** [update_data()].  [old] is the current [data], if the instance has
    one; [uuid4] is the text [str(uuid.uuid4())] would return. *)
Definition update_data (c : class) (uuid4 : string)
  (old : option EntityData.t) (s : fields) : fields * EntityData.t :=
  (* Let subclasses update their label first *)
  let s := update_label c s in
  let i := match old with
           | Some d => if negb (String.eqb (EntityData.id d) "")
                       then EntityData.id d else uuid4
           | None => uuid4
           end in
  (s, EntityData.mk i (__name__ c) (label s) (Some (color c))).

Definition standard_types : Dict.t pytype :=
  [("notes", TStr); ("source", TStr); ("image", TStr)].

Definition standard_validators : Dict.t validator :=
  [("notes", StringValidator 0 None None);
   ("source", StringValidator 0 None None);
   ("image", StringValidator 0 None None)].

(** The part of [__post_init__] before the properties are validated. *)
Definition declare (c : class) (s : fields) : fields :=
  (* Initialize instance-specific property types and validators *)
  let s := with_property_types [] s in
  let s := with_property_validators [] s in
  (* Let subclasses initialize their properties *)
  let s := init_properties c s in
  (* Add standard properties last to ensure they appear at the bottom *)
  let s := with_property_types
             (Dict.update (property_types s) standard_types) s in
  with_property_validators
    (Dict.update (property_validators s) standard_validators) s.

(** [__post_init__()].  [_generate_property_getters] installs accessors
    on the class and leaves the instance as it is. *)
Definition __post_init__ (c : class) (uuid4 : string) (s : fields)
  : result (fields * EntityData.t) :=
  let s := declare c s in
  (* Validate and update data *)
  let (s, r) := validate_properties c s in
  _ <- r ;;
  Ok (update_data c uuid4 None s).

(** [c(label=label, properties=properties)], the generated constructor
    followed by [__post_init__]. *)
Definition new (c : class) (label : string) (properties : Dict.t pyval)
  (uuid4 : string) : result t :=
  sd <- __post_init__ c uuid4 (mkfields label properties [] []) ;;
  Ok (mk c (fst sd) (snd sd)).

(** The properties [id] and [type]. *)
Definition id (e : t) : string := EntityData.id (data e).
Definition type (e : t) : class_attr := name (cls e).

(** [Entity.to_dict], the method of the base class. *)
Definition base_to_dict (s : fields) (d : EntityData.t) : fields * Mapping.t :=
  (s, EntityData.to_dict d (properties s)).

(** [e.to_dict()], by the class of [e]: the entity afterwards and the
    mapping. *)
Definition call_to_dict (e : t) : t * Mapping.t :=
  let (s, m) := to_dict (cls e) (self e) (data e) in
  (mk (cls e) s (data e), m).

(** [Entity.from_dict(data)], given the registry [ENTITY_TYPES]. *)
Definition from_dict (ENTITY_TYPES : Dict.t class) (data : Mapping.t)
  (uuid4 : string) : result t :=
  (* Get the correct entity class based on type *)
  entity_type <- Mapping.item "type" (Mapping.type data) ;;
  match Dict.get ENTITY_TYPES entity_type with
  | None => Raise (ValueError ("Unknown entity type: " +:+ entity_type))
  | Some entity_class =>
      (* Create instance of the correct class *)
      l <- Mapping.item "label" (Mapping.label data) ;;
      entity <- new entity_class l [] uuid4 ;;
      ps <- Mapping.item "properties" (Mapping.properties data) ;;
      let s := with_properties ps (self entity) in
      dp <- EntityData.from_dict data ;;
      Ok (mk entity_class s (fst dp))
  end.

End Methods.
End Entity.

(** ** The concrete entity classes

    Nine of the twelve classes of the package.  [Email], whose
    constructor goes on after that of the base class, is modelled
    further down; [Phone] and [Location] are not modelled: the label of
    a [Location] is computed by a geocoding service reached over the
    network.

    [Person] gives the bounds of [height] as the integers [0] and [300];
    a float is compared with them as with [0.0] and [300.0], which is
    how they are written here, and only the text of the error for a
    height out of bounds differs ([0] is printed for [0.0]). *)

Section Classes.
Context {B : Builtins}.

(** The body shared by the subclasses whose label is
    [format_label(primary_props)]. *)
Definition labelled (class_var_name : string) (primary_props : list string)
  (s : Entity.fields) : Entity.fields :=
  Entity.with_label
    (Entity.format_label class_var_name primary_props ", " s) s.

Definition update_validators (vs : Dict.t validator) (s : Entity.fields)
  : Entity.fields :=
  Entity.with_property_validators
    (Dict.update (Entity.property_validators s) vs) s.

Definition Person : Entity.class :=
  Entity.mkclass "Person" (Entity.ClassStr "Person") "#4CAF50"
    (fun s =>
       let s := Entity.setup_properties
                  [("full_name", TStr); ("age", TInt); ("height", TFloat);
                   ("nationality", TStr); ("occupation", TStr)] s in
       update_validators
         [("full_name", StringValidator 2 None None);
          ("age", IntegerValidator (Some 0) (Some 150));
          ("height", FloatValidator (Some 0%float) (Some 300%float) None);
          ("nationality", StringValidator 2 None None)] s)
    (labelled "Person" ["full_name"])
    Entity.base_to_dict.

Definition Company : Entity.class :=
  Entity.mkclass "Company" (Entity.ClassStr "Company") "#037d9e"
    (Entity.setup_properties [("name", TStr); ("description", TStr)])
    (labelled "Company" ["name"])
    Entity.base_to_dict.

Definition Evidence : Entity.class :=
  Entity.mkclass "Evidence" (Entity.ClassStr "Evidence") "#02bfd4"
    (Entity.setup_properties
       [("name", TStr); ("description", TStr); ("tampered", TBool)])
    (labelled "Evidence" ["name"])
    Entity.base_to_dict.

Definition Image : Entity.class :=
  Entity.mkclass "Image" (Entity.ClassStr "Image") "#E9B96E"
    (Entity.setup_properties
       [("title", TStr); ("url", TStr); ("description", TStr)])
    (labelled "Image" ["title"])
    Entity.base_to_dict.

Definition Text_ : Entity.class :=
  Entity.mkclass "Text" (Entity.ClassStr "Text") "#D0BD1D"
    (Entity.setup_properties [("text", TStr)])
    (labelled "Text" ["text"])
    Entity.base_to_dict.

Definition Username : Entity.class :=
  Entity.mkclass "Username" (Entity.ClassStr "Username") "#21B57D"
    (Entity.setup_properties
       [("username", TStr); ("platform", TStr); ("link", TStr)])
    (labelled "Username" ["username"])
    Entity.base_to_dict.

Definition Vehicle : Entity.class :=
  Entity.mkclass "Vehicle" (Entity.ClassStr "Vehicle") "#6c5952"
    (Entity.setup_properties
       [("model", TStr); ("color", TStr); ("year", TInt); ("vin", TStr)])
    (labelled "Vehicle" ["model"; "year"])
    Entity.base_to_dict.

Definition Website : Entity.class :=
  Entity.mkclass "Website" (Entity.ClassStr "Website") "#9C27B0"
    (fun s =>
       let s := Entity.setup_properties
                  [("url", TStr); ("domain", TStr); ("title", TStr);
                   ("description", TStr); ("ip_address", TStr);
                   ("status", TStr); ("technologies", TStr)] s in
       update_validators
         [("url", StringValidator 4 None None);
          ("domain", StringValidator 3 None None)] s)
    (labelled "Website" ["title"])
    Entity.base_to_dict.

End Classes.

(** *** [Event] ([entities/event.py]) *)

Module Event.
Section Methods.
Context {B : Builtins}.

Definition init_properties (s : Entity.fields) : Entity.fields :=
  let s := Entity.setup_properties
             [("name", TStr); ("description", TStr); ("start_date", TStr);
              ("end_date", TStr); ("add_to_timeline", TBool)] s in
  (* Add validators for date fields *)
  let s := update_validators
             [("start_date", DateTimeValidator);
              ("end_date", DateTimeValidator)] s in
  (* Set default value for add_to_timeline *)
  if negb (Dict.mem (Entity.properties s) "add_to_timeline")
  then Entity.with_properties
         (Dict.set (Entity.properties s) "add_to_timeline" (VBool false)) s
  else s.

(** [self.label = self.properties["name"]]; the value is a string once
    the properties have been validated, and is shown by its [str]
    otherwise. *)
Definition update_label (s : Entity.fields) : Entity.fields :=
  match Dict.get (Entity.properties s) "name" with
  | Some v => if truthy v then Entity.with_label (py_str v) s
              else Entity.with_label "Event" s
  | None => Entity.with_label "Event" s
  end.

(** The two tests of [to_dict], on one date field. *)
Definition date_to_text (date_field : string) (ps : Dict.t pyval)
  : Dict.t pyval :=
  match Dict.get ps date_field with
  | Some (VDatetime d) =>
      Dict.set ps date_field (VStr (datetime.strftime d datetime.fmt_minutes))
  | _ => ps
  end.

Definition to_dict (s : Entity.fields) (d : EntityData.t)
  : Entity.fields * Mapping.t :=
  let (s, data) := Entity.base_to_dict s d in
  (* Ensure dates are in string format without seconds *)
  let ps := date_to_text "end_date"
              (date_to_text "start_date" (Entity.properties s)) in
  (Entity.with_properties ps s, Mapping.set_properties data ps).

(** The body of the loop of [from_dict], for one date field. *)
Definition normalise (date_field : string) (ps : Dict.t pyval)
  : Dict.t pyval :=
  match Dict.get ps date_field with
  | Some v =>
      if truthy v then
        match v with
        | VStr s =>
            match datetime.strptime s datetime.fmt_minutes with
            | Some dt =>
                Dict.set ps date_field
                  (VStr (datetime.strftime dt datetime.fmt_minutes))
            | None =>
                match datetime.strptime s datetime.fmt_seconds with
                | Some dt =>
                    Dict.set ps date_field
                      (VStr (datetime.strftime dt datetime.fmt_minutes))
                | None => Dict.set ps date_field VNone
                end
            end
        | _ => ps
        end
      else ps
  | None => ps
  end.

(** The mapping as [from_dict] leaves it: the dictionary under
    ["properties"] is changed in place. *)
Definition normalised (data : Mapping.t) : Mapping.t :=
  match Mapping.properties data with
  | Some ps =>
      Mapping.set_properties data
        (normalise "end_date" (normalise "start_date" ps))
  | None => data
  end.

(** [Event.from_dict(data)]: the caller's mapping afterwards and the
    result of [super().from_dict(data)]. *)
Definition from_dict (ENTITY_TYPES : Dict.t Entity.class) (data : Mapping.t)
  (uuid4 : string) : Mapping.t * result Entity.t :=
  let data := normalised data in
  (data, Entity.from_dict ENTITY_TYPES data uuid4).

End Methods.
End Event.

Section Registry.
Context {B : Builtins}.

(** The class body binds [name] to ["Event"] and then to a property, so
    [Event.name] is the property object. *)
Definition Event_ : Entity.class :=
  Entity.mkclass "Event" Entity.ClassProperty "#F22416"
    Event.init_properties Event.update_label Event.to_dict.

(** [ENTITY_TYPES], keyed by the name of each class: the entries of
    the nine classes above.  The program registers [Email], [Phone] and
    [Location] as well; what is stated below of a class of this table
    is stated of these nine. *)
Definition ENTITY_TYPES : Dict.t Entity.class :=
  [("Company", Company); ("Event", Event_); ("Evidence", Evidence);
   ("Image", Image); ("Person", Person); ("Text", Text_);
   ("Username", Username); ("Vehicle", Vehicle); ("Website", Website)].

End Registry.

(** ** Transforms ([transforms/base.py]) *)

Module Transform.

(** What [run] hands back: a list of entities, or some other object. *)
Inductive returned :=
| AList (entities : list Entity.t)
| NotAList.

(** What [execute] does besides returning: the records it logs, and the
    call of [run]. *)
Inductive event :=
| info (message : string)
| error (message : string)
| run_called.

Section Methods.
(** The graph manager handed to [run], which may change it. *)
Variable graph : Type.

(** A transform: its class attributes and its [run]. *)
Record t := mk {
  name : string;
  input_types : list string;
  output_types : list string;
  run : Entity.t -> graph -> graph * result returned
}.

Definition class_name (entity : Entity.t) : string :=
  Entity.__name__ (Entity.cls entity).

Definition _validate_input (self : t) (entity : Entity.t) : bool :=
  existsb (String.eqb (class_name entity)) (input_types self).

Definition _validate_output (self : t) (entities : returned) : bool :=
  match entities with
  | NotAList => false
  | AList l =>
      forallb (fun entity =>
                 existsb (String.eqb (class_name entity)) (output_types self))
        l
  end.

(** The [try] block of [execute]. *)
Definition attempt (self : t) (entity : Entity.t) (g : graph)
  : graph * list event * result (list Entity.t) :=
  (* Validate input *)
  if negb (_validate_input self entity) then
    (g, [],
     Raise (TransformValidationError
              ("Entity type " +:+ class_name entity
               +:+ " not supported by transform " +:+ name self)))
  else
    let started :=
      [info ("Executing transform " +:+ name self +:+ " on entity "
             +:+ Entity.id entity);
       run_called] in
    (* Execute transform *)
    match run self entity g with
    | (g, Raise e) => (g, started, Raise e)
    | (g, Ok result) =>
        (* Validate output *)
        if negb (_validate_output self result) then
          (g, started,
           Raise (TransformValidationError
                    ("Transform " +:+ name self
                     +:+ " returned invalid output types")))
        else
          (g,
           (started ++
              [info ("Transform " +:+ name self
                     +:+ " completed successfully")])%list,
           Ok (match result with AList l => l | NotAList => [] end))
    end.

(** [execute(entity, graph)]: [except Exception as e] logs and raises
    [TransformExecutionError(...) from e]. *)
Definition execute (self : t) (entity : Entity.t) (g : graph)
  : graph * list event * result (list Entity.t) :=
  match attempt self entity g with
  | (g, log, Raise e) =>
      if is_Exception e then
        let message := "Transform " +:+ name self +:+ " failed: "
                       +:+ exc_str e in
        (g, (log ++ [error message])%list,
         Raise (TransformExecutionError message e))
      else (g, log, Raise e)
  | r => r
  end.

End Methods.
End Transform.

(** ** The merge resolver ([ui/components/ai_dock.py]) *)

Module AIDock.

(** Python sets of words are lists without repetition.  The order in
    which a set is iterated is that of its hash table; it is the
    parameter [iteration] below, applied when a set is built. *)
Definition words := list string.

Fixpoint dedup (l : list string) : list string :=
  match l with
  | [] => []
  | w :: r => if existsb (String.eqb w) r then dedup r else w :: dedup r
  end.

Definition member (w : string) (s : words) : bool := existsb (String.eqb w) s.

(** [a & b] and [len(a | b)] *)
Definition inter (a b : words) : words := filter (fun w => member w b) a.
Definition union_size (a b : words) : nat :=
  length a + length (filter (fun w => negb (member w a)) b).

(** [a / b] on two integers, both below 2^53. *)
Definition ratio (a b : nat) : float :=
  (PrimFloat.of_uint63 (Uint63.of_Z (Z.of_nat a))
   / PrimFloat.of_uint63 (Uint63.of_Z (Z.of_nat b)))%float.

Definition fmin (a b : float) : float := if PrimFloat.ltb b a then b else a.
Definition fmax (a b : float) : float := if PrimFloat.ltb a b then b else a.

Definition total_length (s : words) : nat :=
  fold_right (fun w n => (String.length w + n)%nat) O s.

(** [re.sub(r'[^\w\s]', '', text)] *)
Definition strip_special (s : string) : string :=
  Text.text (filter (fun c => Text.is_word c || Text.is_space c) (Text.chars s)).

Definition _normalize_text (text : string) : string :=
  let text := Text.lower text in
  let text := strip_special text in
  Text.join " " (Text.split text).

Definition _get_similarity_score (words1 words2 : words) : float :=
  match words1, words2 with
  | [], _ | _, [] => 0%float
  | _, _ =>
      (* Calculate Jaccard similarity *)
      let intersection := length (inter words1 words2) in
      let union := union_size words1 words2 in
      let jaccard := if (0 <? union)%nat then ratio intersection union
                     else 0%float in
      (* Calculate word length similarity *)
      let avg_len1 := ratio (total_length words1) (length words1) in
      let avg_len2 := ratio (total_length words2) (length words2) in
      let len_ratio := (fmin avg_len1 avg_len2 / fmax avg_len1 avg_len2)%float in
      (* Calculate overlap coefficient *)
      let least := Nat.min (length words1) (length words2) in
      let overlap := if (0 <? least)%nat then ratio intersection least
                     else 0%float in
      (* Combine scores with weights *)
      (jaccard * 0.4 + len_ratio * 0.2 + overlap * 0.4)%float
  end.

Section Matching.
Variable iteration : list string -> list string.
Variable node : Type.

(** [set(text.split())] *)
Definition word_set (text : string) : words :=
  iteration (dedup (Text.split text)).

Definition significant (s : words) : words :=
  filter (fun w => (4 <? String.length w)%nat) s.

(** One turn of the loop over [nodes.items()]. *)
Definition consider (entity_type : string) (label_words : words)
  (best : option node * float) (entry : string * node)
  : option node * float :=
  let (best_match, best_score) := best in
  let (node_key, nd) := entry in
  match Text.cut_colon (Text.chars (Text.lower node_key)) [] with
  | None => best                        (* Skip malformed keys *)
  | Some (node_type, node_label) =>
      if negb (String.eqb node_type entity_type) then best
      else
        let node_words := word_set (_normalize_text node_label) in
        (* Calculate similarity score *)
        let score := _get_similarity_score label_words node_words in
        let score :=
          if String.eqb entity_type "event" then
            (* For events, boost score if they share significant words *)
            match inter (significant label_words) (significant node_words) with
            | [] => score
            | _ => (score * 1.5)%float
            end
          else if String.eqb entity_type "person" then
            (* For persons, boost score if first words match *)
            match label_words, node_words with
            | w1 :: _, w2 :: _ =>
                if String.eqb w1 w2 then (score * 1.5)%float else score
            | _, _ => score
            end
          else score in
        (* Update best match if score is high enough *)
        let threshold := if String.eqb entity_type "event" then 0.5%float
                         else 0.7%float in
        if PrimFloat.ltb best_score score && PrimFloat.leb threshold score
        then (Some nd, score)
        else best
  end.

Definition _find_matching_entity (entity_type label : string)
  (nodes : Dict.t node) : option node :=
  let entity_type := Text.lower entity_type in
  let normalized_label := _normalize_text label in
  let label_words := word_set normalized_label in
  (* Try exact match first with consistent key format *)
  let key := entity_type +:+ ":" +:+ Text.lower label in
  match Dict.get nodes key with
  | Some nd => Some nd
  | None =>
      fst (fold_left (consider entity_type label_words) nodes
             (None, 0%float))
  end.

End Matching.

(** Two iteration orders among those a hash table can produce: the order
    of insertion, and the alphabetical one. *)
Definition insertion_order (l : list string) : list string := l.

Fixpoint insert_sorted (w : string) (l : list string) : list string :=
  match l with
  | [] => [w]
  | x :: r => if String.leb w x then w :: l else x :: insert_sorted w r
  end.

Definition alphabetical_order (l : list string) : list string :=
  fold_right insert_sorted [] l.

End AIDock.

(** ** The graph store ([ui/managers/graph_manager.py])

    Scene items, signals, the map, the timeline and the groups are
    display state and are left out.  An edge holds references to the two
    [NodeVisual] objects it joins, and the id of an end point is read
    through them ([edge.source.node.id]); node objects therefore live in
    a store, [objects], and are referred to by their address. *)

Module GraphManager.

Record NodeVisual := mkNode { node : Entity.t; pos : float * float }.

Record EdgeVisual := mkEdge {
  source : nat;                 (* address of the source NodeVisual *)
  target : nat;                 (* address of the target NodeVisual *)
  relationship : string
}.

Record t := mk {
  objects : list NodeVisual;
  nodes : gmap string nat;
  edges : gmap string EdgeVisual
}.

(** [GraphManager(view)] *)
Definition init : t := mk [] ∅ ∅.

(** [o.node.id] for the node object at address [a]. *)
Definition id_at (self : t) (a : nat) : option string :=
  match objects self !! a with
  | Some o => Some (Entity.id (node o))
  | None => None
  end.

Definition source_id (self : t) (e : EdgeVisual) : option string :=
  id_at self (source e).
Definition target_id (self : t) (e : EdgeVisual) : option string :=
  id_at self (target e).

(** [add_node(entity, pos)]: the address of the node returned. *)
Definition add_node (entity : Entity.t) (p : float * float) (self : t)
  : t * nat :=
  match nodes self !! Entity.id entity with
  | Some a => (self, a)                       (* already exists *)
  | None =>
      let a := length (objects self) in
      (mk (objects self ++ [mkNode entity p])
          (<[Entity.id entity := a]> (nodes self))
          (edges self),
       a)
  end.

Definition edge_id (source_id target_id : string) : string :=
  source_id +:+ "->" +:+ target_id.

(** [add_edge(source_id, target_id, relationship)] *)
Definition add_edge (source_id target_id relationship : string) (self : t)
  : t * option EdgeVisual :=
  match nodes self !! source_id, nodes self !! target_id with
  | Some src, Some tgt =>
      let edge_id := edge_id source_id target_id in
      match edges self !! edge_id with
      | Some e => (self, Some e)              (* already exists *)
      | None =>
          let edge := mkEdge src tgt relationship in
          (mk (objects self) (nodes self) (<[edge_id := edge]> (edges self)),
           Some edge)
      end
  | _, _ => (self, None)                      (* node not found *)
  end.


(** The test of [remove_node] on one edge. *)
Definition connected (self : t) (node_id : string) (e : EdgeVisual) : bool :=
  match source_id self e, target_id self e with
  | Some s, Some d => String.eqb s node_id || String.eqb d node_id
  | _, _ => false
  end.

(** [remove_node(node_id)] *)
Definition remove_node (node_id : string) (self : t) : t :=
  match nodes self !! node_id with
  | None => self
  | Some _ =>
      (* Remove connected edges first *)
      let kept :=
        filter (fun ke => connected self node_id (snd ke) = false)
          (edges self) in
      (* Remove the node *)
      mk (objects self) (delete node_id (nodes self)) kept
  end.

(** [clear()] *)
Definition clear (self : t) : t := mk (objects self) ∅ ∅.










End GraphManager.

(** ** Inputs used in the statements about concrete cases *)

(** A set of conversions for the statements about concrete inputs.  None
    of those inputs reaches a conversion between text and numbers, so
    the choice has no bearing on them: this one refuses every text. *)
Definition no_conversions : Builtins := {|
  float_repr := fun _ => "nan";
  int_of_str := fun _ => None;
  float_of_str := fun _ => None;
  int_of_float := fun _ => Raise (ValueError "cannot convert float NaN to integer");
  float_of_int := fun _ => None
|}.

(** Checking a boolean property on every integer below a bound. *)
Fixpoint all_below (P : Z -> bool) (k : nat) : bool :=
  match k with
  | O => true
  | S k' => P (Z.of_nat k') && all_below P k'
  end.

(** A two-digit field printed by [strftime] is read back by the
    directive that printed it. *)
Definition reads_back (d : datetime.directive) (n : Z) : bool :=
  match datetime.alt d ((n / 10) mod 10) (Some (n mod 10)) with
  | Some (v, true) => v =? n
  | _ => false
  end.

Definition numeric (d : datetime.directive) : bool :=
  match d with
  | datetime.dm | datetime.dd | datetime.dH | datetime.dM | datetime.dS => true
  | _ => false
  end.

Definition year_reads_back (n : Z) : bool :=
  datetime.two (datetime.two (datetime.two ((n / 1000) mod 10) ((n / 100) mod 10))
                  ((n / 10) mod 10)) (n mod 10) =? n.

(** From the year 1000 on, [%Y] prints the four digits that it reads;
    before, it prints fewer than four characters. *)
Definition year_prints_in_full (n : Z) : bool :=
  negb (1000 <=? n)
  || String.eqb (Text.of_Z n) (Text.text (datetime.pad4 n)).

Definition year_prints_short (n : Z) : bool :=
  negb (n <? 1000) || (String.length (Text.of_Z n) <? 4)%nat.

(** The text of a date is in full when it has the sixteen characters of
    [YYYY-MM-DD HH:mm]: its year has four digits. *)
Definition full_year (v : validator) (y : pyval) : bool :=
  match v, y with
  | DateTimeValidator, VStr s => (String.length s =? 16)%nat
  | _, _ => true
  end.

(** Every date of an entity is in full. *)
Definition full_years (s : Entity.fields) : bool :=
  forallb
    (fun kv =>
       match Dict.get (Entity.property_validators s) (fst kv) with
       | Some v => full_year v (snd kv)
       | None => true
       end)
    (Entity.properties s).

(** The validator [validate_properties] picks for a property. *)
Definition chosen (validators : Dict.t validator) (name : string) (ty : pytype)
  : validator :=
  match Dict.get validators name with
  | Some v => v
  | None => PropertyValidator ty
  end.

(** An entry that its validator returns unchanged. *)
Definition settled `{B : Builtins} (types : Dict.t pytype)
  (validators : Dict.t validator) (entry : string * pyval) : Prop :=
  exists ty, Dict.get types (fst entry) = Some ty
             /\ validate (chosen validators (fst entry) ty) (snd entry)
                = Ok (snd entry).

(** What a successful pass stores: under each key, in the same order,
    the value its validator returned. *)
Definition validated `{B : Builtins} (types : Dict.t pytype) (validators : Dict.t validator)
  (before after : string * pyval) : Prop :=
  fst after = fst before
  /\ exists ty, Dict.get types (fst before) = Some ty
                /\ validate (chosen validators (fst before) ty) (snd before)
                   = Ok (snd after).


Section Samples.
Context {B : Builtins}.

(** A subclass that is not in the repository: its [init_properties]
    registers a validator of its own for the standard property
    [notes]. *)
Definition Memo : Entity.class :=
  Entity.mkclass "Memo" (Entity.ClassStr "Memo") "#607D8B"
    (fun s =>
       let s := Entity.setup_properties [("title", TStr)] s in
       update_validators [("notes", StringValidator 5 None None)] s)
    (labelled "Memo" ["title"])
    Entity.base_to_dict.

(** An [Event] with one date, before [validate_properties] has run. *)
Definition dated_event (start_date : string) : Entity.fields :=
  Entity.declare Event_
    (Entity.mkfields "" [("start_date", VStr start_date)] [] []).

(** The entity [c()] builds when no property is given: [declare], a
    validation that finds nothing to reject, [update_data]. *)
Definition blank_entity (c : Entity.class) (uuid4 : string) : Entity.t :=
  let s := fst (Entity.validate_properties c
                  (Entity.declare c (Entity.mkfields "" [] [] []))) in
  let (s, d) := Entity.update_data c uuid4 None s in
  Entity.mk c s d.

(** A mapping with a date, as [Event.from_dict] may receive it. *)
Definition event_mapping (start_date : pyval) : Mapping.t :=
  Mapping.mk (Some "id-1") (Some "Event") (Some "Briefing")
    (Some [("name", VStr "Briefing"); ("start_date", start_date)])
    (Some "#F22416").

(** Three entities with the ids [a], [b] and [c], and a store in which
    the node registered under [a] has been handed the entity [c]. *)
Definition origin : float * float := (0%float, 0%float).



End Samples.

(** The class attributes of [ReverseImageSearch]
    ([transforms/reverse_image_search.py]), around a given [run]. *)
Definition reverse_image_search
  (run : Entity.t -> unit -> unit * result Transform.returned)
  : Transform.t unit :=
  Transform.mk unit "Reverse Image Search" ["Image"] ["Image"] run.

(** Three stubs for [run]. *)
Definition run_returning (entities : list Entity.t)
  : Entity.t -> unit -> unit * result Transform.returned :=
  fun _ g => (g, Ok (Transform.AList entities)).


(** ** Further code of the same files *)

(** *** Display and editing of properties ([entities/base.py]) *)

Module Display.

(** [f"{n:,}"]: the decimal digits in groups of three. *)
Fixpoint commas (reversed : list ascii) : list ascii :=
  match reversed with
  | a :: b :: c :: rest =>
      match rest with
      | [] => [a; b; c]
      | _ => a :: b :: c :: ","%char :: commas rest
      end
  | _ => reversed
  end.

Definition thousands (n : Z) : string :=
  let body := rev (commas (rev (Text.chars (Text.of_Z (Z.abs n))))) in
  Text.text (if n <? 0 then "-"%char :: body else body).

Fixpoint drop_while (p : ascii -> bool) (l : list ascii) : list ascii :=
  match l with
  | c :: r => if p c then drop_while p r else l
  | [] => []
  end.

(** [s.rstrip(c)] *)
Definition rstrip (c : ascii) (s : string) : string :=
  Text.text (rev (drop_while (Ascii.eqb c) (rev (Text.chars s)))).

(** [k.startswith("_")] *)
Definition is_private (k : string) : bool :=
  match k with
  | String c _ => Ascii.eqb c "_"%char
  | EmptyString => false
  end.

(** What the editor is told about one property. *)
Record metadata := mkmeta { kind : string; choices : list string }.

Section Methods.
Context {B : Builtins}.
(** [f"{x:,.2f}"] and [f"{x:.8f}"] for a float, fixed by CPython. *)
Variable fixed2 : float -> string.
Variable fixed8 : float -> string.

Definition _format_display_value (key : string) (value : pyval) : string :=
  match value with
  | VFloat x =>
      (* Use more precision for coordinates *)
      if String.eqb key "latitude" || String.eqb key "longitude"
      then rstrip "."%char (rstrip "0"%char (fixed8 x))
      else fixed2 x
  | VInt n => thousands n
  | VBool b => thousands (if b then 1 else 0)
  | _ => py_str value
  end.

(** The test of the comprehension in [get_display_properties]. *)
Definition shown (kv : string * pyval) : bool :=
  truthy (snd kv) && negb (String.eqb (fst kv) "image")
  && negb (is_private (fst kv)).

Definition get_display_properties (s : Entity.fields) : Dict.t string :=
  Dict.update []
    (map (fun kv => (fst kv, _format_display_value (fst kv) (snd kv)))
       (filter shown (Entity.properties s))).

Definition get_property_type (s : Entity.fields) (prop_name : string) : string :=
  match Dict.get (Entity.property_validators s) prop_name with
  | None => "text"
  | Some (ListValidator _ _) => "dropdown"
  | Some (IntegerValidator _ _) => "number"
  | Some (FloatValidator _ _ _) => "number"
  | Some _ => "text"
  end.

Definition get_property_choices (s : Entity.fields) (prop_name : string)
  : list string :=
  match Dict.get (Entity.property_validators s) prop_name with
  | Some (ListValidator cs e) => ListValidator.get_choices cs
  | _ => []
  end.

Definition get_property_metadata (s : Entity.fields) : Dict.t metadata :=
  fold_left
    (fun md kt =>
       let prop_name := fst kt in
       let prop_type := get_property_type s prop_name in
       Dict.set md prop_name
         (mkmeta prop_type
            (if String.eqb prop_type "dropdown"
             then get_property_choices s prop_name else [])))
    (Entity.property_types s) [].

End Methods.

End Display.

(** *** The date accessors of [Event] ([entities/event.py]) *)

Module EventDates.

(** [d.replace(second=0, microsecond=0)] *)
Definition to_the_minute (d : datetime.t) : datetime.t :=
  match datetime.make (datetime.year d) (datetime.month d) (datetime.day d)
          (datetime.hour d) (datetime.minute d) 0 with
  | Some d' => d'
  | None => d
  end.

(** The body shared by the properties [start_date] and [end_date]:
    [None] when the value is absent, falsy, or not a date in the format
    ["%Y-%m-%d %H:%M"]; [strptime] on a value that is not a string
    raises [TypeError], which is caught as well. *)
Definition accessor (date_field : string) (s : Entity.fields)
  : option datetime.t :=
  match Dict.get (Entity.properties s) date_field with
  | None => None
  | Some date_val =>
      if negb (truthy date_val) then None
      else
        match date_val with
        | VDatetime d => Some (to_the_minute d)
        | VStr text => datetime.strptime text datetime.fmt_minutes
        | _ => None
        end
  end.

Definition start_date (s : Entity.fields) : option datetime.t :=
  accessor "start_date" s.
Definition end_date (s : Entity.fields) : option datetime.t :=
  accessor "end_date" s.

End EventDates.

(** *** Registration of types on a transform ([transforms/base.py])

    [cls.input_types.append] changes the list the class sees.  A class
    that does not bind [input_types] itself sees the list of the base
    class, together with every other such class; what follows is the
    effect on the class the method is called on. *)

Module Registration.
Section Methods.
Variable graph : Type.

Definition register_input_type (entity_type : string) (self : Transform.t graph)
  : Transform.t graph :=
  if negb (existsb (String.eqb entity_type) (Transform.input_types graph self))
  then Transform.mk graph (Transform.name graph self)
         (Transform.input_types graph self ++ [entity_type])%list
         (Transform.output_types graph self) (Transform.run graph self)
  else self.

Definition register_output_type (entity_type : string) (self : Transform.t graph)
  : Transform.t graph :=
  if negb (existsb (String.eqb entity_type) (Transform.output_types graph self))
  then Transform.mk graph (Transform.name graph self)
         (Transform.input_types graph self)
         (Transform.output_types graph self ++ [entity_type])%list
         (Transform.run graph self)
  else self.

End Methods.
End Registration.

(** *** [Email] ([entities/email.py]) *)

Module Email.

Definition is_letter (c : ascii) : bool := Text.is_upper c || Text.is_lower c.

(** The classes [[a-zA-Z0-9._%+-]] and [[a-zA-Z0-9.-]]. *)
Definition is_local (c : ascii) : bool :=
  is_letter c || Text.is_digit c
  || existsb (Ascii.eqb c) ["."; "_"; "%"; "+"; "-"]%char.

Definition is_host (c : ascii) : bool :=
  is_letter c || Text.is_digit c || existsb (Ascii.eqb c) ["."; "-"]%char.

(** The text before the first [c] and the text after it. *)
Fixpoint cut (c : ascii) (l : list ascii) : option (list ascii * list ascii) :=
  match l with
  | [] => None
  | x :: r =>
      if Ascii.eqb x c then Some ([], r)
      else match cut c r with
           | Some (before, after) => Some (x :: before, after)
           | None => None
           end
  end.

(** [$] also matches before a newline that ends the text. *)
Definition before_final_newline (l : list ascii) : list ascii :=
  match rev l with
  | c :: r => if Ascii.eqb c "010"%char then rev r else l
  | [] => l
  end.

Definition nonempty_all (p : ascii -> bool) (l : list ascii) : bool :=
  match l with
  | [] => false
  | _ => forallb p l
  end.

(** [[a-zA-Z0-9.-]+\.[a-zA-Z]{2,}$] against the whole of [l]: the
    letters that end the match hold no dot, so the dot before them is
    the last one. *)
Definition host_match (l : list ascii) : bool :=
  match cut "."%char (rev (before_final_newline l)) with
  | Some (reversed_letters, reversed_host) =>
      (2 <=? length reversed_letters)%nat && forallb is_letter reversed_letters
      && nonempty_all is_host reversed_host
  | None => false
  end.

(** [^[a-zA-Z0-9._%+-]+@[a-zA-Z0-9.-]+\.[a-zA-Z]{2,}$]: the first class
    holds no [@], so the [@] of the pattern is the first of the text. *)
Definition email_match (s : string) : bool :=
  match cut "@"%char (Text.chars s) with
  | Some (local_part, rest) => nonempty_all is_local local_part && host_match rest
  | None => false
  end.

Definition email_regex : regex :=
  {| rx_pattern := "^[a-zA-Z0-9._%+-]+@[a-zA-Z0-9.-]+\.[a-zA-Z]{2,}$";
     rx_match := email_match |}.

Definition domain_regex : regex :=
  {| rx_pattern := "^[a-zA-Z0-9.-]+\.[a-zA-Z]{2,}$";
     rx_match := fun s => host_match (Text.chars s) |}.

(** [s.split("@")[1]]; [None] is [IndexError]. *)
Definition second_piece (s : string) : option string :=
  match cut "@"%char (Text.chars s) with
  | Some (_, rest) =>
      match cut "@"%char rest with
      | Some (piece, _) => Some (Text.text piece)
      | None => Some (Text.text rest)
      end
  | None => None
  end.

Section Methods.
Context {B : Builtins}.

Definition init_properties (s : Entity.fields) : Entity.fields :=
  let s := Entity.setup_properties [("address", TStr); ("domain", TStr)] s in
  update_validators
    [("address", EmailValidator email_regex);
     ("domain", StringValidator 3 None (Some domain_regex))] s.

Definition class_ : Entity.class :=
  Entity.mkclass "Email" (Entity.ClassStr "Email") "#2196F3"
    init_properties (labelled "Email" ["address"]) Entity.base_to_dict.

(** [Email(label=label, properties=properties)]: the constructor of the
    base class, then the derivation of the domain in [__post_init__]. *)
Definition new (label : string) (properties : Dict.t pyval) (uuid4 : string)
  : result Entity.t :=
  e <- Entity.new class_ label properties uuid4 ;;
  let ps := Entity.properties (Entity.self e) in
  if Dict.mem ps "address" && negb (Dict.mem ps "domain") then
    match Dict.get ps "address" with
    | Some (VStr address) =>
        match second_piece address with
        | Some domain =>
            Ok (Entity.mk (Entity.cls e)
                  (Entity.with_properties (Dict.set ps "domain" (VStr domain))
                     (Entity.self e))
                  (Entity.data e))
        | None =>                                   (* IndexError *)
            Raise (new_PropertyValidationError "address" (VStr address)
                     (ExpText "valid email address with domain"))
        end
    | Some v =>                                     (* AttributeError *)
        Raise (new_PropertyValidationError "address" v
                 (ExpText "valid email address with domain"))
    | None => Ok e
    end
  else Ok e.

End Methods.
End Email.

(** *** Groups of nodes ([ui/managers/group_manager.py])

    The centre of a group is display geometry and is left out; a colour
    is kept by its name. *)

Module NodeGroup.
Record t := mk {
  id : string;
  name : string;
  color : string;
  nodes : gset string;
  expanded : bool
}.

(** [NodeGroup(group_id, name, color)] *)
Definition new (group_id name color : string) : t :=
  mk group_id name color ∅ true.

Definition add_node (node_id : string) (g : t) : t :=
  mk (id g) (name g) (color g) ({[node_id]} ∪ nodes g) (expanded g).

Definition remove_node (node_id : string) (g : t) : t :=
  mk (id g) (name g) (color g) (nodes g ∖ {[node_id]}) (expanded g).

Definition contains_node (node_id : string) (g : t) : bool :=
  bool_decide (node_id ∈ nodes g).
End NodeGroup.

Module GroupManager.

(** [f"group_{n}"] *)
Definition group_name (n : nat) : string := "group_" +:+ Text.of_Z (Z.of_nat n).

(** The loop [while group_id in self.groups: group_id =
    f"group_{len(self.groups) + 1}"], run for at most [fuel] tests;
    [None] when the tests are used up. *)
Fixpoint settle (fuel : nat) (groups : gmap string NodeGroup.t)
  (group_id : string) : option string :=
  match fuel with
  | O => None
  | S fuel' =>
      match groups !! group_id with
      | Some _ => settle fuel' groups (group_name (size groups + 1))
      | None => Some group_id
      end
  end.

(** [create_group(name, node_ids, color)], given the nodes of the graph;
    [color] is the name of the colour, [#3d3d3d] when none is given. *)
Definition create_group (fuel : nat) (name : string) (node_ids : list string)
  (color : option string) (graph_nodes : gmap string nat)
  (groups : gmap string NodeGroup.t)
  : option (gmap string NodeGroup.t * NodeGroup.t) :=
  (* Generate unique group ID *)
  match settle fuel groups (group_name (size groups)) with
  | None => None
  | Some group_id =>
      let color := match color with Some c => c | None => "#3d3d3d" end in
      let group := NodeGroup.new group_id name color in
      (* Add nodes to group *)
      let group :=
        fold_left
          (fun g node_id =>
             match graph_nodes !! node_id with
             | Some _ => NodeGroup.add_node node_id g
             | None => g
             end)
          node_ids group in
      Some (<[group_id := group]> groups, group)
  end.

Definition delete_group (group_id : string) (groups : gmap string NodeGroup.t)
  : gmap string NodeGroup.t :=
  delete group_id groups.

(** The loop of [GraphManager.remove_node] over the groups. *)
Definition forget_node (node_id : string) (groups : gmap string NodeGroup.t)
  : gmap string NodeGroup.t :=
  NodeGroup.remove_node node_id <$> groups.

(** [get_node_groups(node_id)], as the set of the ids of the groups. *)
Definition get_node_groups (node_id : string) (groups : gmap string NodeGroup.t)
  : gmap string NodeGroup.t :=
  filter (fun kg => NodeGroup.contains_node node_id (snd kg) = true) groups.

End GroupManager.

(** *** Inputs for the statements about this code *)

Definition new_year_2024 : datetime.t := datetime.mk 2024 1 1 9 30 15 eq_refl.

(** The groups after four calls of [create_group] and the deletion of
    the first two groups: [group_2] and [group_3]. *)
Definition four_groups_two_deleted : gmap string NodeGroup.t :=
  let create (groups : gmap string NodeGroup.t) :=
    match GroupManager.create_group 2 "Cluster" [] None ∅ groups with
    | Some (groups', _) => groups'
    | None => groups
    end in
  GroupManager.delete_group "group_1"
    (GroupManager.delete_group "group_0" (create (create (create (create ∅))))).

(* ===================================================================== *)
(** * Properties *)
(* ===================================================================== *)

Local Open Scope list_scope.

(** ** Text and dates *)

Lemma chars_text (l : list ascii) : Text.chars (Text.text l) = l.
Proof. apply list_ascii_of_string_of_list_ascii. Qed.

Lemma all_below_spec (P : Z -> bool) (k : nat) :
  all_below P k = true -> forall n, 0 <= n < Z.of_nat k -> P n = true.
Proof.
  induction k as [|k IH]; simpl; intros H n Hn; [lia|].
  apply andb_true_iff in H as [H1 H2].
  destruct (Z.eq_dec n (Z.of_nat k)) as [->|Hne]; [exact H1|].
  apply IH; [exact H2|lia].
Qed.

Lemma all_below_Z (P : Z -> bool) (k : Z) :
  all_below P (Z.to_nat k) = true -> forall n, 0 <= n < k -> P n = true.
Proof.
  intros H n Hn. apply (all_below_spec P (Z.to_nat k) H). lia.
Qed.

Lemma digit_val_digit (n : Z) :
  Text.digit_val (Text.digit n) = Some (n mod 10).
Proof.
  assert (H : 0 <= n mod 10 < 10) by (apply Z.mod_pos_bound; lia).
  unfold Text.digit.
  generalize dependent (n mod 10). intros m Hm.
  pose (P := fun m => match Text.digit_val (ascii_of_N (Z.to_N (48 + m))) with
                      | Some v => v =? m
                      | None => false
                      end).
  assert (HP : P m = true).
  { apply (all_below_Z P 10); [vm_compute; reflexivity | lia]. }
  unfold P in HP.
  destruct (Text.digit_val (ascii_of_N (Z.to_N (48 + m)))); [|discriminate].
  apply Z.eqb_eq in HP. congruence.
Qed.

Lemma step_pad2 (d : datetime.directive) (n : Z) f rest :
  numeric d = true -> reads_back d n = true ->
  datetime.step d f (datetime.pad2 n ++ rest) = Some (datetime.store d n f, rest).
Proof.
  intros Hd Hr. unfold reads_back in Hr.
  assert (E : datetime.step d f (datetime.pad2 n ++ rest) =
              match datetime.alt d ((n / 10) mod 10) (Some (n mod 10)) with
              | Some (v, took_two) =>
                  Some (datetime.store d v f,
                        if took_two then rest else Text.digit n :: rest)
              | None => None
              end).
  { destruct d; try discriminate Hd; simpl;
      rewrite !digit_val_digit; reflexivity. }
  rewrite E.
  destruct (datetime.alt d ((n / 10) mod 10) (Some (n mod 10)))
    as [[v [|]]|]; try discriminate.
  apply Z.eqb_eq in Hr. subst v. reflexivity.
Qed.

Lemma reads_back_range (d : datetime.directive) (lo hi : Z) (k : Z) :
  all_below (fun n => negb ((lo <=? n) && (n <=? hi)) || reads_back d n)
    (Z.to_nat k) = true ->
  hi < k -> 0 <= lo ->
  forall n, lo <= n <= hi -> reads_back d n = true.
Proof.
  intros H Hk Hlo n Hn.
  pose proof (all_below_Z _ _ H n ltac:(lia)) as Hc. simpl in Hc.
  replace (lo <=? n) with true in Hc by (symmetry; apply Z.leb_le; lia).
  replace (n <=? hi) with true in Hc by (symmetry; apply Z.leb_le; lia).
  exact Hc.
Qed.

Lemma reads_back_month n : 1 <= n <= 12 -> reads_back datetime.dm n = true.
Proof. apply (reads_back_range _ 1 12 13); [vm_compute; reflexivity|lia|lia]. Qed.

Lemma reads_back_day n : 1 <= n <= 31 -> reads_back datetime.dd n = true.
Proof. apply (reads_back_range _ 1 31 32); [vm_compute; reflexivity|lia|lia]. Qed.

Lemma reads_back_hour n : 0 <= n <= 23 -> reads_back datetime.dH n = true.
Proof. apply (reads_back_range _ 0 23 24); [vm_compute; reflexivity|lia|lia]. Qed.

Lemma reads_back_minute n : 0 <= n <= 59 -> reads_back datetime.dM n = true.
Proof. apply (reads_back_range _ 0 59 60); [vm_compute; reflexivity|lia|lia]. Qed.

Lemma step_pad4 (n : Z) f rest :
  0 <= n <= 9999 ->
  datetime.step datetime.dY f (datetime.pad4 n ++ rest)
  = Some (datetime.store datetime.dY n f, rest).
Proof.
  intros Hn. simpl. rewrite !digit_val_digit.
  assert (H : year_reads_back n = true).
  { apply (all_below_Z year_reads_back 10000); [vm_compute; reflexivity|lia]. }
  apply Z.eqb_eq in H. unfold year_reads_back in H. rewrite H. reflexivity.
Qed.

Lemma days_in_month_le (y m : Z) : datetime.days_in_month y m <= 31.
Proof.
  unfold datetime.days_in_month.
  repeat match goal with |- context [if ?b then _ else _] => destruct b end; lia.
Qed.

Lemma legal_bounds (x : datetime.t) :
  1 <= datetime.year x <= 9999 /\ 1 <= datetime.month x <= 12 /\
  1 <= datetime.day x <= 31 /\ 0 <= datetime.hour x <= 23 /\
  0 <= datetime.minute x <= 59.
Proof.
  pose proof (datetime.is_legal x) as H. unfold datetime.legal, datetime.between in H.
  repeat (apply andb_true_iff in H as [H ?]).
  pose proof (days_in_month_le (datetime.year x) (datetime.month x)).
  repeat match goal with
         | H : (_ <=? _) = true |- _ => apply Z.leb_le in H
         end.
  lia.
Qed.

Lemma legal_minutes (x : datetime.t) :
  datetime.legal (datetime.year x) (datetime.month x) (datetime.day x)
    (datetime.hour x) (datetime.minute x) 0 = true.
Proof.
  pose proof (datetime.is_legal x) as H. unfold datetime.legal in *.
  apply andb_true_iff in H as [H _]. rewrite H. reflexivity.
Qed.

Lemma step_lit (c : ascii) f rest :
  datetime.step (datetime.lit c) f (c :: rest) = Some (f, rest).
Proof. simpl. rewrite Ascii.eqb_refl. reflexivity. Qed.

Lemma digit_not_space (n : Z) : Text.is_space (Text.digit n) = false.
Proof.
  pose proof (digit_val_digit n) as Hv. unfold Text.digit_val in Hv.
  destruct (Text.is_digit (Text.digit n)) eqn:E; [|discriminate].
  unfold Text.is_digit, Text.is_space in *.
  apply andb_true_iff in E as [E1 E2]. apply N.leb_le in E1, E2.
  apply orb_false_iff; split; apply andb_false_iff; right; apply N.leb_gt; lia.
Qed.

Lemma step_blank (n : Z) f rest :
  datetime.step datetime.blank f (" "%char :: datetime.pad2 n ++ rest)
  = Some (f, datetime.pad2 n ++ rest).
Proof.
  unfold datetime.step. change (Text.is_space " ") with true. cbv iota.
  unfold datetime.pad2. cbn [app datetime.skip_blanks].
  rewrite digit_not_space. reflexivity.
Qed.

Lemma run_cons d fmt f l :
  datetime.run (d :: fmt) f l =
  match datetime.step d f l with
  | Some (f', l') => datetime.run fmt f' l'
  | None => None
  end.
Proof. reflexivity. Qed.

(** From the year 1000 on, [%Y] prints four digits; before, fewer. *)
Lemma year_text_full (n : Z) :
  1000 <= n <= 9999 -> Text.chars (Text.of_Z n) = datetime.pad4 n.
Proof.
  intros Hn.
  assert (H : year_prints_in_full n = true).
  { apply (all_below_Z year_prints_in_full 10000); [vm_compute; reflexivity|lia]. }
  unfold year_prints_in_full in H.
  replace (1000 <=? n) with true in H by (symmetry; apply Z.leb_le; lia).
  cbn [negb orb] in H. apply String.eqb_eq in H. rewrite H. apply chars_text.
Qed.

Lemma year_text_short (n : Z) :
  0 <= n < 1000 -> (String.length (Text.of_Z n) < 4)%nat.
Proof.
  intros Hn.
  assert (H : year_prints_short n = true).
  { apply (all_below_Z year_prints_short 1000); [vm_compute; reflexivity|lia]. }
  unfold year_prints_short in H.
  replace (n <? 1000) with true in H by (symmetry; apply Z.ltb_lt; lia).
  simpl in H. apply Nat.ltb_lt in H. exact H.
Qed.

Lemma make_fields y mo d h mi s x :
  datetime.make y mo d h mi s = Some x ->
  datetime.year x = y /\ datetime.month x = mo /\ datetime.day x = d
  /\ datetime.hour x = h /\ datetime.minute x = mi /\ datetime.second x = s.
Proof.
  unfold datetime.make. destruct (bool_dec _ true); [|discriminate].
  intros H. injection H as <-. simpl. auto 6.
Qed.

(** The text that [strftime] prints with ["%Y-%m-%d %H:%M"] for a date
    from the year 1000 on is read by [strptime] with the same format
    as that date, at zero seconds. *)
Lemma strptime_of_strftime (x : datetime.t) :
  1000 <= datetime.year x ->
  datetime.strptime (datetime.strftime x datetime.fmt_minutes) datetime.fmt_minutes
  = datetime.make (datetime.year x) (datetime.month x) (datetime.day x)
      (datetime.hour x) (datetime.minute x) 0.
Proof.
  intros Hfull.
  destruct (legal_bounds x) as (Hy & Hm & Hd & HH & HM).
  unfold datetime.strptime, datetime.strftime. rewrite chars_text.
  unfold datetime.fmt_minutes.
  cbn [flat_map datetime.print_directive app].
  rewrite year_text_full by lia.
  rewrite run_cons, step_pad4 by lia.
  rewrite run_cons, step_lit.
  rewrite run_cons, (step_pad2 datetime.dm) by (auto using reads_back_month).
  rewrite run_cons, step_lit.
  rewrite run_cons, (step_pad2 datetime.dd) by (auto using reads_back_day).
  rewrite run_cons, step_blank.
  rewrite run_cons, (step_pad2 datetime.dH) by (auto using reads_back_hour).
  rewrite run_cons, step_lit.
  rewrite run_cons, (step_pad2 datetime.dM) by (auto using reads_back_minute).
  reflexivity.
Qed.

Lemma text_length (l : list ascii) : String.length (Text.text l) = length l.
Proof. induction l as [|c l IH]; simpl; [reflexivity|]. f_equal. exact IH. Qed.

Lemma chars_length (s : string) : length (Text.chars s) = String.length s.
Proof. induction s as [|c s IH]; simpl; [reflexivity|]. f_equal. exact IH. Qed.

(** Twelve characters follow the year. *)
Lemma strftime_length (x : datetime.t) :
  String.length (datetime.strftime x datetime.fmt_minutes)
  = (String.length (Text.of_Z (datetime.year x)) + 12)%nat.
Proof.
  unfold datetime.strftime. rewrite text_length.
  unfold datetime.fmt_minutes. cbn [flat_map datetime.print_directive].
  rewrite length_app, chars_length. reflexivity.
Qed.

(** A date prints with sixteen characters exactly when its year has
    four digits. *)
Lemma strftime_full (x : datetime.t) :
  String.length (datetime.strftime x datetime.fmt_minutes) = 16%nat
  <-> 1000 <= datetime.year x.
Proof.
  destruct (legal_bounds x) as (Hy & _).
  rewrite strftime_length. split.
  - intros H. destruct (Z_lt_le_dec (datetime.year x) 1000) as [Hs|Hs]; [|exact Hs].
    pose proof (year_text_short (datetime.year x) ltac:(lia)). lia.
  - intros H. rewrite <- chars_length, year_text_full by lia. reflexivity.
Qed.

(** The text [strftime] prints in the minute format for a date from the
    year 1000 on is read back as a date with zero seconds that prints as
    the same text. *)
Lemma minute_text_is_normal (x : datetime.t) :
  1000 <= datetime.year x ->
  exists d,
    datetime.strptime (datetime.strftime x datetime.fmt_minutes)
      datetime.fmt_minutes = Some d
    /\ datetime.second d = 0
    /\ datetime.year d = datetime.year x
    /\ datetime.strftime d datetime.fmt_minutes
       = datetime.strftime x datetime.fmt_minutes.
Proof.
  intros Hfull. rewrite strptime_of_strftime by exact Hfull.
  destruct (datetime.make _ _ _ _ _ 0) as [d|] eqn:E.
  - exists d. split; [reflexivity|].
    destruct (make_fields _ _ _ _ _ _ _ E) as (Hy & Hm & Hd & HH & HM & HS).
    split; [exact HS|]. split; [exact Hy|].
    unfold datetime.strftime. cbn [flat_map datetime.fmt_minutes datetime.print_directive].
    rewrite Hy, Hm, Hd, HH, HM. reflexivity.
  - exfalso. unfold datetime.make in E.
    destruct (bool_dec _ true) as [|Hn]; [discriminate|].
    apply Hn. apply legal_minutes.
Qed.

Lemma strptime_strftime (x : datetime.t) :
  1000 <= datetime.year x ->
  exists x',
    datetime.strptime (datetime.strftime x datetime.fmt_minutes)
      datetime.fmt_minutes = Some x'
    /\ datetime.strftime x' datetime.fmt_minutes
       = datetime.strftime x datetime.fmt_minutes.
Proof.
  intros H. destruct (minute_text_is_normal x H) as (d & Hp & _ & _ & Hf).
  exists d. auto.
Qed.

(** ** Validators *)

Section ValidatorFacts.
Context {B : Builtins}.

Lemma construct_isinstance t v w :
  construct t v = Ok w -> isinstance w t = true.
Proof.
  destruct t; simpl; intros H.
  - injection H as <-. reflexivity.
  - destruct (py_int v); simpl in H; [injection H as <-; reflexivity|discriminate].
  - destruct (py_float v); simpl in H; [injection H as <-; reflexivity|discriminate].
  - injection H as <-. reflexivity.
Qed.

(** The generic validator returns an instance of its type ... *)
Lemma generic_returns_instance t x y :
  PropertyValidator.validate t x = Ok y -> isinstance y t = true.
Proof.
  unfold PropertyValidator.validate.
  destruct (isinstance x t) eqn:E; simpl.
  - intros H. injection H as <-. exact E.
  - destruct (construct t x) eqn:C.
    + intros H. injection H as <-. eapply construct_isinstance; eauto.
    + destruct (is_Value_or_Type_Error e); discriminate.
Qed.

(** ... and returns an instance of its type as it is. *)
Lemma generic_keeps_instance t y :
  isinstance y t = true -> PropertyValidator.validate t y = Ok y.
Proof. intros H. unfold PropertyValidator.validate. rewrite H. reflexivity. Qed.

Lemma generic_idempotent t x y :
  PropertyValidator.validate t x = Ok y -> PropertyValidator.validate t y = Ok y.
Proof. intros H. apply generic_keeps_instance. eapply generic_returns_instance; eauto. Qed.

Lemma string_idempotent lo hi p x y :
  StringValidator.validate lo hi p x = Ok y ->
  StringValidator.validate lo hi p y = Ok y.
Proof.
  unfold StringValidator.validate.
  destruct (PropertyValidator.validate TStr x) as [v|] eqn:E; simpl; [|discriminate].
  destruct (py_len v) as [n|] eqn:L; simpl; [|discriminate].
  destruct (n <? lo) eqn:E1; [discriminate|].
  destruct (StringValidator.too_long hi n) eqn:E2; [discriminate|].
  destruct p as [p|].
  - destruct (rx_match p (py_str v)) eqn:E3; simpl; [|discriminate].
    intros H. injection H as <-.
    rewrite (generic_idempotent _ _ _ E). simpl. rewrite L. simpl.
    rewrite E1, E2, E3. reflexivity.
  - intros H. injection H as <-.
    rewrite (generic_idempotent _ _ _ E). simpl. rewrite L. simpl.
    rewrite E1, E2. reflexivity.
Qed.

Lemma integer_idempotent lo hi x y :
  IntegerValidator.validate lo hi x = Ok y ->
  IntegerValidator.validate lo hi y = Ok y.
Proof.
  unfold IntegerValidator.validate.
  destruct (PropertyValidator.validate TInt x) as [v|] eqn:E; simpl; [|discriminate].
  destruct (IntegerValidator.int_value v) as [n|] eqn:L; simpl; [|discriminate].
  destruct (match lo with Some l => if n <? l then Some l else None | None => None end)
    eqn:E1; [discriminate|].
  destruct (match hi with Some h => if n >? h then Some h else None | None => None end)
    eqn:E2; [discriminate|].
  intros H. injection H as <-.
  rewrite (generic_idempotent _ _ _ E). simpl. rewrite L. simpl.
  rewrite E1, E2. reflexivity.
Qed.

Lemma float_idempotent lo hi x y :
  FloatValidator.validate lo hi x = Ok y ->
  FloatValidator.validate lo hi y = Ok y.
Proof.
  unfold FloatValidator.validate.
  set (first := if isinstance x TStr then _ else _).
  destruct first as [v|] eqn:E; simpl; [|discriminate].
  destruct (FloatValidator.float_value v) as [a|] eqn:L; simpl; [|discriminate].
  destruct v; try discriminate L. simpl in L. injection L as ->.
  destruct (match lo with Some l => if PrimFloat.ltb a l then Some l else None | None => None end)
    eqn:E1; [discriminate|].
  destruct (match hi with Some h => if PrimFloat.ltb h a then Some h else None | None => None end)
    eqn:E2; [discriminate|].
  intros H. injection H as <-. simpl. rewrite E1, E2. reflexivity.
Qed.

Lemma member_eqb (s : string) (l : list string) :
  existsb (String.eqb s) l = true <-> In s l.
Proof.
  rewrite existsb_exists. split.
  - intros (x & Hx & E). apply String.eqb_eq in E. subst. exact Hx.
  - intros H. exists s. split; [exact H|apply String.eqb_refl].
Qed.

Lemma list_idempotent cs e x y :
  ListValidator.validate cs e x = Ok y ->
  ListValidator.validate cs e y = Ok y.
Proof.
  unfold ListValidator.validate.
  destruct (negb (truthy x) && e) eqn:E0.
  - intros H. injection H as <-. apply andb_true_iff in E0 as [_ ->].
    reflexivity.
  - destruct (PropertyValidator.validate TStr x) as [v|] eqn:E; simpl; [|discriminate].
    destruct (existsb (String.eqb (py_str v)) cs) eqn:E1; simpl; [|discriminate].
    intros H. injection H as <-.
    pose proof (generic_returns_instance _ _ _ E) as Hi.
    destruct v; try discriminate Hi. simpl in *.
    destruct (negb (negb (s =? "")%string) && e) eqn:E2.
    + apply andb_true_iff in E2 as [E2 _]. rewrite negb_involutive in E2.
      apply String.eqb_eq in E2. subst. reflexivity.
    + rewrite E1. reflexivity.
Qed.

(** What the date validator returns is a date as [strftime] prints it. *)
Lemma datetime_validator_prints (x y : pyval) :
  DateTimeValidator.validate x = Ok y ->
  exists d, y = VStr (datetime.strftime d datetime.fmt_minutes).
Proof.
  unfold DateTimeValidator.validate.
  assert (G : forall s,
    match datetime.strptime s datetime.fmt_minutes with
    | Some dt => Ok (VStr (datetime.strftime dt datetime.fmt_minutes))
    | None =>
        match datetime.strptime s datetime.fmt_seconds with
        | Some dt => Ok (VStr (datetime.strftime dt datetime.fmt_minutes))
        | None => Raise (ValueError
            ("Invalid datetime format. Expected YYYY-MM-DD HH:mm, got " +:+ s))
        end
    end = Ok y ->
    exists d, y = VStr (datetime.strftime d datetime.fmt_minutes)).
  { intros s.
    destruct (datetime.strptime s datetime.fmt_minutes) as [d|].
    - intros H. injection H as <-. eauto.
    - destruct (datetime.strptime s datetime.fmt_seconds) as [d|]; [|discriminate].
      intros H. injection H as <-. eauto. }
  destruct x; try apply G.
  intros H. injection H as <-. eauto.
Qed.

Lemma datetime_idempotent x y :
  DateTimeValidator.validate x = Ok y ->
  full_year DateTimeValidator y = true ->
  DateTimeValidator.validate y = Ok y.
Proof.
  intros H Hfull. destruct (datetime_validator_prints x y H) as (d & ->).
  simpl in Hfull. apply Nat.eqb_eq in Hfull. apply strftime_full in Hfull.
  destruct (strptime_strftime d Hfull) as (d' & P & S).
  simpl. rewrite P, S. reflexivity.
Qed.

(** Validating a value that a validator has returned gives the same
    value back, a date before the year 1000 apart. *)
Lemma validate_idempotent v x y :
  validate v x = Ok y -> full_year v y = true -> validate v y = Ok y.
Proof.
  destruct v; simpl; intros H Hfull.
  - eapply generic_idempotent; eauto.
  - eapply string_idempotent; eauto.
  - eapply integer_idempotent; eauto.
  - eapply float_idempotent; eauto.
  - eapply list_idempotent; eauto.
  - eapply datetime_idempotent; eauto.
Qed.

End ValidatorFacts.

(** ** Dictionaries *)

Lemma get_set_eq {V} (d : Dict.t V) k v : Dict.get (Dict.set d k v) k = Some v.
Proof.
  induction d as [|[k' v'] r IH]; simpl.
  - rewrite String.eqb_refl. reflexivity.
  - destruct (String.eqb k k') eqn:E; simpl; rewrite E; [reflexivity|exact IH].
Qed.

Lemma get_set_ne {V} (d : Dict.t V) k k' v :
  k <> k' -> Dict.get (Dict.set d k v) k' = Dict.get d k'.
Proof.
  intros Hne. induction d as [|[k0 v0] r IH]; simpl.
  - destruct (String.eqb k' k) eqn:E; [|reflexivity].
    apply String.eqb_eq in E. congruence.
  - destruct (String.eqb k k0) eqn:E; simpl.
    + apply String.eqb_eq in E. subst k0.
      destruct (String.eqb k' k) eqn:E'; [|reflexivity].
      apply String.eqb_eq in E'. congruence.
    + rewrite IH. reflexivity.
Qed.

Lemma set_after {V} (pre rest : Dict.t V) k v0 v :
  ~ In k (Dict.keys pre) ->
  Dict.set (pre ++ (k, v0) :: rest) k v = pre ++ (k, v) :: rest.
Proof.
  induction pre as [|[k' v'] pre IH]; simpl; intros Hn.
  - rewrite String.eqb_refl. reflexivity.
  - destruct (String.eqb k k') eqn:E.
    + apply String.eqb_eq in E. subst. exfalso. apply Hn. left. reflexivity.
    + rewrite IH; [reflexivity|]. intros H. apply Hn. right. exact H.
Qed.

Lemma keys_app {V} (a b : Dict.t V) :
  Dict.keys (a ++ b) = Dict.keys a ++ Dict.keys b.
Proof. apply map_app. Qed.

(** ** [validate_properties] *)

Section EntityFacts.
Context {B : Builtins}.

Lemma NoDup_not_in_pre {V} (pre rest : Dict.t V) k v :
  List.NoDup (Dict.keys (pre ++ (k, v) :: rest)) -> ~ In k (Dict.keys pre).
Proof.
  rewrite keys_app. simpl. intros H Hin.
  apply NoDup_remove_2 in H. apply H. apply in_or_app. left. exact Hin.
Qed.

Lemma NoDup_shift {V} (pre rest : Dict.t V) k v v' :
  List.NoDup (Dict.keys (pre ++ (k, v) :: rest)) ->
  List.NoDup (Dict.keys ((pre ++ [(k, v')]) ++ rest)).
Proof.
  rewrite !keys_app. simpl. rewrite <- app_assoc. simpl. auto.
Qed.

(** A successful pass stores, under each key, what the validator
    returned. *)
Lemma validate_items_maps cn types validators items :
  forall pre ps,
    List.NoDup (Dict.keys (pre ++ items)) ->
    Entity.validate_items cn types validators items (pre ++ items) = (ps, Ok tt) ->
    exists items', ps = pre ++ items'
                   /\ Forall2 (validated types validators) items items'.
Proof.
  induction items as [|[k v] rest IH]; intros pre ps Hnd H; simpl in H.
  - injection H as <-. exists []. split; [reflexivity|constructor].
  - destruct (Dict.get types k) as [ty|] eqn:Hty; [|discriminate].
    fold (chosen validators k ty) in H.
    destruct (validate (chosen validators k ty) v) as [v'|] eqn:Hv; [|discriminate].
    rewrite set_after in H by (eapply NoDup_not_in_pre; eauto).
    replace (pre ++ (k, v') :: rest) with ((pre ++ [(k, v')]) ++ rest) in H
      by (rewrite <- app_assoc; reflexivity).
    apply IH in H; [|eapply NoDup_shift; eauto].
    destruct H as (items' & -> & Hs).
    exists ((k, v') :: items'). split; [rewrite <- app_assoc; reflexivity|].
    constructor; [|exact Hs]. split; [reflexivity|]. exists ty. auto.
Qed.

(** A pass over settled entries changes nothing and raises nothing. *)
Lemma validate_items_settled cn types validators items :
  forall pre,
    List.NoDup (Dict.keys (pre ++ items)) ->
    Forall (settled types validators) items ->
    Entity.validate_items cn types validators items (pre ++ items)
    = (pre ++ items, Ok tt).
Proof.
  induction items as [|[k v] rest IH]; intros pre Hnd Hs; simpl.
  - reflexivity.
  - inversion Hs as [|? ? (ty & Hty & Hv) Hs']; subst. simpl in Hty, Hv.
    rewrite Hty. fold (chosen validators k ty). rewrite Hv.
    rewrite set_after by (eapply NoDup_not_in_pre; eauto).
    replace (pre ++ (k, v) :: rest) with ((pre ++ [(k, v)]) ++ rest)
      by (rewrite <- app_assoc; reflexivity).
    apply IH; [eapply NoDup_shift; eauto|exact Hs'].
Qed.

Lemma validated_keys types validators items items' :
  Forall2 (validated types validators) items items' ->
  Dict.keys items' = Dict.keys items.
Proof.
  induction 1 as [|a b l l' [Hab _] _ IH]; simpl; congruence.
Qed.

(** What a validator returned is returned by it again when its dates
    are in full. *)
Lemma validated_settled types validators items items' :
  Forall2 (validated types validators) items items' ->
  forallb (fun kv => match Dict.get validators (fst kv) with
                     | Some v => full_year v (snd kv)
                     | None => true
                     end) items' = true ->
  Forall (settled types validators) items'.
Proof.
  induction 1 as [|a b l l' (Hk & ty & Hty & Hv) _ IH]; simpl; intros Hf;
    [constructor|].
  apply andb_true_iff in Hf as [Hb Hf].
  constructor; [|apply IH; exact Hf].
  exists ty. rewrite Hk. split; [exact Hty|].
  eapply validate_idempotent; [exact Hv|].
  unfold chosen. rewrite <- Hk.
  destruct (Dict.get validators (fst b)); [exact Hb|reflexivity].
Qed.

Lemma validate_properties_again c s s' :
  Dict.wf (Entity.properties s) ->
  Entity.validate_properties c s = (s', Ok tt) ->
  full_years s' = true ->
  Entity.validate_properties c s' = (s', Ok tt).
Proof.
  unfold Entity.validate_properties, Dict.wf. intros Hnd H.
  destruct (Entity.validate_items _ _ _ _ _) as [ps r] eqn:E.
  injection H as <- ->.
  apply (validate_items_maps _ _ _ _ []) in E; [|exact Hnd].
  destruct E as (items' & -> & Hs).
  unfold full_years.
  cbn [app Entity.with_properties Entity.properties Entity.property_types
       Entity.property_validators] in *.
  intros Hfull.
  pose proof (validate_items_settled (Entity.__name__ c)
                (Entity.property_types s) (Entity.property_validators s)
                items' []) as K.
  cbn [app] in K. rewrite K; [reflexivity| |].
  - rewrite (validated_keys _ _ _ _ Hs). exact Hnd.
  - eapply validated_settled; eauto.
Qed.

End EntityFacts.

(** C8, at the input where the code departs from it: a date of the
    year 5.  The date validator reads [0005-01-01 10:00] and returns the
    text [strftime] prints for it, [5-01-01 10:00]; validating that text
    again raises [ValueError], and so does a second
    [validate_properties] on an [Event] that has just passed the
    first. *)
Theorem date_validator_refuses_its_own_result `{B : Builtins} :
  validate DateTimeValidator (VStr "0005-01-01 10:00")
  = Ok (VStr "5-01-01 10:00")
  /\ validate DateTimeValidator (VStr "5-01-01 10:00")
     = Raise (ValueError
         "Invalid datetime format. Expected YYYY-MM-DD HH:mm, got 5-01-01 10:00")
  /\ (let s := dated_event "0005-01-01 10:00" in
      let s' := fst (Entity.validate_properties Event_ s) in
      snd (Entity.validate_properties Event_ s) = Ok tt
      /\ Dict.get (Entity.properties s') "start_date"
         = Some (VStr "5-01-01 10:00")
      /\ snd (Entity.validate_properties Event_ s')
         = Raise (ValueError
             "Invalid datetime format. Expected YYYY-MM-DD HH:mm, got 5-01-01 10:00")).
Proof.
  split; [vm_compute; reflexivity|].
  split; vm_compute; auto.
Qed.

(** ** Entities *)

Section EntityTheorems.
Context {B : Builtins}.

(** Whatever [PropertyValidationError] comes out of the loop of
    [validate_properties] carries the name of one of the properties it
    went through. *)
Lemma validation_error_names_property cn types validators items :
  forall props ps n v x m,
    Entity.validate_items cn types validators items props
    = (ps, Raise (PropertyValidationError n v x m)) ->
    In n (Dict.keys items).
Proof.
  induction items as [|[k w] rest IH]; intros props ps n v x m H; simpl in H.
  - discriminate.
  - destruct (Dict.get types k) as [ty|].
    + destruct (validate _ w) as [w'|e] eqn:E.
      * right. eapply IH; eauto.
      * injection H as _ H. left. simpl.
        destruct e; simpl in H; try discriminate. congruence.
    + injection H as _ H. unfold new_PropertyValidationError in H.
      left. simpl. congruence.
Qed.

(** The standard validators replace whatever [init_properties]
    registered under the three standard names. *)
Lemma standard_validators_win (c : Entity.class) (s : Entity.fields) (k : string) :
  In k ["notes"; "source"; "image"] ->
  Dict.get (Entity.property_validators (Entity.declare c s)) k
  = Some (StringValidator 0 None None).
Proof.
  intros Hk. unfold Entity.declare.
  cbn [Entity.property_validators Entity.with_property_validators].
  unfold Dict.update, Entity.standard_validators. cbn [fold_left fst snd].
  destruct Hk as [<-|[<-|[<-|[]]]].
  - rewrite !get_set_ne by discriminate. apply get_set_eq.
  - rewrite get_set_ne by discriminate. apply get_set_eq.
  - apply get_set_eq.
Qed.

End EntityTheorems.

(** C4, at the input where the code departs from it: an [Event] whose
    [start_date] is the text [tomorrow].  [validate_properties] does not
    raise a [PropertyValidationError] naming [start_date]; the
    [ValueError] of the date validator passes through it, and through
    the constructor, as it is. *)
Theorem event_date_error_is_a_ValueError `{B : Builtins} :
  snd (Entity.validate_properties Event_ (dated_event "tomorrow"))
  = Raise (ValueError
             "Invalid datetime format. Expected YYYY-MM-DD HH:mm, got tomorrow")
  /\ Entity.new Event_ "" [("start_date", VStr "tomorrow")] "id-1"
     = Raise (ValueError
                "Invalid datetime format. Expected YYYY-MM-DD HH:mm, got tomorrow").
Proof. split; vm_compute; reflexivity. Qed.

(** C6, at the input where the code departs from it: the subclass
    [Memo] registers [StringValidator(min_length=5)] for [notes]; after
    construction [property_validators] maps [notes] to a plain
    [StringValidator()], so a three-letter note is accepted. *)
Theorem subclass_validator_for_notes_is_replaced `{B : Builtins} :
  Dict.get
    (Entity.property_validators
       (Entity.init_properties Memo (Entity.mkfields "" [] [] [])))
    "notes"
  = Some (StringValidator 5 None None)
  /\ match Entity.new Memo "" [("notes", VStr "abc")] "id-1" with
     | Ok e =>
         Dict.get (Entity.property_validators (Entity.self e)) "notes"
         = Some (StringValidator 0 None None)
         /\ Dict.get (Entity.properties (Entity.self e)) "notes"
            = Some (VStr "abc")
     | Raise _ => False
     end
  /\ validate (StringValidator 5 None None) (VStr "abc")
     = Raise (unknown (VStr "abc")
                (ExpText "String length must be at least 5")).
Proof. repeat split; vm_compute; reflexivity. Qed.

(** C7, at the input where the code departs from it: an [Event] built
    without [add_to_timeline] has it set to [False]. *)
Theorem event_add_to_timeline_defaults_to_False `{B : Builtins} :
  match Entity.new Event_ "" [] "id-1" with
  | Ok e =>
      Entity.properties (Entity.self e) = [("add_to_timeline", VBool false)]
  | Raise _ => False
  end.
Proof. vm_compute. reflexivity. Qed.

(** C2, at the input where the code departs from it: a [Person] named
    John Smith.  The entity rebuilt from its own mapping has the same
    id, class, properties and colour, and the same label inside [data],
    but its [label] attribute is the one [update_label] derived from
    the empty properties during construction. *)
Theorem round_trip_loses_the_label `{B : Builtins} :
  match Entity.new Person "" [("full_name", VStr "John Smith")] "id-1" with
  | Ok e =>
      let (e1, data) := Entity.call_to_dict e in
      match Entity.from_dict ENTITY_TYPES data "id-2" with
      | Ok e' =>
          Entity.label (Entity.self e) = "John Smith"
          /\ Entity.label (Entity.self e') = "Person"
          /\ EntityData.label (Entity.data e') = "John Smith"
          /\ Entity.id e' = Entity.id e
          /\ Entity.type e' = Entity.type e
          /\ Entity.properties (Entity.self e') = Entity.properties (Entity.self e)
          /\ EntityData.color (Entity.data e') = EntityData.color (Entity.data e)
      | Raise _ => False
      end
  | Raise _ => False
  end.
Proof. vm_compute. repeat split; reflexivity. Qed.

(** ** [Event.from_dict] *)

Section EventFromDict.
Context {B : Builtins}.

(** Every registered class can be built without properties. *)
Lemma registered_class_builds (ty l uuid4 : string) (c : Entity.class) :
  Dict.get ENTITY_TYPES ty = Some c ->
  exists e, Entity.new c l [] uuid4 = Ok e /\ Entity.cls e = c.
Proof.
  unfold ENTITY_TYPES. cbn [Dict.get].
  repeat match goal with
         | |- context [String.eqb ty ?k] => destruct (String.eqb ty k)
         end;
    intros H; try discriminate; injection H as <-;
    eexists; split; reflexivity.
Qed.

Lemma normalise_other (f k : string) (ps : Dict.t pyval) :
  f <> k -> Dict.get (Event.normalise f ps) k = Dict.get ps k.
Proof.
  intros Hne. unfold Event.normalise.
  destruct (Dict.get ps f) as [v|]; [|reflexivity].
  destruct (truthy v); [|reflexivity].
  destruct v; try reflexivity.
  repeat match goal with
         | |- context [match ?x with _ => _ end] => destruct x
         end; apply get_set_ne; exact Hne.
Qed.

Lemma normalise_unparseable (f s : string) (ps : Dict.t pyval) :
  Dict.get ps f = Some (VStr s) -> s <> "" ->
  datetime.strptime s datetime.fmt_minutes = None ->
  datetime.strptime s datetime.fmt_seconds = None ->
  Dict.get (Event.normalise f ps) f = Some VNone.
Proof.
  intros Hg Hs H1 H2. unfold Event.normalise. rewrite Hg. simpl.
  destruct (String.eqb s "") eqn:E; [apply String.eqb_eq in E; contradiction|].
  simpl. rewrite H1, H2. apply get_set_eq.
Qed.

End EventFromDict.

(** C10, as amended.  When the mapping given to [Event.from_dict] holds,
    under [start_date] or [end_date], a non-empty string that
    [strptime] accepts in neither format, [from_dict] stores [None]
    under that key in the mapping's own [properties] and returns an
    entity that holds these properties (the mapping naming a registered
    type and carrying an id and a label). *)
Theorem event_from_dict_blanks_unparseable_date `{B : Builtins}
  (data : Mapping.t) (ps : Dict.t pyval) (date_field s : string)
  (ty l i uuid4 : string) (c : Entity.class) :
  In date_field ["start_date"; "end_date"] ->
  Mapping.properties data = Some ps ->
  Dict.get ps date_field = Some (VStr s) ->
  s <> "" ->
  datetime.strptime s datetime.fmt_minutes = None ->
  datetime.strptime s datetime.fmt_seconds = None ->
  Mapping.type data = Some ty -> Dict.get ENTITY_TYPES ty = Some c ->
  Mapping.label data = Some l -> Mapping.id data = Some i ->
  exists ps' e,
    Event.from_dict ENTITY_TYPES data uuid4
    = (Mapping.set_properties data ps', Ok e)
    /\ Dict.get ps' date_field = Some VNone
    /\ Entity.properties (Entity.self e) = ps'.
Proof.
  intros Hf Hps Hg Hs H1 H2 Hty Hc Hl Hi.
  exists (Event.normalise "end_date" (Event.normalise "start_date" ps)).
  destruct (registered_class_builds ty l uuid4 c Hc) as (e0 & He0 & Hcls).
  exists (Entity.mk c
            (Entity.with_properties
               (Event.normalise "end_date" (Event.normalise "start_date" ps))
               (Entity.self e0))
            (EntityData.mk i ty l (Mapping.color data))).
  split; [|split].
  - unfold Event.from_dict, Event.normalised. rewrite Hps.
    f_equal. unfold Entity.from_dict, EntityData.from_dict.
    destruct data as [di dt dl dp dc]. simpl in *. subst.
    simpl. rewrite Hc. simpl. rewrite He0. simpl. reflexivity.
  - destruct Hf as [<-|[<-|[]]].
    + rewrite normalise_other by discriminate.
      apply (normalise_unparseable _ s); assumption.
    + apply (normalise_unparseable _ s); try assumption.
      rewrite normalise_other by discriminate. exact Hg.
  - reflexivity.
Qed.

Section EventFromDictCases.
#[local] Existing Instance no_conversions.

Lemma event_from_dict_blanks_unparseable_date_witness :
  exists ps' e,
    Event.from_dict ENTITY_TYPES (event_mapping (VStr "next Tuesday")) "id-2"
    = (Mapping.set_properties (event_mapping (VStr "next Tuesday")) ps', Ok e)
    /\ Dict.get ps' "start_date" = Some VNone
    /\ Entity.properties (Entity.self e) = ps'.
Proof.
  apply (event_from_dict_blanks_unparseable_date
           (event_mapping (VStr "next Tuesday"))
           [("name", VStr "Briefing"); ("start_date", VStr "next Tuesday")]
           "start_date" "next Tuesday" "Event" "Briefing" "id-1" "id-2"
           Event_);
    try (vm_compute; reflexivity).
  - left. reflexivity.
  - discriminate.
Defined.

(** The claim C10 as stated fails on the empty string: it matches
    neither format, and [from_dict] leaves it in place. *)
Lemma event_from_dict_keeps_empty_date :
  datetime.strptime "" datetime.fmt_minutes = None
  /\ datetime.strptime "" datetime.fmt_seconds = None
  /\ match Event.from_dict ENTITY_TYPES (event_mapping (VStr "")) "id-2" with
     | (data, Ok e) =>
         Mapping.properties data
         = Some [("name", VStr "Briefing"); ("start_date", VStr "")]
         /\ Dict.get (Entity.properties (Entity.self e)) "start_date"
            = Some (VStr "")
     | (_, Raise _) => False
     end.
Proof. vm_compute. repeat split; reflexivity. Qed.

End EventFromDictCases.

(** ** Transforms *)

Section TransformFacts.
Variable graph : Type.

(** [run] is reached only once the input has been accepted. *)
Lemma rejected_input_skips_run (self : Transform.t graph) entity g :
  Transform._validate_input graph self entity = false ->
  Transform.attempt graph self entity g
  = (g, [],
     Raise (TransformValidationError
              ("Entity type " +:+ Transform.class_name entity
               +:+ " not supported by transform " +:+ Transform.name graph self))).
Proof. intros H. unfold Transform.attempt. rewrite H. reflexivity. Qed.

(** Whatever [execute] raises, it is not a [TransformValidationError]. *)
Lemma execute_never_raises_validation_error (self : Transform.t graph)
  entity g message :
  snd (Transform.execute graph self entity g)
  <> Raise (TransformValidationError message).
Proof.
  unfold Transform.execute.
  destruct (Transform.attempt graph self entity g) as [[g' log] [l|e]]; simpl.
  - discriminate.
  - destruct (is_Exception e) eqn:E; simpl; [discriminate|].
    destruct e; try discriminate E. discriminate.
Qed.

(** A signal that is not an instance of [Exception] is not caught by
    [except Exception] and leaves [execute] as [run] raised it. *)
Lemma signals_pass_through (self : Transform.t graph) entity g g' c :
  Transform._validate_input graph self entity = true ->
  Transform.run graph self entity g = (g', Raise (BaseOnly c)) ->
  snd (Transform.execute graph self entity g) = Raise (BaseOnly c).
Proof.
  intros Hin Hrun. unfold Transform.execute, Transform.attempt.
  rewrite Hin, Hrun. reflexivity.
Qed.

End TransformFacts.

(** C1, at the inputs where the code departs from it.  A [Person] handed
    to a transform that takes images: [run] is not called, and what
    [execute] raises is a [TransformExecutionError] whose cause is the
    [TransformValidationError].  The same for a transform that returns a
    [Person] where only images are allowed. *)
Theorem validation_errors_leave_execute_wrapped `{B : Builtins}
  (s s' : Entity.fields) (d d' : EntityData.t) :
  let person := Entity.mk Person s d in
  let image := Entity.mk Image s' d' in
  Transform.execute unit (reverse_image_search (run_returning [])) person tt
  = (tt,
     [Transform.error
        "Transform Reverse Image Search failed: Entity type Person not supported by transform Reverse Image Search"],
     Raise (TransformExecutionError
              "Transform Reverse Image Search failed: Entity type Person not supported by transform Reverse Image Search"
              (TransformValidationError
                 "Entity type Person not supported by transform Reverse Image Search")))
  /\ snd (Transform.execute unit
            (reverse_image_search (run_returning [person])) image tt)
     = Raise (TransformExecutionError
                "Transform Reverse Image Search failed: Transform Reverse Image Search returned invalid output types"
                (TransformValidationError
                   "Transform Reverse Image Search returned invalid output types")).
Proof. split; reflexivity. Qed.


Section TransformCases.
#[local] Existing Instance no_conversions.


End TransformCases.

(** ** The graph store *)

Section GraphFacts.
Import GraphManager.














End GraphFacts.


Section GraphCases.
#[local] Existing Instance no_conversions.



End GraphCases.

(** ** The merge resolver *)

Section ResolverFacts.
Import AIDock.

(** The alphabetical order is a rearrangement of the words it is given,
    hence one of the orders in which a set of them can be iterated. *)
Lemma insert_sorted_perm (w : string) (l : list string) :
  Permutation (insert_sorted w l) (w :: l).
Proof.
  induction l as [|x r IH]; simpl; [reflexivity|].
  destruct (String.leb w x); [reflexivity|].
  rewrite IH. apply perm_swap.
Qed.

Lemma alphabetical_order_perm (l : list string) :
  Permutation (alphabetical_order l) l.
Proof.
  induction l as [|x r IH]; simpl; [reflexivity|].
  rewrite insert_sorted_perm. constructor. exact IH.
Qed.

(** The score of the two person labels, before and after the boost. *)
Lemma doe_scores :
  let score := _get_similarity_score ["doe"; "john"] ["doe"; "jane"] in
  PrimFloat.ltb score 0.7 = true
  /\ PrimFloat.leb 0.7 (score * 1.5) = true.
Proof. split; vm_compute; reflexivity. Qed.

(** The event of the claim is merged, in either order of iteration. *)
Lemma robbery_is_merged (node : Type) (n : node) :
  _find_matching_entity insertion_order node "Event"
    "Bank robbery on Main Street" [("event:robbery at main street bank", n)]
  = Some n
  /\ _find_matching_entity alphabetical_order node "Event"
       "Bank robbery on Main Street" [("event:robbery at main street bank", n)]
     = Some n.
Proof. split; vm_compute; reflexivity. Qed.

End ResolverFacts.

(** C3, at the input where the code departs from it.  The boost for
    persons compares the first element of each set of words in the
    order of iteration of the set, not the first word of each label.
    When both sets are iterated with [doe] first, as in the
    alphabetical order, John Doe scores 0.8 against Jane Doe and is
    merged into it; when they are iterated in the order of the words,
    it is not. *)
Theorem john_doe_is_merged_when_doe_comes_first (node : Type) (n : node) :
  AIDock.word_set AIDock.alphabetical_order "john doe" = ["doe"; "john"]
  /\ AIDock.word_set AIDock.alphabetical_order "jane doe" = ["doe"; "jane"]
  /\ AIDock._find_matching_entity AIDock.alphabetical_order node "Person"
       "John Doe" [("person:jane doe", n)]
     = Some n
  /\ AIDock._find_matching_entity AIDock.insertion_order node "Person"
       "John Doe" [("person:jane doe", n)]
     = None.
Proof. repeat split; vm_compute; reflexivity. Qed.

(* ===================================================================== *)
(** * Further properties of the same code *)
(* ===================================================================== *)

(** ** What a validator returns and what it raises *)

Section ValidatorResults.
Context {B : Builtins}.

Lemma generic_str x y :
  PropertyValidator.validate TStr x = Ok y ->
  exists s, y = VStr s /\ (isinstance x TStr = true -> y = x)
            /\ (isinstance x TStr = false -> s = py_str x).
Proof.
  unfold PropertyValidator.validate.
  destruct (isinstance x TStr) eqn:E; simpl; intros H; injection H as <-.
  - destruct x; try discriminate E.
    eexists; repeat split; auto; intros; discriminate.
  - eexists; repeat split; auto; intros; discriminate.
Qed.

End ValidatorResults.

(** X1.  A value accepted by a [StringValidator] is a string within the
    length bounds that matches the pattern; a maximal length of zero
    sets no bound.  A string is returned as it is, any other value as
    its [str]. *)
Theorem string_validator_result `{B : Builtins}
  (lo : Z) (hi : option Z) (p : option regex) (x y : pyval) :
  StringValidator.validate lo hi p x = Ok y ->
  exists s,
    y = VStr s
    /\ lo <= Z.of_nat (String.length s)
    /\ (forall m, hi = Some m -> m <> 0 -> Z.of_nat (String.length s) <= m)
    /\ (forall r, p = Some r -> rx_match r s = true)
    /\ (isinstance x TStr = true -> y = x)
    /\ (isinstance x TStr = false -> s = py_str x).
Proof.
  unfold StringValidator.validate.
  destruct (PropertyValidator.validate TStr x) as [v|] eqn:E; simpl; [|discriminate].
  destruct (generic_str _ _ E) as (s & -> & Hsame & Hstr). simpl.
  destruct (Z.of_nat (String.length s) <? lo) eqn:E1; [discriminate|].
  destruct (StringValidator.too_long hi (Z.of_nat (String.length s))) eqn:E2;
    [discriminate|].
  intros H. exists s.
  assert (Hy : y = VStr s /\ forall r, p = Some r -> rx_match r s = true).
  { destruct p as [r|].
    - destruct (rx_match r s) eqn:E3; simpl in H; [|discriminate].
      injection H as <-. split; [reflexivity|]. intros r' [= <-]. exact E3.
    - injection H as <-. split; [reflexivity|]. discriminate. }
  destruct Hy as [-> Hp].
  repeat split; auto.
  - apply Z.ltb_ge in E1. exact E1.
  - intros m -> Hm. unfold StringValidator.too_long in E2.
    destruct (m =? 0) eqn:E0; [apply Z.eqb_eq in E0; contradiction|].
    simpl in E2.
    destruct (Z.of_nat (String.length s) >? m) eqn:E4; [discriminate|].
    rewrite Z.gtb_ltb in E4. apply Z.ltb_ge in E4. exact E4.
Qed.

Section ValidatorResultCases.
#[local] Existing Instance no_conversions.

Lemma string_validator_result_witness :
  exists s,
    VStr "42" = VStr s
    /\ 2 <= Z.of_nat (String.length s)
    /\ (forall m, Some 5 = Some m -> m <> 0 -> Z.of_nat (String.length s) <= m)
    /\ (forall r, @None regex = Some r -> rx_match r s = true)
    /\ (isinstance (VInt 42) TStr = true -> VStr "42" = VInt 42)
    /\ (isinstance (VInt 42) TStr = false -> s = py_str (VInt 42)).
Proof.
  apply (string_validator_result 2 (Some 5) None (VInt 42) (VStr "42")).
  vm_compute. reflexivity.
Defined.

End ValidatorResultCases.

(** X2.  A value accepted by an [IntegerValidator] is an [int] that
    lies within the bounds given. *)
Theorem integer_validator_result `{B : Builtins}
  (lo hi : option Z) (x y : pyval) :
  IntegerValidator.validate lo hi x = Ok y ->
  exists n,
    isinstance y TInt = true
    /\ IntegerValidator.int_value y = Ok n
    /\ (forall l, lo = Some l -> l <= n)
    /\ (forall h, hi = Some h -> n <= h)
    /\ (isinstance x TInt = true -> y = x).
Proof.
  unfold IntegerValidator.validate.
  destruct (PropertyValidator.validate TInt x) as [v|] eqn:E; simpl; [|discriminate].
  destruct (IntegerValidator.int_value v) as [n|] eqn:L; simpl; [|discriminate].
  destruct (match lo with Some l => if n <? l then Some l else None | None => None end)
    eqn:E1; [discriminate|].
  destruct (match hi with Some h => if n >? h then Some h else None | None => None end)
    eqn:E2; [discriminate|].
  intros H. injection H as <-. exists n.
  split; [eapply generic_returns_instance; eauto|].
  split; [exact L|].
  split; [|split].
  - intros l ->. destruct (n <? l) eqn:E3; [discriminate|].
    apply Z.ltb_ge in E3. exact E3.
  - intros h ->. destruct (n >? h) eqn:E3; [discriminate|].
    rewrite Z.gtb_ltb in E3. apply Z.ltb_ge in E3. exact E3.
  - intros Hi. unfold PropertyValidator.validate in E. rewrite Hi in E.
    simpl in E. congruence.
Qed.

(** X3.  A value accepted by a [FloatValidator] is a float that is
    neither below the lower bound nor above the upper one.  A string is
    handed to [float] directly and the float it yields is returned
    without rounding; a float is returned as it is. *)
Theorem float_validator_result `{B : Builtins}
  (lo hi : option float) (x y : pyval) :
  FloatValidator.validate lo hi x = Ok y ->
  exists a,
    y = VFloat a
    /\ (forall l, lo = Some l -> PrimFloat.ltb a l = false)
    /\ (forall h, hi = Some h -> PrimFloat.ltb h a = false)
    /\ (forall s, x = VStr s -> float_of_str s = Some a)
    /\ (forall a0, x = VFloat a0 -> a = a0).
Proof.
  unfold FloatValidator.validate.
  set (first := if isinstance x TStr then _ else _).
  destruct first as [v|] eqn:E; simpl; [|discriminate].
  destruct (FloatValidator.float_value v) as [a|] eqn:L; simpl; [|discriminate].
  destruct v; try discriminate L. simpl in L. injection L as ->.
  destruct (match lo with Some l => if PrimFloat.ltb a l then Some l else None | None => None end)
    eqn:E1; [discriminate|].
  destruct (match hi with Some h => if PrimFloat.ltb h a then Some h else None | None => None end)
    eqn:E2; [discriminate|].
  intros H. injection H as <-. exists a.
  split; [reflexivity|]. split; [|split; [|split]].
  - intros l ->. destruct (PrimFloat.ltb a l); [discriminate|reflexivity].
  - intros h ->. destruct (PrimFloat.ltb h a); [discriminate|reflexivity].
  - intros s ->. subst first. simpl in E.
    destruct (float_of_str s) as [a'|]; simpl in E; [congruence|discriminate].
  - intros a0 ->. subst first. cbv in E. congruence.
Qed.

(** X4.  A [ListValidator] returns one of its choices, or the empty
    string for a falsy value when empty values are allowed. *)
Theorem list_validator_result `{B : Builtins}
  (cs : list string) (allow_empty : bool) (x y : pyval) :
  ListValidator.validate cs allow_empty x = Ok y ->
  exists s,
    y = VStr s
    /\ (In s cs \/ (s = "" /\ allow_empty = true /\ truthy x = false)).
Proof.
  unfold ListValidator.validate.
  destruct (negb (truthy x) && allow_empty) eqn:E0.
  - intros H. injection H as <-. exists "". split; [reflexivity|]. right.
    apply andb_true_iff in E0 as [E1 E2]. apply negb_true_iff in E1. auto.
  - destruct (PropertyValidator.validate TStr x) as [v|] eqn:E; simpl; [|discriminate].
    destruct (generic_str _ _ E) as (s & -> & _). simpl.
    destruct (existsb (String.eqb s) cs) eqn:E1; simpl; [|discriminate].
    intros H. injection H as <-. exists s. split; [reflexivity|]. left.
    apply member_eqb. exact E1.
Qed.

Section MoreValidatorCases.
#[local] Existing Instance no_conversions.

Lemma integer_validator_result_witness :
  exists n,
    isinstance (VInt 30) TInt = true
    /\ IntegerValidator.int_value (VInt 30) = Ok n
    /\ (forall l, Some 0 = Some l -> l <= n)
    /\ (forall h, Some 150 = Some h -> n <= h)
    /\ (isinstance (VInt 30) TInt = true -> VInt 30 = VInt 30).
Proof.
  apply (integer_validator_result (Some 0) (Some 150) (VInt 30) (VInt 30)).
  vm_compute. reflexivity.
Defined.

Lemma float_validator_result_witness :
  exists a,
    VFloat 180%float = VFloat a
    /\ (forall l, Some 0%float = Some l -> PrimFloat.ltb a l = false)
    /\ (forall h, Some 300%float = Some h -> PrimFloat.ltb h a = false)
    /\ (forall s, VFloat 180%float = VStr s -> float_of_str s = Some a)
    /\ (forall a0, VFloat 180%float = VFloat a0 -> a = a0).
Proof.
  apply (float_validator_result (Some 0%float) (Some 300%float)
           (VFloat 180%float) (VFloat 180%float)).
  vm_compute. reflexivity.
Defined.

Lemma list_validator_result_witness :
  exists s,
    VStr "Mobile" = VStr s
    /\ (In s ["Mobile"; "Home"; "Work"; "Fax"; "Other"]
        \/ (s = "" /\ true = true /\ truthy (VStr "Mobile") = false)).
Proof.
  apply (list_validator_result ["Mobile"; "Home"; "Work"; "Fax"; "Other"] true
           (VStr "Mobile") (VStr "Mobile")).
  vm_compute. reflexivity.
Defined.

End MoreValidatorCases.

(** ** Dates in their normal form *)

Lemma to_the_minute_make (x : datetime.t) :
  datetime.make (datetime.year x) (datetime.month x) (datetime.day x)
    (datetime.hour x) (datetime.minute x) 0
  = Some (EventDates.to_the_minute x).
Proof.
  unfold EventDates.to_the_minute.
  destruct (datetime.make _ _ _ _ _ 0) as [d|] eqn:E; [reflexivity|].
  exfalso. unfold datetime.make in E.
  destruct (bool_dec _ true) as [|Hn]; [discriminate|].
  apply Hn. apply legal_minutes.
Qed.

Lemma to_the_minute_fields (x : datetime.t) :
  let d := EventDates.to_the_minute x in
  datetime.year d = datetime.year x /\ datetime.month d = datetime.month x
  /\ datetime.day d = datetime.day x /\ datetime.hour d = datetime.hour x
  /\ datetime.minute d = datetime.minute x /\ datetime.second d = 0.
Proof. apply make_fields. apply to_the_minute_make. Qed.

(** The minute format does not print the seconds. *)
Lemma strftime_to_the_minute (x : datetime.t) :
  datetime.strftime (EventDates.to_the_minute x) datetime.fmt_minutes
  = datetime.strftime x datetime.fmt_minutes.
Proof.
  destruct (to_the_minute_fields x) as (Hy & Hm & Hd & HH & HM & _).
  unfold datetime.strftime.
  cbn [flat_map datetime.fmt_minutes datetime.print_directive].
  rewrite Hy, Hm, Hd, HH, HM. reflexivity.
Qed.

Lemma strptime_to_the_minute (x : datetime.t) :
  1000 <= datetime.year x ->
  datetime.strptime (datetime.strftime x datetime.fmt_minutes)
    datetime.fmt_minutes = Some (EventDates.to_the_minute x).
Proof.
  intros H. rewrite strptime_of_strftime by exact H. apply to_the_minute_make.
Qed.

(** [%Y] reads four digits: fewer, followed by the hyphen, are refused. *)
Lemma step_short_year (yt rest : list ascii) f :
  (length yt < 4)%nat ->
  datetime.step datetime.dY f (yt ++ "-"%char :: rest) = None.
Proof.
  intros Hl. unfold datetime.step.
  destruct yt as [|a [|b [|c [|e r]]]]; simpl in Hl; try lia; cbn [app].
  - destruct rest as [|b [|c [|e r]]]; try reflexivity.
  - destruct rest as [|c [|e r]]; try reflexivity.
    change (Text.digit_val "-") with (@None Z).
    destruct (Text.digit_val a); reflexivity.
  - destruct rest as [|e r]; try reflexivity.
    change (Text.digit_val "-") with (@None Z).
    destruct (Text.digit_val a), (Text.digit_val b); reflexivity.
  - change (Text.digit_val "-") with (@None Z).
    destruct (Text.digit_val a), (Text.digit_val b), (Text.digit_val c);
      reflexivity.
Qed.

(** A date before the year 1000, as [strftime] prints it, is read by
    neither format. *)
Lemma strptime_short_year (x : datetime.t) (fmt : list datetime.directive) :
  datetime.year x < 1000 ->
  datetime.strptime (datetime.strftime x datetime.fmt_minutes)
    (datetime.dY :: fmt) = None.
Proof.
  intros H. destruct (legal_bounds x) as (Hy & _).
  unfold datetime.strptime, datetime.strftime. rewrite chars_text.
  unfold datetime.fmt_minutes.
  cbn [flat_map datetime.print_directive app].
  rewrite run_cons, step_short_year; [reflexivity|].
  rewrite chars_length. apply year_text_short. lia.
Qed.

Lemma strptime_short_minutes (x : datetime.t) :
  datetime.year x < 1000 ->
  datetime.strptime (datetime.strftime x datetime.fmt_minutes)
    datetime.fmt_minutes = None.
Proof. intros H. exact (strptime_short_year x _ H). Qed.

Lemma strptime_short_seconds (x : datetime.t) :
  datetime.year x < 1000 ->
  datetime.strptime (datetime.strftime x datetime.fmt_minutes)
    datetime.fmt_seconds = None.
Proof. intros H. exact (strptime_short_year x _ H). Qed.

(** X5.  What the date validator returns is the text that [strftime]
    prints in the format [%Y-%m-%d %H:%M] for a date without seconds.
    From the year 1000 on that text has the sixteen characters of
    [YYYY-MM-DD HH:mm] and [strptime] reads it back as the same date.
    The year is printed without zeros in front, so that for a date
    before the year 1000 the text is shorter, and the validator refuses
    its own result with a [ValueError]. *)
Theorem datetime_validator_result `{B : Builtins} (x y : pyval) :
  DateTimeValidator.validate x = Ok y ->
  exists d,
    y = VStr (datetime.strftime d datetime.fmt_minutes)
    /\ datetime.second d = 0
    /\ (1000 <= datetime.year d ->
        String.length (datetime.strftime d datetime.fmt_minutes) = 16%nat
        /\ datetime.strptime (datetime.strftime d datetime.fmt_minutes)
             datetime.fmt_minutes = Some d)
    /\ (datetime.year d < 1000 ->
        (String.length (datetime.strftime d datetime.fmt_minutes) < 16)%nat
        /\ DateTimeValidator.validate y
           = Raise (ValueError
               ("Invalid datetime format. Expected YYYY-MM-DD HH:mm, got "
                +:+ datetime.strftime d datetime.fmt_minutes))).
Proof.
  intros H. destruct (datetime_validator_prints x y H) as (d0 & ->).
  destruct (to_the_minute_fields d0) as (Hy & _ & _ & _ & _ & Hs).
  exists (EventDates.to_the_minute d0).
  rewrite strftime_to_the_minute, Hy.
  split; [reflexivity|]. split; [exact Hs|]. split.
  - intros Hfull. split; [apply strftime_full; exact Hfull|].
    apply strptime_to_the_minute. exact Hfull.
  - intros Hshort. split.
    + rewrite strftime_length.
      destruct (legal_bounds d0) as (Hb & _).
      pose proof (year_text_short (datetime.year d0) ltac:(lia)). lia.
    + unfold DateTimeValidator.validate. cbn [py_str].
      rewrite (strptime_short_minutes d0 Hshort).
      rewrite (strptime_short_seconds d0 Hshort). reflexivity.
Qed.

(** X6.  What a validator raises.  Every validator but the date
    validator raises a [PropertyValidationError] under the name
    [unknown], or lets through an exception of [int] or [float] that is
    neither a [ValueError] nor a [TypeError]; the date validator raises
    a [ValueError]. *)
Theorem validator_errors `{B : Builtins} (v : validator) (x : pyval) (e : pyexc) :
  validate v x = Raise e ->
  (exists value expected message,
      e = PropertyValidationError "unknown" value expected message)
  \/ (v = DateTimeValidator /\ exists message, e = ValueError message)
  \/ (is_Value_or_Type_Error e = false
      /\ exists t, construct t x = Raise e).
Proof.
  assert (G : forall t, PropertyValidator.validate t x = Raise e ->
    (exists value expected message,
        e = PropertyValidationError "unknown" value expected message)
    \/ (is_Value_or_Type_Error e = false /\ exists t, construct t x = Raise e)).
  { intros t. unfold PropertyValidator.validate.
    destruct (isinstance x t); simpl; [discriminate|].
    destruct (construct t x) as [w|e'] eqn:C; [discriminate|].
    destruct (is_Value_or_Type_Error e') eqn:V; intros H; injection H as <-.
    - left. unfold unknown, new_PropertyValidationError. eauto.
    - right. eauto. }
  assert (U : forall value expected,
    exists value' expected' message,
      unknown value expected
      = PropertyValidationError "unknown" value' expected' message).
  { intros. unfold unknown, new_PropertyValidationError. eauto. }
  destruct v; simpl.
  - intros H. destruct (G _ H) as [H1|H1]; auto.
  - unfold StringValidator.validate.
    destruct (PropertyValidator.validate TStr x) as [w|e'] eqn:E; simpl.
    + destruct (generic_str _ _ E) as (s & -> & _). simpl.
      repeat match goal with
             | |- context [match ?c with _ => _ end] => destruct c
             end; intros H; try discriminate; injection H as <-; left; apply U.
    + intros H. injection H as <-. destruct (G _ E) as [H1|H1]; auto.
  - unfold IntegerValidator.validate.
    destruct (PropertyValidator.validate TInt x) as [w|e'] eqn:E; simpl.
    + pose proof (generic_returns_instance _ _ _ E) as Hi.
      destruct w; try discriminate Hi; simpl;
        repeat match goal with
               | |- context [match ?c with _ => _ end] => destruct c
               end; intros H; try discriminate; injection H as <-; left; apply U.
    + intros H. injection H as <-. destruct (G _ E) as [H1|H1]; auto.
  - unfold FloatValidator.validate.
    destruct (isinstance x TStr) eqn:Es.
    + destruct x; try discriminate Es. simpl.
      destruct (float_of_str s) as [a|]; simpl.
      * repeat match goal with
               | |- context [match ?c with _ => _ end] => destruct c
               end; intros H; try discriminate; injection H as <-; left; apply U.
      * intros H. injection H as <-. left. apply U.
    + destruct (PropertyValidator.validate TFloat x) as [w|e'] eqn:E; simpl.
      * pose proof (generic_returns_instance _ _ _ E) as Hi.
        destruct w; try discriminate Hi; simpl;
          repeat match goal with
                 | |- context [match ?c with _ => _ end] => destruct c
                 end; intros H; try discriminate; injection H as <-; left; apply U.
      * intros H. injection H as <-. destruct (G _ E) as [H1|H1]; auto.
  - unfold ListValidator.validate.
    destruct (negb (truthy x) && allow_empty); [discriminate|].
    destruct (PropertyValidator.validate TStr x) as [w|e'] eqn:E; simpl.
    + destruct (negb _); intros H; try discriminate.
      injection H as <-. left. apply U.
    + intros H. injection H as <-. destruct (G _ E) as [H1|H1]; auto.
  - intros H. right. left. split; [reflexivity|].
    unfold DateTimeValidator.validate in H.
    destruct x;
      repeat match type of H with
             | context [match ?c with _ => _ end] => destruct c
             end; try discriminate; injection H as <-; eauto.
Qed.

Section DateCases.
#[local] Existing Instance no_conversions.

Lemma datetime_validator_result_witness :
  exists d,
    VStr "5-02-28 23:59" = VStr (datetime.strftime d datetime.fmt_minutes)
    /\ datetime.second d = 0
    /\ (1000 <= datetime.year d ->
        String.length (datetime.strftime d datetime.fmt_minutes) = 16%nat
        /\ datetime.strptime (datetime.strftime d datetime.fmt_minutes)
             datetime.fmt_minutes = Some d)
    /\ (datetime.year d < 1000 ->
        (String.length (datetime.strftime d datetime.fmt_minutes) < 16)%nat
        /\ DateTimeValidator.validate (VStr "5-02-28 23:59")
           = Raise (ValueError
               ("Invalid datetime format. Expected YYYY-MM-DD HH:mm, got "
                +:+ datetime.strftime d datetime.fmt_minutes))).
Proof.
  apply (datetime_validator_result (VStr "0005-2-28 23:59:58")
           (VStr "5-02-28 23:59")).
  vm_compute. reflexivity.
Defined.

Lemma validator_errors_witness :
  (exists value expected message,
      unknown (VStr "abc") (ExpType TInt)
      = PropertyValidationError "unknown" value expected message)
  \/ (IntegerValidator (Some 0) (Some 150) = DateTimeValidator
      /\ exists message,
           unknown (VStr "abc") (ExpType TInt) = ValueError message)
  \/ (is_Value_or_Type_Error (unknown (VStr "abc") (ExpType TInt)) = false
      /\ exists t, construct t (VStr "abc")
                   = Raise (unknown (VStr "abc") (ExpType TInt))).
Proof.
  apply (validator_errors (IntegerValidator (Some 0) (Some 150)) (VStr "abc")).
  vm_compute. reflexivity.
Defined.

End DateCases.

(** ** Validating twice *)

(** X19.  A validator returns again, unchanged, what it has returned
    once, provided a date is in full (its year has four digits); a float
    that a [FloatValidator] accepts is handed back as it was given, not
    rounded; and a second [validate_properties] on an entity that has
    just passed it, and whose dates are in full, raises nothing and
    leaves the properties as they are. *)
Theorem validation_is_idempotent `{B : Builtins} :
  (forall (v : validator) (x y : pyval),
     validate v x = Ok y -> full_year v y = true -> validate v y = Ok y)
  /\ (forall (lo hi : option float) (p : option Z) (a : float) (y : pyval),
        validate (FloatValidator lo hi p) (VFloat a) = Ok y -> y = VFloat a)
  /\ (forall (c : Entity.class) (s s' : Entity.fields),
        Dict.wf (Entity.properties s) ->
        Entity.validate_properties c s = (s', Ok tt) ->
        full_years s' = true ->
        Entity.validate_properties c s' = (s', Ok tt)).
Proof.
  split; [apply validate_idempotent|]. split; [|apply validate_properties_again].
  intros lo hi p a y. simpl. unfold FloatValidator.validate.
  change (isinstance (VFloat a) TStr) with false. cbv iota.
  unfold PropertyValidator.validate.
  change (isinstance (VFloat a) TFloat) with true. simpl.
  destruct (match lo with Some l => if PrimFloat.ltb a l then Some l else None | None => None end);
    [discriminate|].
  destruct (match hi with Some h => if PrimFloat.ltb h a then Some h else None | None => None end);
    [discriminate|].
  intros H. injection H as <-. reflexivity.
Qed.

Section AtFixedConversions.
#[local] Existing Instance no_conversions.

Lemma validation_is_idempotent_witness :
  (validate DateTimeValidator (VStr "2024-1-5 7:03:59")
   = Ok (VStr "2024-01-05 07:03")
   /\ validate DateTimeValidator (VStr "2024-01-05 07:03")
      = Ok (VStr "2024-01-05 07:03"))
  /\ (validate (FloatValidator (Some 0%float) (Some 300%float) None)
        (VFloat 0.1%float) = Ok (VFloat 0.1%float)
      /\ VFloat 0.1%float = VFloat 0.1%float)
  /\ (let s := dated_event "2024-1-5 7:03:59" in
      let s' := fst (Entity.validate_properties Event_ s) in
      Entity.properties s'
      = [("start_date", VStr "2024-01-05 07:03"); ("add_to_timeline", VBool false)]
      /\ Entity.validate_properties Event_ s' = (s', Ok tt)).
Proof.
  destruct validation_is_idempotent as (Hv & Hf & Hp).
  split; [|split].
  - split; [vm_compute; reflexivity|].
    apply (Hv DateTimeValidator (VStr "2024-1-5 7:03:59"));
      vm_compute; reflexivity.
  - assert (E : validate (FloatValidator (Some 0%float) (Some 300%float) None)
                  (VFloat 0.1%float) = Ok (VFloat 0.1%float))
      by (vm_compute; reflexivity).
    split; [exact E|]. exact (Hf _ _ _ _ _ E).
  - split; [vm_compute; reflexivity|].
    apply (Hp Event_ (dated_event "2024-1-5 7:03:59")).
    + unfold Dict.wf. vm_compute.
      constructor; [intros [H|[]]; discriminate H|].
      constructor; [intros []|constructor].
    + vm_compute. reflexivity.
    + vm_compute. reflexivity.
Defined.

End AtFixedConversions.

(** ** More on dictionaries *)

Lemma get_In {V} (d : Dict.t V) k v : Dict.get d k = Some v -> In (k, v) d.
Proof.
  induction d as [|[k' v'] r IH]; simpl; [discriminate|].
  destruct (String.eqb k k') eqn:E.
  - apply String.eqb_eq in E. subst. intros [= <-]. left. reflexivity.
  - intros H. right. apply IH. exact H.
Qed.

Lemma get_None_keys {V} (d : Dict.t V) k :
  Dict.get d k = None <-> ~ In k (Dict.keys d).
Proof.
  induction d as [|[k' v'] r IH]; simpl; [tauto|].
  destruct (String.eqb k k') eqn:E.
  - apply String.eqb_eq in E. subst. split; [discriminate|]. intros H.
    exfalso. apply H. left. reflexivity.
  - apply String.eqb_neq in E. rewrite IH. split.
    + intros H [H1|H1]; [congruence|contradiction].
    + intros H H1. apply H. right. exact H1.
Qed.

Lemma In_get {V} (d : Dict.t V) k v :
  Dict.wf d -> In (k, v) d -> Dict.get d k = Some v.
Proof.
  unfold Dict.wf. induction d as [|[k' v'] r IH]; simpl; [contradiction|].
  intros Hnd [H|H].
  - injection H as -> ->. rewrite String.eqb_refl. reflexivity.
  - inversion Hnd as [|? ? Hn Hr]; subst.
    destruct (String.eqb k k') eqn:E.
    + apply String.eqb_eq in E. subst. exfalso. apply Hn.
      apply (in_map fst) in H. exact H.
    + apply IH; assumption.
Qed.

Lemma set_fresh {V} (d : Dict.t V) k v :
  Dict.get d k = None -> Dict.set d k v = d ++ [(k, v)].
Proof.
  induction d as [|[k' v'] r IH]; simpl; [reflexivity|].
  destruct (String.eqb k k'); [discriminate|]. intros H. rewrite IH; auto.
Qed.

Lemma In_set {V} (d : Dict.t V) k0 v0 k v :
  In (k, v) (Dict.set d k0 v0) -> In (k, v) d \/ (k, v) = (k0, v0).
Proof.
  induction d as [|[k' v'] r IH]; simpl.
  - intros [H|[]]. right. congruence.
  - destruct (String.eqb k0 k') eqn:E; simpl.
    + apply String.eqb_eq in E. subst. intros [H|H]; [right; congruence|auto].
    + intros [H|H]; [auto|]. destruct (IH H); auto.
Qed.

Lemma In_update {V} (other d : Dict.t V) k v :
  In (k, v) (Dict.update d other) -> In (k, v) d \/ In (k, v) other.
Proof.
  unfold Dict.update. revert d.
  induction other as [|[k0 v0] r IH]; simpl; intros d H; [auto|].
  destruct (IH _ H) as [H1|H1]; [|auto].
  destruct (In_set _ _ _ _ _ H1) as [H2|H2]; [auto|].
  right. left. congruence.
Qed.

(** [d.update(other)] read back: the entry of [other] when there is
    one, the entry of [d] otherwise. *)
Lemma get_update {V} (other d : Dict.t V) k :
  Dict.wf other ->
  Dict.get (Dict.update d other) k
  = match Dict.get other k with
    | Some v => Some v
    | None => Dict.get d k
    end.
Proof.
  unfold Dict.update, Dict.wf. revert d.
  induction other as [|[k0 v0] r IH]; simpl; intros d Hnd; [reflexivity|].
  inversion Hnd as [|? ? Hn Hr]; subst. rewrite IH by exact Hr.
  destruct (String.eqb k k0) eqn:E.
  - apply String.eqb_eq in E. subst k0.
    apply get_None_keys in Hn. rewrite Hn. apply get_set_eq.
  - apply String.eqb_neq in E.
    destruct (Dict.get r k); [reflexivity|].
    apply get_set_ne. congruence.
Qed.

(** A dictionary built from entries with distinct keys holds them in
    their order. *)
Lemma update_empty {V} (l : Dict.t V) : Dict.wf l -> Dict.update [] l = l.
Proof.
  unfold Dict.update, Dict.wf.
  assert (G : forall acc, List.NoDup (Dict.keys (acc ++ l)) ->
              fold_left (fun a kv => Dict.set a (fst kv) (snd kv)) l acc
              = acc ++ l).
  { induction l as [|[k v] r IH]; intros acc Hnd; simpl.
    - rewrite app_nil_r. reflexivity.
    - rewrite set_fresh.
      + rewrite IH; rewrite <- app_assoc; [reflexivity|exact Hnd].
      + apply get_None_keys. eapply NoDup_not_in_pre. exact Hnd. }
  intros H. apply (G []). exact H.
Qed.

Lemma keys_filter_NoDup {V} (p : string * V -> bool) (d : Dict.t V) :
  Dict.wf d -> Dict.wf (List.filter p d).
Proof.
  unfold Dict.wf. induction d as [|[k v] r IH]; simpl; intros H; [constructor|].
  inversion H as [|? ? Hn Hr]; subst.
  destruct (p (k, v)); simpl; [|auto].
  constructor; [|auto]. intros Hin. apply Hn.
  apply in_map_iff in Hin as ([k' v'] & Hk & Hin). simpl in Hk. subst k'.
  apply filter_In in Hin as [Hin _]. apply (in_map fst) in Hin. exact Hin.
Qed.

Lemma keys_map_snd {V W} (f : string * V -> W) (d : Dict.t V) :
  Dict.keys (map (fun kv => (fst kv, f kv)) d) = Dict.keys d.
Proof. unfold Dict.keys. rewrite map_map. reflexivity. Qed.

(** ** More on [validate_properties] and the declaration of properties *)

Section MoreEntityFacts.
Context {B : Builtins}.

Lemma undeclared_stops_the_loop cn types validators items :
  forall props k,
    In k (Dict.keys items) -> Dict.get types k = None ->
    exists ps e,
      Entity.validate_items cn types validators items props = (ps, Raise e).
Proof.
  induction items as [|[k0 v0] rest IH]; intros props k Hin Hk; simpl in *.
  - contradiction.
  - destruct (Dict.get types k0) as [ty|] eqn:E0; [|eauto].
    destruct (validate _ v0) as [v'|e]; [|eauto].
    destruct Hin as [->|Hin]; [congruence|]. eapply IH; eauto.
Qed.

End MoreEntityFacts.

(** X7.  A property that the entity does not declare makes
    [validate_properties] fail: it never returns normally while
    [properties] holds a key that is missing from [property_types]. *)
Theorem undeclared_property_is_rejected `{B : Builtins}
  (c : Entity.class) (s : Entity.fields) (k : string) :
  In k (Dict.keys (Entity.properties s)) ->
  Dict.get (Entity.property_types s) k = None ->
  exists e, snd (Entity.validate_properties c s) = Raise e.
Proof.
  intros Hin Hk. unfold Entity.validate_properties.
  destruct (undeclared_stops_the_loop (Entity.__name__ c)
              (Entity.property_types s) (Entity.property_validators s)
              (Entity.properties s) (Entity.properties s) k Hin Hk)
    as (ps & e & ->).
  exists e. reflexivity.
Qed.

(** X8.  A [PropertyValidationError] that leaves [validate_properties]
    carries the name of one of the entity's own properties: the name
    [unknown] under which the validators raise is replaced on the way
    out. *)
Theorem validation_error_carries_a_property_name `{B : Builtins}
  (c : Entity.class) (s : Entity.fields)
  (name : string) (value : pyval) (exp : expected) (message : string) :
  snd (Entity.validate_properties c s)
  = Raise (PropertyValidationError name value exp message) ->
  In name (Dict.keys (Entity.properties s)).
Proof.
  unfold Entity.validate_properties.
  destruct (Entity.validate_items _ _ _ _ _) as [ps r] eqn:E. simpl.
  intros ->. eapply validation_error_names_property. exact E.
Qed.

(** X9.  After a successful [validate_properties] the entity holds the
    same keys in the same order, each with the value its validator
    returned for the value given; the label, the declared types and the
    validators are untouched. *)
Theorem validate_properties_stores_validated_values `{B : Builtins}
  (c : Entity.class) (s s' : Entity.fields) :
  Dict.wf (Entity.properties s) ->
  Entity.validate_properties c s = (s', Ok tt) ->
  Forall2 (validated (Entity.property_types s) (Entity.property_validators s))
    (Entity.properties s) (Entity.properties s')
  /\ Dict.keys (Entity.properties s') = Dict.keys (Entity.properties s)
  /\ Entity.label s' = Entity.label s
  /\ Entity.property_types s' = Entity.property_types s
  /\ Entity.property_validators s' = Entity.property_validators s.
Proof.
  unfold Entity.validate_properties, Dict.wf. intros Hnd H.
  destruct (Entity.validate_items _ _ _ _ _) as [ps r] eqn:E.
  injection H as <- ->.
  apply (validate_items_maps _ _ _ _ []) in E; [|exact Hnd].
  destruct E as (items' & -> & Hs). simpl.
  split; [exact Hs|]. split; [|auto].
  clear Hnd. induction Hs as [|a b l l' [Hab _] _ IH]; simpl; congruence.
Qed.

Section ValidatePropertiesCases.
#[local] Existing Instance no_conversions.

Lemma undeclared_property_is_rejected_witness :
  exists e,
    snd (Entity.validate_properties Person
           (Entity.declare Person
              (Entity.mkfields "" [("full_name", VStr "Jo"); ("shoe_size", VInt 9)] [] [])))
    = Raise e.
Proof.
  apply (undeclared_property_is_rejected Person _ "shoe_size").
  - vm_compute. auto.
  - vm_compute. reflexivity.
Defined.

Lemma validation_error_carries_a_property_name_witness :
  In "age"
    (Dict.keys (Entity.properties
       (Entity.declare Person
          (Entity.mkfields "" [("full_name", VStr "Jo"); ("age", VInt 200)] [] [])))).
Proof.
  apply (validation_error_carries_a_property_name Person _ "age" (VInt 200)
           (ExpText "Value must be at most 150")
           "Invalid value for property 'unknown': expected Value must be at most 150, got int").
  vm_compute. reflexivity.
Defined.

Lemma validate_properties_stores_validated_values_witness :
  let s := dated_event "2024-1-5 7:03:59" in
  let s' := fst (Entity.validate_properties Event_ s) in
  Forall2 (validated (Entity.property_types s) (Entity.property_validators s))
    (Entity.properties s) (Entity.properties s')
  /\ Dict.keys (Entity.properties s') = Dict.keys (Entity.properties s)
  /\ Entity.label s' = Entity.label s
  /\ Entity.property_types s' = Entity.property_types s
  /\ Entity.property_validators s' = Entity.property_validators s.
Proof.
  apply (validate_properties_stores_validated_values Event_
           (dated_event "2024-1-5 7:03:59")).
  - unfold Dict.wf. vm_compute.
    constructor; [intros [H|[]]; discriminate H|].
    constructor; [intros []|constructor].
  - vm_compute. reflexivity.
Defined.

End ValidatePropertiesCases.

(** The filter of a comprehension, as the filter of the standard
    library. *)
Lemma filter_bool {A} (f : A -> bool) (l : list A) :
  filter (fun x => f x) l = List.filter f l.
Proof.
  induction l as [|x l IH]; [reflexivity|].
  rewrite filter_cons. simpl. rewrite IH.
  destruct (f x); simpl; reflexivity.
Qed.

(** X10.  [setup_properties] declares the types it is given and gives a
    default validator to each property that has none; a validator that
    is already registered stays. *)
Theorem setup_properties_keeps_registered_validators `{B : Builtins}
  (props : Dict.t pytype) (s : Entity.fields) (k : string) :
  Dict.wf props ->
  (forall v, Dict.get (Entity.property_validators s) k = Some v ->
     Dict.get (Entity.property_validators (Entity.setup_properties props s)) k
     = Some v)
  /\ (forall ty, Dict.get props k = Some ty ->
        Dict.get (Entity.property_types (Entity.setup_properties props s)) k
        = Some ty
        /\ (Dict.get (Entity.property_validators s) k = None ->
            Dict.get (Entity.property_validators (Entity.setup_properties props s)) k
            = Some (Entity.create_validator k ty))).
Proof.
  intros Hwf. unfold Entity.setup_properties.
  cbn [Entity.property_validators Entity.property_types
       Entity.with_property_validators Entity.with_property_types].
  assert (Hf : filter
                 (fun nt : string * pytype =>
                    negb (Dict.mem (Entity.property_validators s) (fst nt)))
                 props
               = List.filter
                   (fun nt => negb (Dict.mem (Entity.property_validators s) (fst nt)))
                   props)
    by apply (filter_bool
                (fun nt : string * pytype =>
                   negb (Dict.mem (Entity.property_validators s) (fst nt)))).
  rewrite Hf. clear Hf.
  set (kept := List.filter
                 (fun nt => negb (Dict.mem (Entity.property_validators s) (fst nt)))
                 props).
  assert (Hk : Dict.wf kept) by (apply keys_filter_NoDup; exact Hwf).
  assert (Hm : Dict.wf (map (fun nt => (fst nt, Entity.create_validator (fst nt) (snd nt))) kept)).
  { unfold Dict.wf. rewrite keys_map_snd. exact Hk. }
  assert (Hget : forall ty,
            Dict.get (map (fun nt => (fst nt, Entity.create_validator (fst nt) (snd nt))) kept) k
            = Some ty ->
            Dict.get (Entity.property_validators s) k = None).
  { intros v Hv. apply get_In in Hv. apply in_map_iff in Hv as ([k' t'] & Hkv & Hin).
    simpl in Hkv. injection Hkv as -> _. apply filter_In in Hin as [_ Hin].
    simpl in Hin. unfold Dict.mem in Hin.
    destruct (Dict.get (Entity.property_validators s) k); [discriminate|reflexivity]. }
  split.
  - intros v Hv. rewrite get_update by exact Hm.
    destruct (Dict.get (map _ kept) k) as [v'|] eqn:E; [|exact Hv].
    rewrite (Hget v' eq_refl) in Hv. discriminate.
  - intros ty Hty. split.
    + rewrite get_update by exact Hwf. rewrite Hty. reflexivity.
    + intros Hnone. rewrite get_update by exact Hm.
      assert (Hin : In (k, Entity.create_validator k ty)
                      (map (fun nt => (fst nt, Entity.create_validator (fst nt) (snd nt))) kept)).
      { apply in_map_iff. exists (k, ty). split; [reflexivity|].
        apply filter_In. split; [apply get_In; exact Hty|].
        simpl. unfold Dict.mem. rewrite Hnone. reflexivity. }
      rewrite (In_get _ _ _ Hm Hin). reflexivity.
Qed.

Section SetupCases.
#[local] Existing Instance no_conversions.

Lemma setup_properties_keeps_registered_validators_witness :
  let props := [("start_date", TStr); ("add_to_timeline", TBool)] in
  let s := Entity.mkfields "" [] [] [("start_date", DateTimeValidator)] in
  (forall v, Dict.get (Entity.property_validators s) "start_date" = Some v ->
     Dict.get (Entity.property_validators (Entity.setup_properties props s))
       "start_date" = Some v)
  /\ (forall ty, Dict.get props "start_date" = Some ty ->
        Dict.get (Entity.property_types (Entity.setup_properties props s))
          "start_date" = Some ty
        /\ (Dict.get (Entity.property_validators s) "start_date" = None ->
            Dict.get (Entity.property_validators (Entity.setup_properties props s))
              "start_date"
            = Some (Entity.create_validator "start_date" ty))).
Proof.
  apply (setup_properties_keeps_registered_validators
           [("start_date", TStr); ("add_to_timeline", TBool)]
           (Entity.mkfields "" [] [] [("start_date", DateTimeValidator)])
           "start_date").
  unfold Dict.wf. simpl.
  constructor; [intros [H|[]]; discriminate H|].
  constructor; [intros []|constructor].
Defined.

End SetupCases.

(** ** [from_dict] and [to_dict] *)

Section FromDictFacts.
Context {B : Builtins}.

Lemma from_dict_builds (registry : Dict.t Entity.class) (data : Mapping.t)
  (ty l i uuid4 : string) (ps : Dict.t pyval) (c : Entity.class) :
  Mapping.type data = Some ty -> Dict.get registry ty = Some c ->
  Dict.get ENTITY_TYPES ty = Some c ->
  Mapping.label data = Some l -> Mapping.id data = Some i ->
  Mapping.properties data = Some ps ->
  exists e0,
    Entity.new c l [] uuid4 = Ok e0
    /\ Entity.from_dict registry data uuid4
       = Ok (Entity.mk c (Entity.with_properties ps (Entity.self e0))
               (EntityData.mk i ty l (Mapping.color data))).
Proof.
  intros Hty Hr Hc Hl Hi Hps.
  destruct (registered_class_builds ty l uuid4 c Hc) as (e0 & He0 & Hcls).
  exists e0. split; [exact He0|].
  unfold Entity.from_dict, EntityData.from_dict.
  destruct data as [di dt dl dp dc]. simpl in *. subst.
  simpl. rewrite Hr. simpl. rewrite He0. reflexivity.
Qed.

(** The classes of the table serialise with the method of the base
    class, [Event] after turning its dates into text. *)
Lemma registered_to_dict (ty : string) (c : Entity.class) :
  Dict.get ENTITY_TYPES ty = Some c ->
  Entity.__name__ c = ty
  /\ (Entity.to_dict c = Entity.base_to_dict \/ Entity.to_dict c = Event.to_dict).
Proof.
  unfold ENTITY_TYPES. cbn [Dict.get].
  repeat match goal with
         | |- context [String.eqb ty ?k] =>
             destruct (String.eqb ty k) eqn:?
         end;
    intros H; try discriminate; injection H as <-;
    match goal with
    | E : String.eqb ty _ = true |- _ => apply String.eqb_eq in E; subst ty
    end; split; auto.
Qed.

End FromDictFacts.

(** X11.  Whatever the registry, [Entity.from_dict] rebuilds an entity
    from a mapping that has an id, a label and properties and that names
    one of the nine classes of the table [ENTITY_TYPES] above, registered
    under its name: the entity is of that class, it holds the properties
    of the mapping as they are (they are not validated), and its id is
    the id of the mapping, not a new one. *)
Theorem from_dict_restores_without_validating `{B : Builtins}
  (registry : Dict.t Entity.class) (data : Mapping.t) (ty l i uuid4 : string)
  (ps : Dict.t pyval) (c : Entity.class) :
  Mapping.type data = Some ty -> Dict.get registry ty = Some c ->
  Dict.get ENTITY_TYPES ty = Some c ->
  Mapping.label data = Some l -> Mapping.id data = Some i ->
  Mapping.properties data = Some ps ->
  exists e,
    Entity.from_dict registry data uuid4 = Ok e
    /\ Entity.cls e = c
    /\ Entity.properties (Entity.self e) = ps
    /\ Entity.id e = i
    /\ Entity.data e = EntityData.mk i ty l (Mapping.color data).
Proof.
  intros Hty Hr Hc Hl Hi Hps.
  destruct (from_dict_builds registry data ty l i uuid4 ps c Hty Hr Hc Hl Hi Hps)
    as (e0 & _ & ->).
  eexists. split; [reflexivity|]. auto.
Qed.

(** X12.  Whatever the registry, for an entity of one of the nine
    classes of the table [ENTITY_TYPES] above, registered under its
    name, [from_dict] applied to the result of [to_dict] gives an entity
    of the same class, with the same [data] (id, type name, saved label,
    colour) and the properties the entity has after [to_dict]. *)
Theorem from_dict_of_to_dict `{B : Builtins}
  (registry : Dict.t Entity.class) (e : Entity.t) (uuid4 : string) :
  Dict.get registry (EntityData.type (Entity.data e)) = Some (Entity.cls e) ->
  Dict.get ENTITY_TYPES (EntityData.type (Entity.data e)) = Some (Entity.cls e) ->
  exists e',
    Entity.from_dict registry (snd (Entity.call_to_dict e)) uuid4 = Ok e'
    /\ Entity.cls e' = Entity.cls e
    /\ Entity.data e' = Entity.data e
    /\ Entity.properties (Entity.self e')
       = Entity.properties (Entity.self (fst (Entity.call_to_dict e))).
Proof.
  intros Hr Hc.
  destruct (registered_to_dict _ _ Hc) as [Hn Hto].
  destruct e as [c s d]. simpl in *.
  assert (K : exists ps,
            Entity.call_to_dict (Entity.mk c s d)
            = (Entity.mk c (Entity.with_properties ps s) d,
               EntityData.to_dict d ps)).
  { unfold Entity.call_to_dict. simpl.
    destruct Hto as [-> | ->].
    - exists (Entity.properties s). destruct s; reflexivity.
    - eexists. unfold Event.to_dict, Entity.base_to_dict. reflexivity. }
  destruct K as (ps & ->). simpl.
  destruct (from_dict_builds registry (EntityData.to_dict d ps)
              (EntityData.type d) (EntityData.label d) (EntityData.id d)
              uuid4 ps c eq_refl Hr Hc eq_refl eq_refl eq_refl)
    as (e0 & _ & ->).
  eexists. split; [reflexivity|]. simpl.
  split; [reflexivity|]. split; [destruct d; reflexivity|].
  reflexivity.
Qed.

Section FromDictCases.
#[local] Existing Instance no_conversions.

Lemma from_dict_restores_without_validating_witness :
  exists e,
    Entity.from_dict ENTITY_TYPES
      (Mapping.mk (Some "id-1") (Some "Person") (Some "Jo")
         (Some [("age", VStr "not a number")]) None) "id-2" = Ok e
    /\ Entity.cls e = Person
    /\ Entity.properties (Entity.self e) = [("age", VStr "not a number")]
    /\ Entity.id e = "id-1"
    /\ Entity.data e = EntityData.mk "id-1" "Person" "Jo" None.
Proof.
  apply (from_dict_restores_without_validating ENTITY_TYPES
           (Mapping.mk (Some "id-1") (Some "Person") (Some "Jo")
              (Some [("age", VStr "not a number")]) None)
           "Person" "Jo" "id-1" "id-2" [("age", VStr "not a number")] Person);
    reflexivity.
Defined.

Lemma from_dict_of_to_dict_witness :
  let e := blank_entity Event_ "id-1" in
  exists e',
    Entity.from_dict ENTITY_TYPES (snd (Entity.call_to_dict e)) "id-2" = Ok e'
    /\ Entity.cls e' = Entity.cls e
    /\ Entity.data e' = Entity.data e
    /\ Entity.properties (Entity.self e')
       = Entity.properties (Entity.self (fst (Entity.call_to_dict e))).
Proof.
  apply (from_dict_of_to_dict ENTITY_TYPES (blank_entity Event_ "id-1") "id-2");
    reflexivity.
Defined.

End FromDictCases.

(** ** Labels *)



Section LabelCases.
#[local] Existing Instance no_conversions.


End LabelCases.

(** ** What the interface shows of an entity *)

Lemma get_map_filter {V W} (p : string * V -> bool) (f : string -> V -> W)
  (d : Dict.t V) (k : string) :
  Dict.wf d ->
  Dict.get (map (fun kv => (fst kv, f (fst kv) (snd kv))) (List.filter p d)) k
  = match Dict.get d k with
    | Some v => if p (k, v) then Some (f k v) else None
    | None => None
    end.
Proof.
  unfold Dict.wf. induction d as [|[k' v'] r IH]; simpl; intros Hnd;
    [reflexivity|].
  inversion Hnd as [|? ? Hn Hr]; subst.
  destruct (String.eqb k k') eqn:E.
  - apply String.eqb_eq in E. subst k'.
    destruct (p (k, v')); simpl.
    + rewrite String.eqb_refl. reflexivity.
    + rewrite IH by exact Hr. apply get_None_keys in Hn. rewrite Hn.
      reflexivity.
  - destruct (p (k', v')); simpl; [rewrite E|]; apply IH; exact Hr.
Qed.

(** X14.  [get_display_properties] shows exactly the properties whose
    value is truthy and whose name is not [image] and does not start with
    an underscore, each as [_format_display_value] prints it. *)
Theorem display_properties_are_the_set_public_ones `{B : Builtins}
  (fixed2 fixed8 : float -> string) (s : Entity.fields) (k : string) :
  Dict.wf (Entity.properties s) ->
  Dict.get (Display.get_display_properties fixed2 fixed8 s) k
  = match Dict.get (Entity.properties s) k with
    | Some v =>
        if truthy v && negb (String.eqb k "image")
           && negb (Display.is_private k)
        then Some (Display._format_display_value fixed2 fixed8 k v)
        else None
    | None => None
    end.
Proof.
  intros Hwf. unfold Display.get_display_properties.
  assert (Hf : filter Display.shown (Entity.properties s)
               = List.filter Display.shown (Entity.properties s))
    by apply (filter_bool Display.shown).
  rewrite Hf. rewrite update_empty.
  - apply (get_map_filter Display.shown
             (Display._format_display_value fixed2 fixed8)). exact Hwf.
  - unfold Dict.wf.
    rewrite (keys_map_snd
               (fun kv => Display._format_display_value fixed2 fixed8
                            (fst kv) (snd kv))).
    apply keys_filter_NoDup. exact Hwf.
Qed.

Lemma get_fold_set {V T} (g : string -> V) (l : Dict.t T) (acc : Dict.t V) k :
  Dict.get (fold_left (fun md kt => Dict.set md (fst kt) (g (fst kt))) l acc) k
  = match Dict.get l k with
    | Some _ => Some (g k)
    | None => Dict.get acc k
    end.
Proof.
  revert acc. induction l as [|[k0 t0] r IH]; intros acc; simpl;
    [reflexivity|].
  rewrite IH. destruct (Dict.get r k) eqn:Er.
  - destruct (String.eqb k k0); reflexivity.
  - destruct (String.eqb k k0) eqn:E.
    + apply String.eqb_eq in E. subst k0. apply get_set_eq.
    + apply String.eqb_neq in E. apply get_set_ne. congruence.
Qed.

(** X15.  [get_property_metadata] has an entry for the declared
    properties and for no other name.  The entry of a property follows
    its registered validator: a dropdown with the choices of a
    [ListValidator], a number for an [IntegerValidator] or a
    [FloatValidator], a text otherwise; only a dropdown has choices. *)
Theorem property_metadata_follows_the_validators
  (s : Entity.fields) (k : string) :
  Dict.get (Display.get_property_metadata s) k
  = match Dict.get (Entity.property_types s) k with
    | None => None
    | Some _ =>
        Some (match Dict.get (Entity.property_validators s) k with
              | Some (ListValidator cs _) => Display.mkmeta "dropdown" cs
              | Some (IntegerValidator _ _) => Display.mkmeta "number" []
              | Some (FloatValidator _ _ _) => Display.mkmeta "number" []
              | _ => Display.mkmeta "text" []
              end)
    end.
Proof.
  unfold Display.get_property_metadata.
  rewrite (get_fold_set
             (fun prop_name =>
                Display.mkmeta (Display.get_property_type s prop_name)
                  (if String.eqb (Display.get_property_type s prop_name)
                        "dropdown"
                   then Display.get_property_choices s prop_name else []))).
  destruct (Dict.get (Entity.property_types s) k); [|reflexivity].
  unfold Display.get_property_type, Display.get_property_choices.
  destruct (Dict.get (Entity.property_validators s) k) as [[]|]; reflexivity.
Qed.

(** ** The dates of an event *)

Lemma store_keeps_seconds d v f :
  d <> datetime.dS -> datetime.fS (datetime.store d v f) = datetime.fS f.
Proof. destruct d; intros H; try reflexivity. congruence. Qed.

Lemma step_keeps_seconds d f l f' l' :
  d <> datetime.dS -> datetime.step d f l = Some (f', l') ->
  datetime.fS f' = datetime.fS f.
Proof.
  intros Hd.
  assert (G : forall r (o : option (Z * bool)),
             match o with
             | Some (v, took_two) =>
                 Some (datetime.store d v f, if took_two then tl r else r)
             | None => None
             end = Some (f', l') -> datetime.fS f' = datetime.fS f).
  { intros r [[v t]|]; [|discriminate]. intros H. injection H as <- _.
    apply store_keeps_seconds. exact Hd. }
  destruct d; unfold datetime.step; try congruence;
    try (destruct l as [|a r]; [discriminate|]; apply G).
  - destruct l as [|a [|b [|c [|e r]]]]; try discriminate.
    destruct (Text.digit_val a), (Text.digit_val b), (Text.digit_val c),
      (Text.digit_val e); try discriminate.
    intros H. injection H as <- _. reflexivity.
  - destruct l as [|c' r]; [discriminate|].
    destruct (Ascii.eqb c c'); [|discriminate]. intros H. injection H as <- _.
    reflexivity.
  - destruct l as [|c' r]; [discriminate|].
    destruct (Text.is_space c'); [|discriminate]. intros H. injection H as <- _.
    reflexivity.
Qed.

Lemma run_keeps_seconds fmt f l f' l' :
  Forall (fun d => d <> datetime.dS) fmt ->
  datetime.run fmt f l = Some (f', l') -> datetime.fS f' = datetime.fS f.
Proof.
  intros Hf. revert f l. induction Hf as [|d fmt Hd Hf IH]; intros f l; simpl.
  - intros H. injection H as <- _. reflexivity.
  - destruct (datetime.step d f l) as [[f1 l1]|] eqn:E; [|discriminate].
    intros H. rewrite (IH _ _ H). eapply step_keeps_seconds; eauto.
Qed.

(** The minute format sets no seconds. *)
Lemma strptime_minutes_seconds (text : string) (d : datetime.t) :
  datetime.strptime text datetime.fmt_minutes = Some d -> datetime.second d = 0.
Proof.
  unfold datetime.strptime.
  destruct (datetime.run _ _ _) as [[f [|c r]]|] eqn:E; try discriminate.
  intros H. apply make_fields in H.
  destruct H as (_ & _ & _ & _ & _ & ->).
  apply run_keeps_seconds in E; [exact E|].
  unfold datetime.fmt_minutes. repeat constructor; discriminate.
Qed.

Lemma strftime_truthy (x : datetime.t) :
  truthy (VStr (datetime.strftime x datetime.fmt_minutes)) = true.
Proof.
  simpl. pose proof (strftime_length x) as H.
  destruct (datetime.strftime x datetime.fmt_minutes); [simpl in H; lia|].
  reflexivity.
Qed.




(** X17.  A date read by [start_date] or [end_date] has no seconds. *)
Theorem event_dates_have_no_seconds (s : Entity.fields) (d : datetime.t) :
  EventDates.start_date s = Some d \/ EventDates.end_date s = Some d ->
  datetime.second d = 0.
Proof.
  assert (G : forall f, EventDates.accessor f s = Some d -> datetime.second d = 0).
  { intros f. unfold EventDates.accessor.
    destruct (Dict.get (Entity.properties s) f) as [v|]; [|discriminate].
    destruct (negb (truthy v)); [discriminate|].
    destruct v as [| | | |text|x]; try discriminate.
    - apply strptime_minutes_seconds.
    - intros H. injection H as <-.
      destruct (to_the_minute_fields x) as (_ & _ & _ & _ & _ & H). exact H. }
  intros [H|H]; eapply G; exact H.
Qed.

(** X18.  A date that [DateTimeValidator] returned in full and that is
    stored under a date field is read by the accessor, and the date
    read prints as the stored text; a date that the validator returned
    with a year before 1000 is not read: the accessor returns [None]. *)
Theorem event_dates_read_validated_values `{B : Builtins}
  (s : Entity.fields) (f : string) (x y : pyval) :
  DateTimeValidator.validate x = Ok y ->
  Dict.get (Entity.properties s) f = Some y ->
  if full_year DateTimeValidator y
  then exists d,
         EventDates.accessor f s = Some d
         /\ y = VStr (datetime.strftime d datetime.fmt_minutes)
  else EventDates.accessor f s = None.
Proof.
  intros Hv Hg.
  destruct (datetime_validator_prints x y Hv) as (d0 & ->).
  unfold EventDates.accessor. rewrite Hg, strftime_truthy. cbn [negb].
  cbn [full_year].
  destruct (Nat.eqb_spec
              (String.length (datetime.strftime d0 datetime.fmt_minutes)) 16)
    as [Hl|Hl].
  - apply strftime_full in Hl.
    exists (EventDates.to_the_minute d0).
    split; [apply strptime_to_the_minute; exact Hl|].
    rewrite strftime_to_the_minute. reflexivity.
  - apply strptime_short_minutes.
    destruct (Z_lt_le_dec (datetime.year d0) 1000) as [Hs|Hs]; [exact Hs|].
    exfalso. apply Hl. apply strftime_full. exact Hs.
Qed.

Section MoreCases.
#[local] Existing Instance no_conversions.

Lemma display_properties_are_the_set_public_ones_witness :
  let s := Entity.mkfields "Ada"
             [("full_name", VStr "Ada"); ("image", VStr "ada.png");
              ("_cache", VStr "x"); ("notes", VStr ""); ("age", VInt 36)]
             [] [] in
  let shown := Display.get_display_properties (fun _ => "") (fun _ => "") s in
  Dict.get shown "image"
  = match Dict.get (Entity.properties s) "image" with
    | Some v =>
        if truthy v && negb (String.eqb "image" "image")
           && negb (Display.is_private "image")
        then Some (Display._format_display_value (fun _ => "") (fun _ => "")
                     "image" v)
        else None
    | None => None
    end.
Proof.
  apply (display_properties_are_the_set_public_ones (fun _ => "") (fun _ => "")
           (Entity.mkfields "Ada"
              [("full_name", VStr "Ada"); ("image", VStr "ada.png");
               ("_cache", VStr "x"); ("notes", VStr ""); ("age", VInt 36)]
              [] [])
           "image").
  unfold Dict.wf. simpl.
  repeat (constructor; [simpl; intuition discriminate|]). constructor.
Defined.


Lemma event_dates_have_no_seconds_witness :
  datetime.second (EventDates.to_the_minute new_year_2024) = 0.
Proof.
  apply (event_dates_have_no_seconds
           (Entity.mkfields "" [("start_date", VDatetime new_year_2024)] [] [])).
  left. vm_compute. reflexivity.
Defined.

Lemma event_dates_read_validated_values_witness :
  let y := VStr "2024-01-05 07:03" in
  let s := Entity.mkfields "" [("start_date", y)] [] [] in
  if full_year DateTimeValidator y
  then exists d,
         EventDates.accessor "start_date" s = Some d
         /\ y = VStr (datetime.strftime d datetime.fmt_minutes)
  else EventDates.accessor "start_date" s = None.
Proof.
  apply (event_dates_read_validated_values
           (Entity.mkfields "" [("start_date", VStr "2024-01-05 07:03")] [] [])
           "start_date" (VStr "2024-1-5 7:03:59") (VStr "2024-01-05 07:03")).
  - vm_compute. reflexivity.
  - reflexivity.
Defined.

End MoreCases.

(** ** What [execute] returns and raises *)

(** X20.  When [execute] returns, the entity was of an input type of the
    transform, [run] was called and returned the very list that
    [execute] returns, every entity of the list is of an output type,
    and the graph is the one [run] left. *)
Theorem execute_returns_what_run_returned (graph : Type)
  (self : Transform.t graph) (entity : Entity.t) (g g' : graph)
  (log : list Transform.event) (l : list Entity.t) :
  Transform.execute graph self entity g = (g', log, Ok l) ->
  Transform._validate_input graph self entity = true
  /\ Transform.run graph self entity g = (g', Ok (Transform.AList l))
  /\ Forall (fun e => In (Transform.class_name e)
                        (Transform.output_types graph self)) l
  /\ In Transform.run_called log.
Proof.
  unfold Transform.execute, Transform.attempt.
  destruct (Transform._validate_input graph self entity) eqn:Hin; simpl.
  2:{ intros H. discriminate H. }
  destruct (Transform.run graph self entity g) as [g1 [r|e]] eqn:Hrun.
  2:{ destruct (is_Exception e); intros H; discriminate H. }
  destruct (Transform._validate_output graph self r) eqn:Hout; simpl.
  2:{ intros H. discriminate H. }
  intros H. injection H as <- <- <-.
  destruct r as [es|]; [|discriminate Hout].
  split; [reflexivity|]. split; [reflexivity|]. split.
  - simpl in Hout. rewrite forallb_forall in Hout.
    apply List.Forall_forall. intros e He. apply member_eqb. apply Hout. exact He.
  - simpl. auto.
Qed.


Section MoreTransformCases.
#[local] Existing Instance no_conversions.

Lemma execute_returns_what_run_returned_witness :
  let self := reverse_image_search (run_returning [blank_entity Image "id-2"]) in
  let entity := blank_entity Image "id-1" in
  Transform._validate_input unit self entity = true
  /\ Transform.run unit self entity tt
     = (tt, Ok (Transform.AList [blank_entity Image "id-2"]))
  /\ Forall (fun e => In (Transform.class_name e)
                        (Transform.output_types unit self))
       [blank_entity Image "id-2"]
  /\ In Transform.run_called
       [Transform.info "Executing transform Reverse Image Search on entity id-1";
        Transform.run_called;
        Transform.info "Transform Reverse Image Search completed successfully"].
Proof.
  apply (execute_returns_what_run_returned unit
           (reverse_image_search (run_returning [blank_entity Image "id-2"]))
           (blank_entity Image "id-1") tt tt).
  vm_compute. reflexivity.
Defined.


End MoreTransformCases.

(** ** Registering a type on a transform *)

Lemma existsb_eqb_app (x : string) (l : list string) (y : string) :
  existsb (String.eqb x) (l ++ [y]) = existsb (String.eqb x) l || String.eqb x y.
Proof. rewrite existsb_app. simpl. rewrite orb_false_r. reflexivity. Qed.

(** X22.  After [register_input_type(ty)] the transform accepts an
    entity exactly when it accepted it before or the entity is of the
    class [ty]; the name, the output types and [run] are untouched; the
    type is not listed twice, and registering it again changes
    nothing. *)
Theorem register_input_type_adds_one_type (graph : Type)
  (ty : string) (self : Transform.t graph) :
  let self' := Registration.register_input_type graph ty self in
  (forall entity,
     Transform._validate_input graph self' entity
     = Transform._validate_input graph self entity
       || String.eqb (Transform.class_name entity) ty)
  /\ Transform.name graph self' = Transform.name graph self
  /\ Transform.output_types graph self' = Transform.output_types graph self
  /\ Transform.run graph self' = Transform.run graph self
  /\ (List.NoDup (Transform.input_types graph self) ->
      List.NoDup (Transform.input_types graph self'))
  /\ Registration.register_input_type graph ty self' = self'.
Proof.
  unfold Registration.register_input_type.
  destruct (existsb (String.eqb ty) (Transform.input_types graph self)) eqn:E;
    cbn [negb].
  - rewrite E. cbn [negb]. repeat split; auto.
    intros entity. unfold Transform._validate_input.
    destruct (String.eqb (Transform.class_name entity) ty) eqn:Ec.
    + apply String.eqb_eq in Ec. rewrite Ec, E. reflexivity.
    + rewrite orb_false_r. reflexivity.
  - cbn [Transform.input_types Transform.name Transform.output_types
         Transform.run].
    rewrite existsb_eqb_app, String.eqb_refl, orb_true_r. cbn [negb].
    repeat split; auto.
    + intros entity. unfold Transform._validate_input.
      cbn [Transform.input_types]. apply existsb_eqb_app.
    + intros Hnd. apply List.NoDup_app.
      * exact Hnd.
      * constructor; [intros []|constructor].
      * intros x Hx [Hy|[]]. subst x.
        apply member_eqb in Hx. congruence.
Qed.

(** ** More on the graph store *)

Section MoreGraphFacts.
Import GraphManager.

(** X23.  [add_edge] returns [None] exactly when one of the two ids is
    not the id of a node, and then the store is left as it was.
    Otherwise it returns the edge found under the id
    [source->target] afterwards, and every other edge, the nodes and
    the node objects are as before. *)
Theorem add_edge_needs_both_ends (s d r : string) (g : t) :
  let g' := fst (add_edge s d r g) in
  (snd (add_edge s d r g) = None
   <-> nodes g !! s = None \/ nodes g !! d = None)
  /\ (snd (add_edge s d r g) = None -> g' = g)
  /\ (forall e, snd (add_edge s d r g) = Some e ->
        edges g' !! edge_id s d = Some e)
  /\ (forall k, k <> edge_id s d -> edges g' !! k = edges g !! k)
  /\ nodes g' = nodes g /\ objects g' = objects g.
Proof.
  unfold add_edge.
  destruct (nodes g !! s) as [src|] eqn:Es; simpl.
  2:{ repeat split; auto; discriminate. }
  destruct (nodes g !! d) as [tgt|] eqn:Ed; simpl.
  2:{ repeat split; auto; discriminate. }
  destruct (edges g !! edge_id s d) as [e|] eqn:Ee; simpl.
  - repeat split; auto; try discriminate.
    + intros [H|H]; discriminate.
    + intros e' H. injection H as <-. exact Ee.
  - repeat split; auto; try discriminate.
    + intros [H|H]; discriminate.
    + intros e' H. injection H as <-. apply lookup_insert_eq.
    + intros k Hk. apply lookup_insert_ne. congruence.
Qed.

(** X24.  [add_node] registers the node under the id of the entity, and
    a second [add_node] for an entity with that id returns the node of
    the first call and changes nothing: the entity and the position
    given the second time are dropped. *)
Theorem add_node_keeps_the_first_entity
  (entity entity' : Entity.t) (p p' : float * float) (g : t) :
  Entity.id entity' = Entity.id entity ->
  let first := add_node entity p g in
  nodes (fst first) !! Entity.id entity = Some (snd first)
  /\ add_node entity' p' (fst first) = first.
Proof.
  intros Hid. unfold add_node.
  destruct (nodes g !! Entity.id entity) as [a|] eqn:E; simpl.
  - rewrite Hid, E. auto.
  - rewrite Hid, lookup_insert_eq. auto.
Qed.



End MoreGraphFacts.

(** ** The merge resolver *)

Section MoreResolverFacts.
Variable iteration : list string -> list string.
Variable node : Type.

Lemma consider_keeps_type (entity_type : string) (label_words : AIDock.words)
  (best : option node * float) (entry : string * node) (nd : node) :
  fst (AIDock.consider iteration node entity_type label_words best entry)
  = Some nd ->
  fst best = Some nd
  \/ (snd entry = nd
      /\ exists node_label,
           Text.cut_colon (Text.chars (Text.lower (fst entry))) []
           = Some (entity_type, node_label)).
Proof.
  destruct best as [best_match best_score], entry as [node_key nd0].
  unfold AIDock.consider. cbn [fst snd].
  destruct (Text.cut_colon (Text.chars (Text.lower node_key)) [])
    as [[node_type node_label]|]; [|auto].
  destruct (String.eqb node_type entity_type) eqn:E; cbn [negb]; [|auto].
  apply String.eqb_eq in E. subst node_type.
  match goal with
  | |- context [if ?c then (Some nd0, ?s) else _] => destruct c
  end; cbn [fst]; [|auto].
  intros H. injection H as <-. right. split; [reflexivity|]. eauto.
Qed.

Lemma search_keeps_type (entity_type : string) (label_words : AIDock.words)
  (nodes : Dict.t node) (nd : node) :
  forall best,
    fst (fold_left (AIDock.consider iteration node entity_type label_words)
           nodes best) = Some nd ->
    fst best = Some nd
    \/ exists key node_label,
         In (key, nd) nodes
         /\ Text.cut_colon (Text.chars (Text.lower key)) []
            = Some (entity_type, node_label).
Proof.
  induction nodes as [|[key nd0] rest IH]; intros best H; simpl in H; [auto|].
  apply IH in H. destruct H as [H|(key' & nl & Hin & Hc)].
  - apply consider_keeps_type in H. destruct H as [H|[Hnd (nl & Hc)]]; [auto|].
    simpl in *. subst nd0. right. exists key, nl. split; [left; reflexivity|exact Hc].
  - right. exists key', nl. split; [right; exact Hin|exact Hc].
Qed.

(** X26.  What [_find_matching_entity] returns is a node of the
    dictionary it is given: the node under the key [type:label], or a
    node whose key, in lower case, starts with the type asked for and a
    colon.  A node of another type is never returned by the search. *)
Theorem match_is_a_node_of_the_type_asked_for
  (entity_type label : string) (nodes : Dict.t node) (nd : node) :
  AIDock._find_matching_entity iteration node entity_type label nodes = Some nd ->
  Dict.get nodes (Text.lower entity_type +:+ ":" +:+ Text.lower label) = Some nd
  \/ exists key node_label,
       In (key, nd) nodes
       /\ Text.cut_colon (Text.chars (Text.lower key)) []
          = Some (Text.lower entity_type, node_label).
Proof.
  unfold AIDock._find_matching_entity.
  destruct (Dict.get nodes _) as [nd0|] eqn:E; [auto|].
  intros H. apply search_keeps_type in H.
  destruct H as [H|H]; [discriminate H|auto].
Qed.

End MoreResolverFacts.

(** ** [Email] *)

Lemma cut_Some (c : ascii) (l before after : list ascii) :
  Email.cut c l = Some (before, after) -> l = before ++ c :: after.
Proof.
  revert before. induction l as [|x r IH]; intros before; simpl; [discriminate|].
  destruct (Ascii.eqb x c) eqn:E.
  - apply Ascii.eqb_eq in E. subst x. intros H. injection H as <- <-. reflexivity.
  - destruct (Email.cut c r) as [[b a]|]; [|discriminate].
    intros H. injection H as <- <-. simpl. f_equal. apply IH. reflexivity.
Qed.

Lemma cut_None (c : ascii) (l : list ascii) :
  (forall x, In x l -> x <> c) -> Email.cut c l = None.
Proof.
  induction l as [|x r IH]; intros H; simpl; [reflexivity|].
  destruct (Ascii.eqb x c) eqn:E.
  - apply Ascii.eqb_eq in E. exfalso. apply (H x); [left; reflexivity|exact E].
  - rewrite IH; [reflexivity|]. intros y Hy. apply H. right. exact Hy.
Qed.

Lemma before_final_newline_spec (l : list ascii) :
  l = Email.before_final_newline l
  \/ l = Email.before_final_newline l ++ ["010"%char].
Proof.
  unfold Email.before_final_newline.
  destruct (rev l) as [|c r] eqn:E; [auto|].
  destruct (Ascii.eqb c "010") eqn:Ec; [|auto].
  apply Ascii.eqb_eq in Ec. subst c. right.
  rewrite <- (rev_involutive l), E. reflexivity.
Qed.

Lemma nonempty_all_forallb (p : ascii -> bool) (l : list ascii) :
  Email.nonempty_all p l = true -> l <> [] /\ forallb p l = true.
Proof. destruct l; simpl; [discriminate|]. intros H. split; [discriminate|exact H]. Qed.

(** A text that matches the pattern of a host has at least four
    characters, and no [@] among them. *)
Lemma host_match_shape (l : list ascii) :
  Email.host_match l = true ->
  (4 <= length l)%nat /\ forall x, In x l -> x <> "@"%char.
Proof.
  unfold Email.host_match.
  destruct (Email.cut "." (rev (Email.before_final_newline l)))
    as [[letters host]|] eqn:E; [|discriminate].
  intros H. apply andb_true_iff in H as [H Hhost].
  apply andb_true_iff in H as [Hlen Hletters].
  apply Nat.leb_le in Hlen.
  apply nonempty_all_forallb in Hhost as [Hne Hhost].
  apply cut_Some in E.
  assert (Hl : (4 <= length (Email.before_final_newline l))%nat).
  { rewrite <- length_rev, E, length_app. simpl.
    destruct host; [congruence|]. simpl. lia. }
  assert (Hat : forall x, In x (Email.before_final_newline l) -> x <> "@"%char).
  { intros x Hx. apply in_rev in Hx. rewrite E in Hx.
    rewrite forallb_forall in Hletters, Hhost.
    apply in_app_or in Hx. destruct Hx as [Hx|[Hx|Hx]].
    - apply Hletters in Hx. intros ->. discriminate Hx.
    - subst x. discriminate.
    - apply Hhost in Hx. intros ->. discriminate Hx. }
  destruct (before_final_newline_spec l) as [Hs|Hs]; rewrite Hs.
  - auto.
  - split; [rewrite length_app; simpl; lia|].
    intros x Hx. apply in_app_or in Hx. destruct Hx as [Hx|[Hx|[]]].
    + apply Hat. exact Hx.
    + subst x. discriminate.
Qed.

(** X27.  An [Email] built from an address alone.  When the address
    matches the pattern of [EmailValidator], the entity is built, its
    label is the address, and its domain is the text after the [@], a
    text that the validator of [domain] accepts.  When it does not, the
    constructor raises a [PropertyValidationError] under the name
    [address]. *)
Theorem email_is_built_from_a_valid_address `{B : Builtins}
  (l a uuid4 : string) :
  if Email.email_match a
  then exists e domain,
         Email.new l [("address", VStr a)] uuid4 = Ok e
         /\ Email.second_piece a = Some domain
         /\ Entity.properties (Entity.self e)
            = [("address", VStr a); ("domain", VStr domain)]
         /\ Entity.label (Entity.self e) = a
         /\ validate (StringValidator 3 None (Some Email.domain_regex))
              (VStr domain) = Ok (VStr domain)
  else exists message,
         Email.new l [("address", VStr a)] uuid4
         = Raise (PropertyValidationError "address" (VStr a)
                    (ExpText ("String must match pattern "
                              +:+ rx_pattern Email.email_regex))
                    message).
Proof.
  unfold Email.new, Entity.new, Entity.__post_init__.
  set (s0 := Entity.declare Email.class_ _).
  assert (Hs0 : s0 = Entity.mkfields l [("address", VStr a)]
            [("address", TStr); ("domain", TStr); ("notes", TStr);
             ("source", TStr); ("image", TStr)]
            [("address", EmailValidator Email.email_regex);
             ("domain", StringValidator 3 None (Some Email.domain_regex));
             ("notes", StringValidator 0 None None);
             ("source", StringValidator 0 None None);
             ("image", StringValidator 0 None None)]) by reflexivity.
  rewrite Hs0. clear Hs0 s0.
  unfold Entity.validate_properties.
  cbn [Entity.validate_items Entity.properties Entity.property_types
       Entity.property_validators Dict.get String.eqb Ascii.eqb Bool.eqb].
  cbn [validate EmailValidator StringValidator.validate
       PropertyValidator.validate isinstance negb bind py_len
       StringValidator.too_long rx_match Email.email_regex py_str].
  replace (Z.of_nat (String.length a) <? 0) with false
    by (symmetry; apply Z.ltb_ge; lia).
  destruct (Email.email_match a) eqn:Em; cbn [negb].
  - unfold Email.email_match in Em.
    destruct (Email.cut "@" (Text.chars a)) as [[local_part rest]|] eqn:Ec;
      [|discriminate].
    apply andb_true_iff in Em as [_ Hhost].
    destruct (host_match_shape rest Hhost) as [Hlen Hat].
    assert (Hsp : Email.second_piece a = Some (Text.text rest)).
    { unfold Email.second_piece. rewrite Ec, (cut_None _ _ Hat). reflexivity. }
    assert (Ha : a <> "").
    { intros ->. discriminate Ec. }
    destruct a as [|c a']; [congruence|].
    eexists. exists (Text.text rest).
    split.
    + cbn. rewrite Hsp. reflexivity.
    + split; [exact Hsp|]. split; [reflexivity|]. split; [reflexivity|].
      cbn [validate StringValidator.validate PropertyValidator.validate
           isinstance negb bind py_len StringValidator.too_long rx_match
           Email.domain_regex py_str].
      rewrite text_length, chars_text, Hhost.
      replace (Z.of_nat (length rest) <? 3) with false
        by (symmetry; apply Z.ltb_ge; lia).
      reflexivity.
  - eexists. reflexivity.
Qed.

(** ** Groups of nodes *)

Section GroupFacts.
Import GroupManager.

Lemma settle_stuck (groups : gmap string NodeGroup.t) (fuel : nat) :
  is_Some (groups !! group_name (size groups + 1)) ->
  forall group_id, is_Some (groups !! group_id) ->
  settle fuel groups group_id = None.
Proof.
  intros Hnext. induction fuel as [|fuel IH]; intros group_id [g Hg]; simpl;
    [reflexivity|].
  rewrite Hg. apply IH. exact Hnext.
Qed.

Lemma settle_free (groups : gmap string NodeGroup.t) (fuel : nat) group_id :
  groups !! group_id = None -> settle (S fuel) groups group_id = Some group_id.
Proof. intros H. simpl. rewrite H. reflexivity. Qed.

(** The nodes put into a new group: those asked for that the graph
    has. *)
Lemma fill_group (graph_nodes : gmap string nat) (node_ids : list string) :
  forall (g : NodeGroup.t) i,
    i ∈ NodeGroup.nodes
          (fold_left
             (fun g node_id =>
                match graph_nodes !! node_id with
                | Some _ => NodeGroup.add_node node_id g
                | None => g
                end) node_ids g)
    <-> i ∈ NodeGroup.nodes g \/ (In i node_ids /\ is_Some (graph_nodes !! i)).
Proof.
  induction node_ids as [|x r IH]; intros g i; simpl.
  - split; [auto|]. intros [H|[[] _]]. exact H.
  - rewrite IH. destruct (graph_nodes !! x) as [a|] eqn:E.
    + unfold NodeGroup.add_node. simpl. rewrite elem_of_union, elem_of_singleton.
      split.
      * intros [[->|H]|[H1 H2]]; [right; split; [auto|rewrite E; eauto]|auto|tauto].
      * intros [H|[[->|H1] H2]]; auto.
    + split.
      * intros [H|[H1 H2]]; [auto|tauto].
      * intros [H|[[->|H1] H2]]; [auto| |auto].
        rewrite E in H2. destruct H2 as [? H2]. discriminate H2.
Qed.

Lemma fill_group_keeps (graph_nodes : gmap string nat) (node_ids : list string) :
  forall (g : NodeGroup.t),
    let g' := fold_left
                (fun g node_id =>
                   match graph_nodes !! node_id with
                   | Some _ => NodeGroup.add_node node_id g
                   | None => g
                   end) node_ids g in
    NodeGroup.id g' = NodeGroup.id g /\ NodeGroup.name g' = NodeGroup.name g
    /\ NodeGroup.color g' = NodeGroup.color g
    /\ NodeGroup.expanded g' = NodeGroup.expanded g.
Proof.
  induction node_ids as [|x r IH]; intros g; simpl; [auto|].
  destruct (graph_nodes !! x); [|apply IH].
  destruct (IH (NodeGroup.add_node x g)) as (H1 & H2 & H3 & H4).
  simpl in *. auto.
Qed.

(** X28.  When [group_<n>] or [group_<n+1>] is free, [n] being the
    number of groups, [create_group] returns after at most two tests of
    the loop: the new group is stored under the first of the two ids
    that is free, no existing group is replaced, and the group holds
    those of the nodes asked for that are nodes of the graph. *)
Theorem create_group_takes_a_free_id (fuel : nat) (name : string)
  (node_ids : list string) (color : option string)
  (graph_nodes : gmap string nat) (groups : gmap string NodeGroup.t) :
  let n := size groups in
  groups !! group_name n = None \/ groups !! group_name (n + 1) = None ->
  exists group,
    create_group (S (S fuel)) name node_ids color graph_nodes groups
    = Some (<[NodeGroup.id group := group]> groups, group)
    /\ groups !! NodeGroup.id group = None
    /\ NodeGroup.id group
       = (match groups !! group_name n with
          | Some _ => group_name (n + 1)
          | None => group_name n
          end)
    /\ NodeGroup.name group = name
    /\ (forall i, i ∈ NodeGroup.nodes group
                  <-> In i node_ids /\ is_Some (graph_nodes !! i)).
Proof.
  intros n Hfree. unfold create_group. fold n.
  set (fill := fold_left _ node_ids).
  assert (Hid : settle (S (S fuel)) groups (group_name n)
                = Some (match groups !! group_name n with
                        | Some _ => group_name (n + 1)
                        | None => group_name n
                        end)
                /\ groups !! (match groups !! group_name n with
                           | Some _ => group_name (n + 1)
                           | None => group_name n
                           end) = None).
  { simpl. fold n. destruct (groups !! group_name n) as [g0|] eqn:E0.
    - destruct Hfree as [H|H]; [discriminate H|]. rewrite H. auto.
    - rewrite E0. auto. }
  destruct Hid as [Hid Hnone]. rewrite Hid.
  set (i0 := match groups !! group_name n with
             | Some _ => group_name (n + 1)
             | None => group_name n
             end) in *.
  set (c := match color with Some c => c | None => "#3d3d3d" end).
  destruct (fill_group_keeps graph_nodes node_ids (NodeGroup.new i0 name c))
    as (H1 & H2 & _ & _).
  fold fill in H1, H2. simpl in H1, H2.
  exists (fill (NodeGroup.new i0 name c)).
  rewrite H1. split; [reflexivity|]. split; [exact Hnone|].
  split; [reflexivity|]. split; [exact H2|].
  intros i. unfold fill.
  pose proof (fill_group graph_nodes node_ids (NodeGroup.new i0 name c) i)
    as [K1 K2].
  split.
  - intros Hi. destruct (K1 Hi) as [H|H]; [simpl in H; set_solver|exact H].
  - intros Hi. apply K2. right. exact Hi.
Qed.

(** X29.  When both [group_<n>] and [group_<n+1>] are taken, the loop
    of [create_group] tests the second id again and again: however many
    tests are allowed, [create_group] does not return. *)
Theorem create_group_loops_when_both_ids_are_taken (name : string)
  (node_ids : list string) (color : option string)
  (graph_nodes : gmap string nat) (groups : gmap string NodeGroup.t) :
  is_Some (groups !! group_name (size groups)) ->
  is_Some (groups !! group_name (size groups + 1)) ->
  forall fuel,
    create_group fuel name node_ids color graph_nodes groups = None.
Proof.
  intros H0 H1 fuel. unfold create_group.
  rewrite (settle_stuck groups fuel H1 _ H0). reflexivity.
Qed.

(** X30.  After the loop of [remove_node] over the groups, no group
    holds the node, and every group holds the other nodes it held. *)
Theorem forget_node_leaves_no_group (node_id : string)
  (groups : gmap string NodeGroup.t) :
  get_node_groups node_id (forget_node node_id groups) = ∅
  /\ (forall k g, groups !! k = Some g ->
        exists g', forget_node node_id groups !! k = Some g'
                   /\ NodeGroup.id g' = NodeGroup.id g
                   /\ NodeGroup.name g' = NodeGroup.name g
                   /\ forall i, i ∈ NodeGroup.nodes g'
                                <-> i ∈ NodeGroup.nodes g /\ i <> node_id).
Proof.
  unfold get_node_groups, forget_node. split.
  - apply map_empty. intros k. apply map_lookup_filter_None. right.
    intros g Hk. simpl.
    rewrite lookup_fmap in Hk.
    destruct (groups !! k) as [g0|]; [|discriminate].
    injection Hk as <-. unfold NodeGroup.contains_node, NodeGroup.remove_node.
    simpl. intros H. apply bool_decide_eq_true in H.
    apply elem_of_difference in H as [_ H]. apply H. apply elem_of_singleton.
    reflexivity.
  - intros k g Hk. exists (NodeGroup.remove_node node_id g).
    rewrite lookup_fmap, Hk. simpl.
    split; [reflexivity|]. split; [reflexivity|]. split; [reflexivity|].
    intros i. rewrite elem_of_difference, elem_of_singleton. reflexivity.
Qed.

End GroupFacts.

Section StoreCases.
#[local] Existing Instance no_conversions.

Lemma register_input_type_adds_one_type_witness :
  let self := reverse_image_search (run_returning []) in
  let self' := Registration.register_input_type unit "Person" self in
  (forall entity,
     Transform._validate_input unit self' entity
     = Transform._validate_input unit self entity
       || String.eqb (Transform.class_name entity) "Person")
  /\ Transform.name unit self' = Transform.name unit self
  /\ Transform.output_types unit self' = Transform.output_types unit self
  /\ Transform.run unit self' = Transform.run unit self
  /\ (List.NoDup (Transform.input_types unit self) ->
      List.NoDup (Transform.input_types unit self'))
  /\ Registration.register_input_type unit "Person" self' = self'.
Proof.
  apply (register_input_type_adds_one_type unit "Person"
           (reverse_image_search (run_returning []))).
Defined.

Lemma add_edge_needs_both_ends_witness :
  let g := fst (GraphManager.add_node (blank_entity Person "a") origin
                  GraphManager.init) in
  snd (GraphManager.add_edge "a" "b" "knows" g) = None
  /\ fst (GraphManager.add_edge "a" "b" "knows" g) = g.
Proof.
  pose proof (add_edge_needs_both_ends "a" "b" "knows"
                (fst (GraphManager.add_node (blank_entity Person "a") origin
                        GraphManager.init))) as (H1 & H2 & _).
  assert (E : snd (GraphManager.add_edge "a" "b" "knows"
                     (fst (GraphManager.add_node (blank_entity Person "a")
                             origin GraphManager.init))) = None).
  { apply H1. right. vm_compute. reflexivity. }
  split; [exact E|]. apply H2. exact E.
Defined.

Lemma add_node_keeps_the_first_entity_witness :
  let first := GraphManager.add_node (blank_entity Person "a") origin
                 GraphManager.init in
  GraphManager.nodes (fst first) !! Entity.id (blank_entity Person "a")
  = Some (snd first)
  /\ GraphManager.add_node (blank_entity Company "a") origin (fst first)
     = first.
Proof.
  apply (add_node_keeps_the_first_entity (blank_entity Person "a")
           (blank_entity Company "a") origin origin GraphManager.init).
  reflexivity.
Defined.


Lemma match_is_a_node_of_the_type_asked_for_witness :
  let nodes := [("person:jane doe", 7%nat); ("event:robbery", 8%nat)] in
  Dict.get nodes (Text.lower "Person" +:+ ":" +:+ Text.lower "Jane Doe")
  = Some 7%nat
  \/ exists key node_label,
       In (key, 7%nat) nodes
       /\ Text.cut_colon (Text.chars (Text.lower key)) []
          = Some (Text.lower "Person", node_label).
Proof.
  apply (match_is_a_node_of_the_type_asked_for AIDock.insertion_order nat
           "Person" "Jane Doe"
           [("person:jane doe", 7%nat); ("event:robbery", 8%nat)] 7%nat).
  vm_compute. reflexivity.
Defined.

Lemma create_group_takes_a_free_id_witness :
  let groups : gmap string NodeGroup.t := ∅ in
  let graph_nodes : gmap string nat := {["a" := 0%nat]} in
  let n := size groups in
  exists group,
    GroupManager.create_group 2 "Cluster" ["a"; "b"] None graph_nodes groups
    = Some (<[NodeGroup.id group := group]> groups, group)
    /\ groups !! NodeGroup.id group = None
    /\ NodeGroup.id group
       = (match groups !! GroupManager.group_name n with
          | Some _ => GroupManager.group_name (n + 1)
          | None => GroupManager.group_name n
          end)
    /\ NodeGroup.name group = "Cluster"
    /\ (forall i, i ∈ NodeGroup.nodes group
                  <-> In i ["a"; "b"] /\ is_Some (graph_nodes !! i)).
Proof.
  apply (create_group_takes_a_free_id 0 "Cluster" ["a"; "b"] None
           {["a" := 0%nat]} ∅).
  left. apply lookup_empty.
Defined.

Lemma create_group_loops_when_both_ids_are_taken_witness :
  size four_groups_two_deleted = 2%nat
  /\ forall fuel,
       GroupManager.create_group fuel "Cluster" [] None ∅
         four_groups_two_deleted = None.
Proof.
  split; [vm_compute; reflexivity|].
  apply (create_group_loops_when_both_ids_are_taken "Cluster" [] None ∅
           four_groups_two_deleted).
  - vm_compute. eexists. reflexivity.
  - vm_compute. eexists. reflexivity.
Defined.

Lemma forget_node_leaves_no_group_witness :
  let groups : gmap string NodeGroup.t :=
    {["group_0" := NodeGroup.add_node "a" (NodeGroup.new "group_0" "Cluster" "#3d3d3d")]} in
  GroupManager.get_node_groups "a" (GroupManager.forget_node "a" groups) = ∅
  /\ (forall k g, groups !! k = Some g ->
        exists g', GroupManager.forget_node "a" groups !! k = Some g'
                   /\ NodeGroup.id g' = NodeGroup.id g
                   /\ NodeGroup.name g' = NodeGroup.name g
                   /\ forall i, i ∈ NodeGroup.nodes g'
                                <-> i ∈ NodeGroup.nodes g /\ i <> "a").
Proof.
  apply (forget_node_leaves_no_group "a"
           {["group_0" := NodeGroup.add_node "a"
                            (NodeGroup.new "group_0" "Cluster" "#3d3d3d")]}).
Defined.

End StoreCases.
